(** * The books router of the catalog service

    A shallow embedding of the [booksRouter] of the catalog service: its
    middlewares and handlers, the relational meaning of the SQL text each
    handler hands to the pool, and the properties of the catalog resource
    manager that follow.

    Layout:
    - [Js]          the JavaScript values the handlers inspect, with their
                    coercions and comparisons;
    - [Db]          the three tables, a statement and its result, GROUP BY,
                    ORDER BY and the aggregated view;
    - [Engine]      the meaning of each statement of the router;
    - [Express]     the response, the world of a request, handler code;
    - [Pool]        [pool.query] with [.then]/[.catch] and with [await];
    - [Str], [Req]  string methods and the request;
    - [BooksRouter] the routes, one definition per middleware, in source
                    order;
    - [Reference], [Samples]  a concrete choice of the collaborators, and
                    the stores and requests the concrete runs use;
    - [Catalog], [Entry]  the ten registrations as one table, the unique
                    keys, and book entries whose fields are well typed;
    - the properties. *)

From Stdlib Require Import String Ascii List ZArith QArith Lia Bool.
From Stdlib Require Import Sorting.Sorted Sorting.Permutation.
Import ListNotations.
Local Open Scope string_scope.
Local Open Scope Q_scope.
Local Open Scope list_scope.

Set Implicit Arguments.

(* ===================================================================== *)
(** * JavaScript values                                                   *)
(* ===================================================================== *)

(** The primitive values that reach the handlers through [request.body] and
    [request.params].  Numbers are rationals; [NaN] is the [None] of
    [ToNumber]. *)
Inductive value : Type :=
| JUndefined
| JNull
| JBool (b : bool)
| JNum (q : Q)
| JStr (s : string).

(** The collaborators the router imports but does not define.

    - [StringToNumber] is the language's conversion of a string to a number
      ([None] is [NaN]); it is what [Number(s)], unary [+] and the relational
      operators apply to a string operand.
    - [pgNumeric] is the storage engine's reading of a text bind value
      destined for a numeric column ([None]: the engine rejects the text).
    - [isStringProvided] and [isNumberProvided] are the two members of
      [validationFunctions] ([core/utilities], not part of the sources). *)
Class Collaborators : Type := {
  StringToNumber : string -> option Q;
  pgNumeric : string -> option Q;
  isStringProvided : value -> bool;
  isNumberProvided : value -> bool
}.

(** What the router relies on from the validation helpers: a number is a
    provided number, a non-empty string is a provided string. *)
Class HelpersAccept (C : Collaborators) : Prop := {
  number_is_provided : forall q, isNumberProvided (JNum q) = true;
  string_is_provided : forall s, s <> EmptyString -> isStringProvided (JStr s) = true
}.

Definition Qlt_bool (x y : Q) : bool := negb (Qle_bool y x).

Module Js.
Section WithCollaborators.
Context {C : Collaborators}.

(** [Number(v)], also the coercion behind unary [+] and the relational
    operators. *)
Definition ToNumber (v : value) : option Q :=
  match v with
  | JUndefined => None
  | JNull => Some 0
  | JBool b => Some (if b then 1 else 0)
  | JNum q => Some q
  | JStr s => StringToNumber s
  end.

(** [a < b]: two strings compare as strings, anything else as numbers, and
    a comparison with [NaN] is false. *)
Definition lt (a b : value) : bool :=
  match a, b with
  | JStr s, JStr t => String.ltb s t
  | _, _ =>
      match ToNumber a, ToNumber b with
      | Some x, Some y => Qlt_bool x y
      | _, _ => false
      end
  end.

(** [a <= b] *)
Definition le (a b : value) : bool :=
  match a, b with
  | JStr s, JStr t => String.leb s t
  | _, _ =>
      match ToNumber a, ToNumber b with
      | Some x, Some y => Qle_bool x y
      | _, _ => false
      end
  end.

(** [a > b] and [a >= b] *)
Definition gt (a b : value) : bool := lt b a.
Definition ge (a b : value) : bool := le b a.

(** [v != null] and [v === null || v === undefined] *)
Definition not_nullish (v : value) : bool :=
  match v with
  | JUndefined | JNull => false
  | _ => true
  end.

(** [v == lit] for a string literal [lit] that is not numeric (the two
    ordering keywords): only the very string is loosely equal to it. *)
Definition eq_keyword (v : value) (lit : string) : bool :=
  match v with
  | JStr s => String.eqb s lit
  | _ => false
  end.

End WithCollaborators.
End Js.

(** [Math.pow(10, 13)] *)
Definition pow_10_13 : Q := 10000000000000 # 1.

(* ===================================================================== *)
(** * The storage engine: tables and the meaning of each query template   *)
(* ===================================================================== *)

Module Db.

(** The columns of [Books], [Author] and [Books_Authors] that the SQL text
    of the router names.  Numeric columns hold rationals; the column types
    of the schema are not part of the sources. *)
Record BookRow : Type := {
  isbn13 : Q;
  publication_year : Q;
  original_title : string;
  title : string;
  rating_avg : Q;
  rating_count : Q;
  rating_1_star : Q;
  rating_2_star : Q;
  rating_3_star : Q;
  rating_4_star : Q;
  rating_5_star : Q;
  image_url : string;
  image_small_url : string
}.

Record AuthorRow : Type := {
  author_id : Z;
  author_name : string
}.

Record LinkRow : Type := {
  ba_isbn13 : Q;
  ba_author_id : Z
}.

Record Store : Type := {
  Books : list BookRow;
  Author : list AuthorRow;
  Books_Authors : list LinkRow
}.

(** A result row shaped like a book: the thirteen book columns and the
    [authors] column, which is NULL or missing when [None]. *)
Record Row : Type := {
  columns : BookRow;
  authors : option string
}.

(** [result] of a resolved [pool.query], or the error of a rejected one
    with its optional [detail]. *)
Inductive QueryResult : Type :=
| Rows (rows : list Row)
| AuthorIds (ids : list Z)
| Counted (exact_count : Z)
| Failure (detail : option string).

Inductive OrderBy : Type := rating_avg_ASC | rating_avg_DESC.

(** The SQL texts of the router, in source order. *)
Inductive Template : Type :=
| InsertBook
| UpsertAuthor
| InsertLink
| SelectByIsbn
| DeleteByIsbn
| SelectByRating (orderBy : OrderBy)
| UpdateRatings
| SelectByTitle
| DeleteByTitle
| SelectByAuthor
| DeleteByAuthor
| SelectPage
| CountBooks.

(** [pool.query(theQuery, values)] *)
Record Query : Type := {
  theQuery : Template;
  values : list value
}.

(** ** Generic relational pieces *)

(** SQL equality of two book rows, column by column (what GROUP BY over
    all thirteen columns compares). *)
Definition book_eqb (x y : BookRow) : bool :=
  Qeq_bool (isbn13 x) (isbn13 y)
  && Qeq_bool (publication_year x) (publication_year y)
  && String.eqb (original_title x) (original_title y)
  && String.eqb (title x) (title y)
  && Qeq_bool (rating_avg x) (rating_avg y)
  && Qeq_bool (rating_count x) (rating_count y)
  && Qeq_bool (rating_1_star x) (rating_1_star y)
  && Qeq_bool (rating_2_star x) (rating_2_star y)
  && Qeq_bool (rating_3_star x) (rating_3_star y)
  && Qeq_bool (rating_4_star x) (rating_4_star y)
  && Qeq_bool (rating_5_star x) (rating_5_star y)
  && String.eqb (image_url x) (image_url y)
  && String.eqb (image_small_url x) (image_small_url y).

(** [books b JOIN Books_Authors ba ON b.isbn13 = ba.isbn13
           JOIN Author a ON ba.Author_id = a.Author_id],
    scanned in table order. *)
Definition joined (s : Store) : list (BookRow * AuthorRow) :=
  flat_map (fun b =>
    flat_map (fun ba =>
      if Qeq_bool (isbn13 b) (ba_isbn13 ba)
      then map (fun a => (b, a))
               (filter (fun a => Z.eqb (ba_author_id ba) (author_id a))
                       (Author s))
      else [])
      (Books_Authors s))
    (Books s).

(** GROUP BY: rows with equal keys are collected, in scan order, under
    the first key met. *)
Fixpoint add_to_group {K V : Type} (eqb : K -> K -> bool) (k : K) (v : V)
         (gs : list (K * list V)) : list (K * list V) :=
  match gs with
  | [] => [(k, [v])]
  | (k', vs) :: rest =>
      if eqb k' k then (k', vs ++ [v]) :: rest
      else (k', vs) :: add_to_group eqb k v rest
  end.

Definition group_by {K V : Type} (eqb : K -> K -> bool)
           (rows : list (K * V)) : list (K * list V) :=
  fold_left (fun gs kv => add_to_group eqb (fst kv) (snd kv) gs) rows [].

(** ORDER BY as an insertion sort on a boolean order. *)
Fixpoint insert_by {A : Type} (leb : A -> A -> bool) (x : A) (l : list A)
  : list A :=
  match l with
  | [] => [x]
  | y :: l' => if leb x y then x :: l else y :: insert_by leb x l'
  end.

Definition sort_by {A : Type} (leb : A -> A -> bool) (l : list A) : list A :=
  fold_right (insert_by leb) [] l.

(** [string_agg(names, ', ')] over the rows in the order given. *)
Definition string_agg (names : list string) : string :=
  String.concat ", " names.

(** [string_agg(a.Author_name, ', ' ORDER BY a.Author_name)] *)
Definition string_agg_ordered (names : list string) : string :=
  string_agg (sort_by String.leb names).

(** [TRIM(s)]: spaces removed at both ends. *)
Fixpoint ltrim (s : string) : string :=
  match s with
  | String " " s' => ltrim s'
  | _ => s
  end.

Fixpoint rtrim (s : string) : string :=
  match s with
  | EmptyString => EmptyString
  | String c s' =>
      match rtrim s' with
      | EmptyString => if Ascii.eqb c " " then EmptyString
                       else String c EmptyString
      | t => String c t
      end
  end.

Definition TRIM (s : string) : string := rtrim (ltrim s).

(** The denormalized view shared by the reads and by the by-key and
    by-title deletes:
    [SELECT b.*, string_agg(a.Author_name, ', ' ORDER BY a.Author_name)
     FROM (joined) WHERE (where_) GROUP BY (every column of b)].
    GROUP BY without ORDER BY leaves the order of the groups to the engine;
    they are listed here in scan order. *)
Definition book_view (where_ : BookRow * AuthorRow -> bool) (s : Store)
  : list Row :=
  map (fun g => {| columns := fst g;
                   authors := Some (string_agg_ordered (snd g)) |})
      (group_by book_eqb
         (map (fun j => (fst j, author_name (snd j)))
              (filter where_ (joined s)))).

End Db.

Module Engine.
Section WithCollaborators.
Context {C : Collaborators}.
Import Db.

(** ** Bind values *)

(** What a bind value becomes for a column: NULL, a value of the column's
    type, or a text the engine refuses.  A number or a boolean bound to a
    text column is counted as refused; the driver would send its text, which
    the language's number formatting, not among the sources, decides. *)
Inductive bound (A : Type) : Type :=
| Null
| Bound (a : A)
| Rejected.
Arguments Null {A}.
Arguments Rejected {A}.

Definition bind_numeric (v : value) : bound Q :=
  match v with
  | JUndefined | JNull => Null
  | JNum q => Bound q
  | JStr s => match pgNumeric s with
              | Some q => Bound q
              | None => Rejected
              end
  | JBool _ => Rejected
  end.

Definition bind_text (v : value) : bound string :=
  match v with
  | JUndefined | JNull => Null
  | JStr s => Bound s
  | JNum _ | JBool _ => Rejected
  end.

(** Values for the columns of a written row: every one must be present and
    well typed (the columns are taken to be NOT NULL). *)
Fixpoint numerics (vs : list value) : option (list Q) :=
  match vs with
  | [] => Some []
  | v :: vs' =>
      match bind_numeric v, numerics vs' with
      | Bound q, Some qs => Some (q :: qs)
      | _, _ => None
      end
  end.

Fixpoint texts (vs : list value) : option (list string) :=
  match vs with
  | [] => Some []
  | v :: vs' =>
      match bind_text v, texts vs' with
      | Bound s, Some ss => Some (s :: ss)
      | _, _ => None
      end
  end.

(** An integer-valued number, for LIMIT, OFFSET and author ids. *)
Definition as_integer (q : Q) : option Z :=
  let r := Qred q in
  if Pos.eqb (Qden r) 1 then Some (Qnum r) else None.

(** ** Writes *)

(** The [detail] of a unique-key violation on [Books]. *)
Definition duplicate_key_detail : string := "Key (isbn13) already exists.".

Definition has_isbn (n : Q) (b : BookRow) : bool := Qeq_bool (isbn13 b) n.

(** [INSERT INTO Books (...) VALUES ($1, ..., $13) RETURNING *] *)
Definition insert_book (vs : list value) (s : Store) : QueryResult * Store :=
  match vs with
  | [i; p; ot; t; avg; c; r1; r2; r3; r4; r5; u; su] =>
      match numerics [i; p; avg; c; r1; r2; r3; r4; r5], texts [ot; t; u; su] with
      | Some [i'; p'; avg'; c'; r1'; r2'; r3'; r4'; r5'], Some [ot'; t'; u'; su'] =>
          if existsb (has_isbn i') (Books s)
          then (Failure (Some duplicate_key_detail), s)
          else
            let row := {| isbn13 := i'; publication_year := p';
                          original_title := ot'; title := t';
                          rating_avg := avg'; rating_count := c';
                          rating_1_star := r1'; rating_2_star := r2';
                          rating_3_star := r3'; rating_4_star := r4';
                          rating_5_star := r5';
                          image_url := u'; image_small_url := su' |} in
            (Rows [ {| columns := row; authors := None |} ],
             {| Books := Books s ++ [row];
                Author := Author s;
                Books_Authors := Books_Authors s |})
      | _, _ => (Failure None, s)
      end
  | _ => (Failure None, s)
  end.

Definition fresh_author_id (s : Store) : Z :=
  1 + fold_right Z.max 0%Z (map author_id (Author s)).

(** [INSERT INTO Author (author_name) VALUES ($1)
     ON CONFLICT (author_name) DO UPDATE SET author_name = EXCLUDED.author_name
     RETURNING author_id] *)
Definition upsert_author (vs : list value) (s : Store) : QueryResult * Store :=
  match vs with
  | [v] =>
      match bind_text v with
      | Bound name =>
          match find (fun a => String.eqb (author_name a) name) (Author s) with
          | Some a => (AuthorIds [author_id a], s)
          | None =>
              let id := fresh_author_id s in
              (AuthorIds [id],
               {| Books := Books s;
                  Author := Author s ++ [ {| author_id := id; author_name := name |} ];
                  Books_Authors := Books_Authors s |})
          end
      | _ => (Failure None, s)
      end
  | _ => (Failure None, s)
  end.

(** [INSERT INTO books_authors (isbn13, author_id) VALUES ($1, $2)
     ON CONFLICT (isbn13, author_id) DO NOTHING] *)
Definition insert_link (vs : list value) (s : Store) : QueryResult * Store :=
  match vs with
  | [vi; va] =>
      match bind_numeric vi, bind_numeric va with
      | Bound i, Bound a =>
          match as_integer a with
          | Some id =>
              if existsb (fun ba => Qeq_bool (ba_isbn13 ba) i
                                    && Z.eqb (ba_author_id ba) id)
                         (Books_Authors s)
              then (Rows [], s)
              else (Rows [],
                    {| Books := Books s;
                       Author := Author s;
                       Books_Authors :=
                         Books_Authors s ++ [ {| ba_isbn13 := i; ba_author_id := id |} ] |})
          | None => (Failure None, s)
          end
      | _, _ => (Failure None, s)
      end
  | _ => (Failure None, s)
  end.

Definition set_ratings (avg c r1 r2 r3 r4 r5 : Q) (b : BookRow) : BookRow :=
  {| isbn13 := isbn13 b; publication_year := publication_year b;
     original_title := original_title b; title := title b;
     rating_avg := avg; rating_count := c;
     rating_1_star := r1; rating_2_star := r2; rating_3_star := r3;
     rating_4_star := r4; rating_5_star := r5;
     image_url := image_url b; image_small_url := image_small_url b |}.

Definition returning_star (b : BookRow) : Row :=
  {| columns := b; authors := None |}.

(** [UPDATE Books SET rating_avg = $1, ..., rating_5_star = $7
     WHERE isbn13 = $8 RETURNING *] *)
Definition update_ratings (vs : list value) (s : Store) : QueryResult * Store :=
  match vs with
  | [avg; c; r1; r2; r3; r4; r5; i] =>
      match numerics [avg; c; r1; r2; r3; r4; r5], bind_numeric i with
      | Some [avg'; c'; r1'; r2'; r3'; r4'; r5'], Bound n =>
          let upd := set_ratings avg' c' r1' r2' r3' r4' r5' in
          (Rows (map (fun b => returning_star (upd b))
                     (filter (has_isbn n) (Books s))),
           {| Books := map (fun b => if has_isbn n b then upd b else b) (Books s);
              Author := Author s;
              Books_Authors := Books_Authors s |})
      | Some _, Null => (Rows [], s)
      | _, _ => (Failure None, s)
      end
  | _ => (Failure None, s)
  end.

(** [(SELECT authors FROM delete_book)] used as an expression: NULL over no
    row, the value over one row, an error over more than one. *)
Definition scalar_subquery (cte : list (option string)) : option (option string) :=
  match cte with
  | [] => Some None
  | [a] => Some a
  | _ :: _ :: _ => None
  end.

(** [DELETE FROM Books WHERE (doomed) RETURNING *, (authors_of row)].  The
    returning expression is evaluated for each deleted row; one failing
    evaluation fails the statement, which then deletes nothing.  Link rows
    of a deleted book go with it: the schema is not among the sources and is
    taken to cascade; the properties of the deletes are stated of [Books]. *)
Fixpoint returning (authors_of : BookRow -> option (option string))
         (deleted : list BookRow) : option (list Row) :=
  match deleted with
  | [] => Some []
  | b :: rest =>
      match authors_of b, returning authors_of rest with
      | Some a, Some rows => Some ({| columns := b; authors := a |} :: rows)
      | _, _ => None
      end
  end.

Definition delete_books (doomed : BookRow -> bool)
           (authors_of : BookRow -> option (option string)) (s : Store)
  : QueryResult * Store :=
  match returning authors_of (filter doomed (Books s)) with
  | Some rows =>
      (Rows rows,
       {| Books := filter (fun b => negb (doomed b)) (Books s);
          Author := Author s;
          Books_Authors :=
            filter (fun ba => negb (existsb (fun b => doomed b
                                               && Qeq_bool (isbn13 b) (ba_isbn13 ba))
                                            (Books s)))
                   (Books_Authors s) |})
  | None => (Failure None, s)
  end.

(** ** Reads and read-then-delete statements *)

Definition avg_between (lo hi : Q) (b : BookRow) : bool :=
  Qle_bool lo (rating_avg b) && Qle_bool (rating_avg b) hi.

Definition has_title (t : string) (b : BookRow) : bool :=
  String.eqb (title b) t.

Definition by_book (p : BookRow -> bool) (j : BookRow * AuthorRow) : bool :=
  p (fst j).

Definition written_by (name : string) (j : BookRow * AuthorRow) : bool :=
  String.eqb (author_name (snd j)) name.

(** [... WHERE b.isbn13 = $1 GROUP BY ...] *)
Definition select_by_isbn (vs : list value) (s : Store) : QueryResult * Store :=
  match vs with
  | [i] =>
      match bind_numeric i with
      | Bound n => (Rows (book_view (by_book (has_isbn n)) s), s)
      | Null => (Rows [], s)
      | Rejected => (Failure None, s)
      end
  | _ => (Failure None, s)
  end.

(** [WITH delete_book AS (... WHERE b.isbn13 = $1 GROUP BY ...)
     DELETE FROM Books WHERE isbn13 = $1
     RETURNING *, (SELECT authors FROM delete_book)] *)
Definition delete_by_isbn (vs : list value) (s : Store) : QueryResult * Store :=
  match vs with
  | [i] =>
      match bind_numeric i with
      | Bound n =>
          let delete_book := book_view (by_book (has_isbn n)) s in
          delete_books (has_isbn n)
                       (fun _ => scalar_subquery (map authors delete_book)) s
      | Null => (Rows [], s)
      | Rejected => (Failure None, s)
      end
  | _ => (Failure None, s)
  end.

Definition avg_leb (x y : Row) : bool :=
  Qle_bool (rating_avg (columns x)) (rating_avg (columns y)).

Definition order_leb (o : OrderBy) (x y : Row) : bool :=
  match o with
  | rating_avg_ASC => avg_leb x y
  | rating_avg_DESC => avg_leb y x
  end.

(** [... WHERE rating_avg >= $1 AND rating_avg <= $2 GROUP BY ...
     ORDER BY ${orderBy}] *)
Definition select_by_rating (o : OrderBy) (vs : list value) (s : Store)
  : QueryResult * Store :=
  match vs with
  | [vmin; vmax] =>
      match bind_numeric vmin, bind_numeric vmax with
      | Bound lo, Bound hi =>
          (Rows (sort_by (order_leb o)
                         (book_view (by_book (avg_between lo hi)) s)), s)
      | Rejected, _ | _, Rejected => (Failure None, s)
      | _, _ => (Rows [], s)
      end
  | _ => (Failure None, s)
  end.

(** [... WHERE title = $1 GROUP BY ...] *)
Definition select_by_title (vs : list value) (s : Store) : QueryResult * Store :=
  match vs with
  | [v] =>
      match bind_text v with
      | Bound t => (Rows (book_view (by_book (has_title t)) s), s)
      | Null => (Rows [], s)
      | Rejected => (Failure None, s)
      end
  | _ => (Failure None, s)
  end.

(** [WITH delete_book AS (... WHERE b.title = $1 GROUP BY ...)
     DELETE FROM Books WHERE title = $1
     RETURNING *, (SELECT authors FROM delete_book)]: the subquery is the
    same for every deleted row. *)
Definition delete_by_title (vs : list value) (s : Store) : QueryResult * Store :=
  match vs with
  | [v] =>
      match bind_text v with
      | Bound t =>
          let delete_book := book_view (by_book (has_title t)) s in
          delete_books (has_title t)
                       (fun _ => scalar_subquery (map authors delete_book)) s
      | Null => (Rows [], s)
      | Rejected => (Failure None, s)
      end
  | _ => (Failure None, s)
  end.

(** [... WHERE a.Author_name = $1 GROUP BY ...]: the join rows of other
    authors are filtered out before the aggregation. *)
Definition select_by_author (vs : list value) (s : Store) : QueryResult * Store :=
  match vs with
  | [v] =>
      match bind_text v with
      | Bound name => (Rows (book_view (written_by name) s), s)
      | Null => (Rows [], s)
      | Rejected => (Failure None, s)
      end
  | _ => (Failure None, s)
  end.

(** [SELECT b.isbn13, string_agg(TRIM(a.Author_Name), ', ') AS authors
     FROM (joined)
     WHERE b.isbn13 IN (SELECT b2.isbn13 FROM (joined) WHERE a2.Author_Name = $1)
     GROUP BY b.isbn13]: no ORDER BY inside the aggregate, so the names come
    in scan order. *)
Definition delete_book_by_author (name : string) (s : Store)
  : list (Q * option string) :=
  map (fun g => (fst g, Some (string_agg (snd g))))
      (group_by Qeq_bool
         (map (fun j => (isbn13 (fst j), TRIM (author_name (snd j))))
              (filter (fun j =>
                         existsb (fun j2 => written_by name j2
                                            && Qeq_bool (isbn13 (fst j2)) (isbn13 (fst j)))
                                 (joined s))
                      (joined s)))).

(** [DELETE FROM Books WHERE isbn13 IN (SELECT isbn13 FROM delete_book)
     RETURNING *, (SELECT authors FROM delete_book
                   WHERE delete_book.isbn13 = Books.isbn13)] *)
Definition delete_by_author (vs : list value) (s : Store) : QueryResult * Store :=
  match vs with
  | [v] =>
      match bind_text v with
      | Bound name =>
          let delete_book := delete_book_by_author name s in
          delete_books
            (fun b => existsb (fun d => Qeq_bool (fst d) (isbn13 b)) delete_book)
            (fun b => scalar_subquery
                        (map snd (filter (fun d => Qeq_bool (fst d) (isbn13 b))
                                         delete_book)))
            s
      | Null => (Rows [], s)
      | Rejected => (Failure None, s)
      end
  | _ => (Failure None, s)
  end.

(** The largest BIGINT, the type of LIMIT and OFFSET. *)
Definition max_bigint : Z := 9223372036854775807.

(** [... GROUP BY ... LIMIT $1 OFFSET $2] over the whole view.  The text has
    no ORDER BY: the rows a page holds depend on the order the engine
    produces the groups in, here the scan order. *)
Definition select_page (vs : list value) (s : Store) : QueryResult * Store :=
  match vs with
  | [vl; vo] =>
      match bind_numeric vl, bind_numeric vo with
      | Bound l, Bound o =>
          match as_integer l, as_integer o with
          | Some limit, Some offset =>
              if (0 <=? limit)%Z && (0 <=? offset)%Z
                 && (limit <=? max_bigint)%Z && (offset <=? max_bigint)%Z
              then (Rows (firstn (Z.to_nat limit)
                            (skipn (Z.to_nat offset)
                               (book_view (fun _ => true) s))), s)
              else (Failure None, s)
          | _, _ => (Failure None, s)
          end
      | _, _ => (Failure None, s)
      end
  | _ => (Failure None, s)
  end.

(** [SELECT count( * ) AS exact_count FROM Books] *)
Definition count_books (s : Store) : QueryResult * Store :=
  (Counted (Z.of_nat (length (Books s))), s).

(** The engine: one statement against the store. *)
Definition exec (q : Query) (s : Store) : QueryResult * Store :=
  match theQuery q with
  | InsertBook => insert_book (values q) s
  | UpsertAuthor => upsert_author (values q) s
  | InsertLink => insert_link (values q) s
  | SelectByIsbn => select_by_isbn (values q) s
  | DeleteByIsbn => delete_by_isbn (values q) s
  | SelectByRating o => select_by_rating o (values q) s
  | UpdateRatings => update_ratings (values q) s
  | SelectByTitle => select_by_title (values q) s
  | DeleteByTitle => delete_by_title (values q) s
  | SelectByAuthor => select_by_author (values q) s
  | DeleteByAuthor => delete_by_author (values q) s
  | SelectPage => select_page (values q) s
  | CountBooks => count_books s
  end.

End WithCollaborators.
End Engine.

(* ===================================================================== *)
(** * The wire shape of a book                                            *)
(* ===================================================================== *)

Record IRatings : Type := {
  average : Q;
  count : Q;
  rating_1 : Q;
  rating_2 : Q;
  rating_3 : Q;
  rating_4 : Q;
  rating_5 : Q
}.

Record IUrlIcon : Type := {
  large : string;
  small : string
}.

(** [authors] is [None] when the row carries no such column or a NULL. *)
Record IBook : Type := {
  isbn13 : Q;
  authors : option string;
  publication : Q;
  original_title : string;
  title : string;
  ratings : IRatings;
  icons : IUrlIcon
}.

(** [Number(row.isbn13)] gives back the stored integer: the ISBNs are taken
    in the documented range, far below 2^53, where the conversion is
    exact. *)
Definition toBook (row : Db.Row) : IBook :=
  let sanitizedRatings :=
    {| average := Db.rating_avg (Db.columns row);
       count := Db.rating_count (Db.columns row);
       rating_1 := Db.rating_1_star (Db.columns row);
       rating_2 := Db.rating_2_star (Db.columns row);
       rating_3 := Db.rating_3_star (Db.columns row);
       rating_4 := Db.rating_4_star (Db.columns row);
       rating_5 := Db.rating_5_star (Db.columns row) |} in
  let sanitizedUrls :=
    {| large := Db.image_url (Db.columns row);
       small := Db.image_small_url (Db.columns row) |} in
  {| isbn13 := Db.isbn13 (Db.columns row);
     authors := Db.authors row;
     publication := Db.publication_year (Db.columns row);
     original_title := Db.original_title (Db.columns row);
     title := Db.title (Db.columns row);
     ratings := sanitizedRatings;
     icons := sanitizedUrls |}.

Definition toBooks (row : list Db.Row) : list IBook := map toBook row.

(* ===================================================================== *)
(** * The framework: response, pool and middleware chain                  *)
(* ===================================================================== *)

Module Express.

Record Pagination : Type := {
  totalRecords : Q;
  limit : Q;
  offset : Q;
  nextPage : Q
}.

(** The bodies the router sends, and the page of the framework's own
    error handler. *)
Inductive Body : Type :=
| message (m : string)
| result (b : IBook)
| results (bs : list IBook)
| paged (bs : list IBook) (pagination : Pagination)
| framework_error.

Record Response : Type := {
  status : Z;
  body : Body
}.

(** The world one request runs in: the store, the failures the storage
    round trips are going to meet (one flag per round trip, [true] is a
    failed one, none left means no failure), the response the client has
    received if any, and the statements handed to the pool so far. *)
Record World : Type := {
  store : Db.Store;
  faults : list bool;
  response : option Response;
  issued : list Db.Query
}.

Definition fresh (s : Db.Store) : World :=
  {| store := s; faults := []; response := None; issued := [] |}.

(** The books in the response the client has received. *)
Definition sent_books (w : World) : list IBook :=
  match response w with
  | Some {| body := result b |} => [b]
  | Some {| body := results bs |} => bs
  | Some {| body := paged bs _ |} => bs
  | _ => []
  end.

(** A piece of handler code: it returns or throws, and changes the world. *)
Inductive Outcome (A : Type) : Type :=
| Returned (a : A)
| Threw.
Arguments Threw {A}.

Definition Handler (A : Type) : Type := World -> Outcome A * World.

Definition ret {A : Type} (a : A) : Handler A := fun w => (Returned a, w).

Definition bind {A B : Type} (m : Handler A) (k : A -> Handler B) : Handler B :=
  fun w =>
    match m w with
    | (Returned a, w') => k a w'
    | (Threw, w') => (Threw, w')
    end.

Definition throw {A : Type} : Handler A := fun w => (Threw, w).

(** The world once the client has received [r]. *)
Definition answered (w : World) (r : Response) : World :=
  {| store := store w; faults := faults w; response := Some r;
     issued := issued w |}.

(** [response.status(code).send(body)].  The client keeps the first
    response; sending once more throws (the headers are already sent). *)
Definition send (code : Z) (b : Body) : Handler unit :=
  fun w =>
    match response w with
    | Some _ => (Threw, w)
    | None => (Returned tt, answered w {| status := code; body := b |})
    end.

(** [w'] differs from [w] at most by a 400 sent to a client that had no
    response yet. *)
Definition only_rejected (w w' : World) : Prop :=
  store w' = store w /\ faults w' = faults w /\ issued w' = issued w /\
  (response w' = response w
   \/ (response w = None
       /\ exists b, response w' = Some {| status := 400; body := b |})).

(** A piece of code that touches nothing but the response, and the
    response only to reject. *)
Definition validating {A : Type} (m : Handler A) : Prop :=
  forall w, only_rejected w (snd (m w)).

(** A [for] or [forEach] loop whose body runs for each element in turn. *)
Fixpoint for_each {A : Type} (body : A -> Handler unit) (l : list A)
  : Handler unit :=
  match l with
  | [] => ret tt
  | x :: l' => bind (body x) (fun _ => for_each body l')
  end.

(** Running a piece of code whose exception nobody handles: what it did
    before throwing stays done. *)
Definition unhandled (m : Handler unit) : Handler unit :=
  fun w => (Returned tt, snd (m w)).

End Express.

Declare Scope handler_scope.
Delimit Scope handler_scope with handler.
Notation "x <- m ;; k" := (Express.bind m (fun x => k))
  (at level 100, m at next level, right associativity) : handler_scope.
Notation "m ;; k" := (Express.bind m (fun _ => k))
  (at level 100, right associativity) : handler_scope.

Module Pool.
Section WithCollaborators.
Context {C : Collaborators}.
Import Express.

(** One round trip: the statement is recorded, then either fails without
    touching the store or is executed by the engine. *)
Definition round_trip (q : Db.Query) (w : World) : Db.QueryResult * World :=
  match faults w with
  | true :: later =>
      (Db.Failure None,
       {| store := store w; faults := later; response := response w;
          issued := issued w ++ [q] |})
  | _ =>
      let '(r, s') := Engine.exec q (store w) in
      (r, {| store := s'; faults := tl (faults w); response := response w;
             issued := issued w ++ [q] |})
  end.

(** [pool.query(q).then(on_result).catch(on_error)]: [on_error] receives
    the [detail] of a rejected round trip, or no detail when it is
    [on_result] that threw; what [on_error] itself throws is nobody's. *)
Definition query_then_catch (q : Db.Query)
           (on_result : Db.QueryResult -> Handler unit)
           (on_error : option string -> Handler unit) : Handler unit :=
  fun w =>
    let '(r, w1) := round_trip q w in
    match r with
    | Db.Failure detail => unhandled (on_error detail) w1
    | _ =>
        match on_result r w1 with
        | (Returned _, w2) => (Returned tt, w2)
        | (Threw, w2) => unhandled (on_error None) w2
        end
    end.

(** [await pool.query(q)] in an [async] handler without [try]: a rejected
    round trip rejects the handler's own promise. *)
Definition await_query (q : Db.Query) : Handler Db.QueryResult :=
  fun w =>
    let '(r, w1) := round_trip q w in
    match r with
    | Db.Failure _ => (Threw, w1)
    | _ => (Returned r, w1)
    end.

End WithCollaborators.
End Pool.

(* ===================================================================== *)
(** * String methods the handlers call                                    *)
(* ===================================================================== *)

Module Str.

(** [s.endsWith(suffix)] *)
Definition endsWith (s suffix : string) : bool :=
  let n := String.length s in
  let k := String.length suffix in
  (k <=? n)%nat && String.eqb (substring (n - k) k s) suffix.

(** [s.split(sep)] for a non-empty separator: [skip] counts the characters
    of a separator just matched that are still to be passed over, [cur] is
    the piece being read, last character first. *)
Fixpoint split_from (sep : string) (skip : nat) (cur : string) (s : string)
  : list string :=
  match s with
  | EmptyString => [cur]
  | String c s' =>
      match skip with
      | S k => split_from sep k cur s'
      | O =>
          if String.prefix sep s
          then cur :: split_from sep (String.length sep - 1) EmptyString s'
          else split_from sep 0 (cur ++ String c EmptyString)%string s'
      end
  end.

Definition split (s sep : string) : list string :=
  split_from sep 0 EmptyString s.

End Str.

(* ===================================================================== *)
(** * The request                                                         *)
(* ===================================================================== *)

Module Req.

(** [request.body.entry.ratings] and [request.body.ratings] *)
Record Ratings : Type := {
  average : value;
  count : value;
  rating1 : value;
  rating2 : value;
  rating3 : value;
  rating4 : value;
  rating5 : value
}.

(** The ratings object whose seven fields are the given numbers. *)
Definition ratings_of (avg c r1 r2 r3 r4 r5 : Q) : Ratings :=
  {| average := JNum avg; count := JNum c;
     rating1 := JNum r1; rating2 := JNum r2; rating3 := JNum r3;
     rating4 := JNum r4; rating5 := JNum r5 |}.

(** [request.body.entry.icons] *)
Record Icons : Type := {
  large : value;
  small : value
}.

(** [request.body.entry]; a nested object that is [null] or missing is
    [None]. *)
Record Entry : Type := {
  isbn13 : value;
  authors : value;
  publication : value;
  original_title : value;
  title : value;
  ratings : option Ratings;
  icons : option Icons
}.

(** The parts of [request.params] and [request.body] the router reads. *)
Record Request : Type := {
  params_isbn : value;
  params_name : value;
  body_entry : option Entry;
  body_min : value;
  body_max : value;
  body_order : value;
  body_ratings : option Ratings;
  body_limit : value;
  body_offset : value
}.

(** A request with nothing in it. *)
Definition empty : Request :=
  {| params_isbn := JUndefined; params_name := JUndefined;
     body_entry := None;
     body_min := JUndefined; body_max := JUndefined; body_order := JUndefined;
     body_ratings := None;
     body_limit := JUndefined; body_offset := JUndefined |}.

End Req.

(* ===================================================================== *)
(** * The books router                                                    *)
(* ===================================================================== *)

Module BooksRouter.
Section WithCollaborators.
Context {C : Collaborators}.
Import Express.
Local Open Scope handler_scope.

(** What a middleware does about the rest of the chain. *)
Inductive Continue : Type := Next | Stop.

Definition Middleware : Type := Handler Continue.

(** The framework's error handler: it answers 500 unless the client has
    its response already. *)
Definition error_handler (w : World) : World :=
  match response w with
  | Some _ => w
  | None => answered w {| status := 500; body := framework_error |}
  end.

(** The middlewares of one route, run in order while each calls [next()].
    An exception escaping a middleware goes to the error handler. *)
Fixpoint run (chain : list Middleware) (w : World) : World :=
  match chain with
  | [] => w
  | m :: rest =>
      match m w with
      | (Returned Next, w') => run rest w'
      | (Returned Stop, w') => w'
      | (Threw, w') => error_handler w'
      end
  end.

(** Reading a property of a nested object that is [null] or missing
    throws. *)
Definition property_of {A : Type} (o : option A) : Handler A :=
  match o with
  | Some a => ret a
  | None => throw
  end.

Definition server_error : Body := message "server error - contact support".

Definition rows_of (r : Db.QueryResult) : list Db.Row :=
  match r with
  | Db.Rows rows => rows
  | _ => []
  end.

Definition rowCount (r : Db.QueryResult) : nat := length (rows_of r).

Definition verifyElement (isValid : bool) (name : string) : Handler unit :=
  if negb isValid
  then send 400 (message ("Invalid or missing " ++ name
                          ++ " - please refer to documentation")%string)
  else ret tt.

(** ** POST / *)

Definition ratings_valid (ratings : option Req.Ratings) : bool :=
  match ratings with
  | None => false
  | Some r =>
      Js.not_nullish (Req.average r)
      && Js.ge (Req.average r) (JNum 1) && Js.le (Req.average r) (JNum 5)
      && (Js.not_nullish (Req.count r) && Js.ge (Req.count r) (JNum 0))
      && (Js.not_nullish (Req.rating1 r) && Js.ge (Req.rating1 r) (JNum 0))
      && (Js.not_nullish (Req.rating2 r) && Js.ge (Req.rating2 r) (JNum 0))
      && (Js.not_nullish (Req.rating3 r) && Js.ge (Req.rating3 r) (JNum 0))
      && (Js.not_nullish (Req.rating4 r) && Js.ge (Req.rating4 r) (JNum 0))
      && (Js.not_nullish (Req.rating5 r) && Js.ge (Req.rating5 r) (JNum 0))
  end.

Definition icon_valid (icons : option Req.Icons) (pick : Req.Icons -> value)
  : bool :=
  match icons with
  | None => false
  | Some i => Js.not_nullish (pick i) && isStringProvided (pick i)
  end.

Definition add_book_validate (request : Req.Request) : Middleware :=
  entry <- property_of (Req.body_entry request) ;;
  verifyElement (isNumberProvided (Req.isbn13 entry)
                 && Js.ge (Req.isbn13 entry) (JNum 0)) "ISBN" ;;
  verifyElement (isStringProvided (Req.authors entry)) "Authors" ;;
  verifyElement (isNumberProvided (Req.publication entry)
                 && Js.ge (Req.publication entry) (JNum 0)) "Publication" ;;
  verifyElement (isStringProvided (Req.original_title entry)) "Original Title" ;;
  verifyElement (isStringProvided (Req.title entry)) "Title" ;;
  let ratings := Req.ratings entry in
  verifyElement (ratings_valid ratings) "Rating" ;;
  let icons := Req.icons entry in
  verifyElement (icon_valid icons Req.large) "Image Url" ;;
  verifyElement (icon_valid icons Req.small) "Image Small Url" ;;
  ret Next.

(** [request.body.entry.authors.split(", ")]: only a string has the
    method. *)
Definition split_authors (v : value) : Handler (list string) :=
  match v with
  | JStr s => ret (Str.split s ", ")
  | _ => throw
  end.

(** The callback of the author upsert: link the book to the returned id;
    a failure of the link statement is logged. *)
Definition link_author (isbn13 : value) (queryRes : Db.QueryResult)
  : Handler unit :=
  match queryRes with
  | Db.AuthorIds (id :: _) =>
      Pool.query_then_catch
        {| Db.theQuery := Db.InsertLink;
           Db.values := [isbn13; JNum (inject_Z id)] |}
        (fun _ => ret tt)
        (fun _ => ret tt)
  | _ => throw
  end.

(** The callback of the book insert.  The author statements are modelled
    as completing one after the other in the order of [authors], before the
    201 is sent; the source only starts them and sends at once. *)
Definition add_authors (authors : list string) (queryRes : Db.QueryResult)
  : Handler unit :=
  match rows_of queryRes with
  | row :: _ =>
      let isbn13 := JNum (Db.isbn13 (Db.columns row)) in
      for_each (fun author =>
                  Pool.query_then_catch
                    {| Db.theQuery := Db.UpsertAuthor;
                       Db.values := [JStr author] |}
                    (link_author isbn13)
                    (fun _ => ret tt))
               authors ;;
      send 201 (message "Book successfully added.")
  | [] => throw
  end.

Definition already_exists (detail : option string) : bool :=
  match detail with
  | Some d => Str.endsWith d "already exists."
  | None => false
  end.

Definition add_book (request : Req.Request) : Middleware :=
  entry <- property_of (Req.body_entry request) ;;
  authors <- split_authors (Req.authors entry) ;;
  ratings <- property_of (Req.ratings entry) ;;
  icons <- property_of (Req.icons entry) ;;
  let values :=
    [ Req.isbn13 entry; Req.publication entry; Req.original_title entry;
      Req.title entry;
      Req.average ratings; Req.count ratings;
      Req.rating1 ratings; Req.rating2 ratings; Req.rating3 ratings;
      Req.rating4 ratings; Req.rating5 ratings;
      Req.large icons; Req.small icons ] in
  Pool.query_then_catch
    {| Db.theQuery := Db.InsertBook; Db.values := values |}
    (add_authors authors)
    (fun detail =>
       if already_exists detail
       then send 400 (message "Book exists")
       else send 500 server_error) ;;
  ret Stop.

Definition post_books (request : Req.Request) : list Middleware :=
  [add_book_validate request; add_book request].

(** ** GET /isbns/:isbn, DELETE /isbns/:isbn *)

(** [Number(x) < y] and [Number(x) > y] for a number [y]. *)
Definition Number_lt (x : value) (y : Q) : bool :=
  match Js.ToNumber x with
  | Some n => Qlt_bool n y
  | None => false
  end.

Definition Number_gt (x : value) (y : Q) : bool :=
  match Js.ToNumber x with
  | Some n => Qlt_bool y n
  | None => false
  end.

(** The first middleware of GET /isbns/:isbn, of DELETE /isbns/:isbn and of
    PUT /rating/:isbn (three copies of the same text). *)
Definition check_isbn (request : Req.Request) : Middleware :=
  (match Req.params_isbn request with
   | JNull | JUndefined =>
       send 400 (message "No query parameter in url - please refer to documentation")
   | isbn =>
       if negb (isNumberProvided isbn)
       then send 400 (message "Query parameter not of required type - please refer to documentation")
       else if Number_lt isbn 0 || Number_gt isbn pow_10_13
       then send 400 (message "ISBN not in range - please refer to documentation")
       else ret tt
   end) ;;
  ret Next.

(** The parameters for which [check_isbn] sends nothing. *)
Definition isbn_accepted (isbn : value) : bool :=
  match isbn with
  | JNull | JUndefined => false
  | _ => isNumberProvided isbn
         && negb (Number_lt isbn 0 || Number_gt isbn pow_10_13)
  end.

(** The [.then] and [.catch] shared by the two by-ISBN handlers. *)
Definition one_book_or_404 (r : Db.QueryResult) : Handler unit :=
  match rows_of r with
  | [row] => send 200 (result (toBook row))
  | _ => send 404 (message "No book with given ISBN")
  end.

Definition get_by_isbn (request : Req.Request) : Middleware :=
  let values := [Req.params_isbn request] in
  Pool.query_then_catch
    {| Db.theQuery := Db.SelectByIsbn; Db.values := values |}
    one_book_or_404
    (fun _ => send 500 server_error) ;;
  ret Stop.

Definition get_isbns (request : Req.Request) : list Middleware :=
  [check_isbn request; get_by_isbn request].

Definition delete_by_isbn (request : Req.Request) : Middleware :=
  let values := [Req.params_isbn request] in
  Pool.query_then_catch
    {| Db.theQuery := Db.DeleteByIsbn; Db.values := values |}
    one_book_or_404
    (fun _ => send 500 server_error) ;;
  ret Stop.

Definition delete_isbns (request : Req.Request) : list Middleware :=
  [check_isbn request; delete_by_isbn request].

(** ** POST /rating *)

Definition rating_range_validate (request : Req.Request) : Middleware :=
  if isNumberProvided (Req.body_min request)
     && isNumberProvided (Req.body_min request)
     && isStringProvided (Req.body_order request)
  then
    let min := Req.body_min request in
    let max := Req.body_max request in
    let order := Req.body_order request in
    if Js.le min (JNum 0)
    then send 400 (message "Missing or invalid lower-bound parameter - please refer to documentation") ;;
         ret Stop
    else if Js.lt max min
    then send 400 (message "The lower bound for the interal is greater than the upper bound - please refer to documentation") ;;
         ret Stop
    else if negb (Js.eq_keyword order "min-first")
            && negb (Js.eq_keyword order "max-first")
    then send 400 (message "Ordering field must be one of set options - please refer to documentation") ;;
         ret Stop
    else ret Next
  else if negb (isNumberProvided (Req.body_min request))
  then send 400 (message "Missing or invalid lower-bound parameter - please refer to documentation") ;;
       ret Stop
  else if negb (isNumberProvided (Req.body_max request))
  then send 400 (message "Missing or invalid upper-bound parameter - please refer to documentation") ;;
       ret Stop
  else send 400 (message "Missing ordering field in http body - please refer to documentation") ;;
       ret Stop.

Definition name_exists_or_500 (detail : option string) : Handler unit :=
  if already_exists detail
  then send 400 (message "Name exists")
  else send 500 server_error.

Definition rating_range (request : Req.Request) : Middleware :=
  let min := Req.body_min request in
  let max := Req.body_max request in
  let order := Req.body_order request in
  let orderBy :=
    if Js.eq_keyword order "min-first"
    then Db.rating_avg_ASC else Db.rating_avg_DESC in
  let values := [min; max] in
  Pool.query_then_catch
    {| Db.theQuery := Db.SelectByRating orderBy; Db.values := values |}
    (fun r => send 200 (results (map toBook (rows_of r))))
    name_exists_or_500 ;;
  ret Stop.

Definition post_rating (request : Req.Request) : list Middleware :=
  [rating_range_validate request; rating_range request].

(** ** PUT /rating/:isbn *)

Definition missing_fields : Body :=
  message "Missing fields within the body - please refer to documentation".

Definition count_not_positive : Body :=
  message "Rating count must be positive - please refer to documenation".

Definition average_not_in_range : Body :=
  message "Rating average is not in range of 1 to 5 inclusive - please refer to documentation".

Definition toCheck (ratings : Req.Ratings) : list value :=
  [ Req.average ratings; Req.count ratings;
    Req.rating1 ratings; Req.rating2 ratings; Req.rating3 ratings;
    Req.rating4 ratings; Req.rating5 ratings ].

Definition update_ratings_validate (request : Req.Request) : Middleware :=
  ratings <- property_of (Req.body_ratings request) ;;
  for_each (fun v => if negb (isNumberProvided v)
                     then send 400 missing_fields
                     else ret tt)
           (toCheck ratings) ;;
  for_each (fun v => if Js.lt v (JNum 0)
                     then send 400 count_not_positive
                     else ret tt)
           (tl (toCheck ratings)) ;;
  let rating_avg := hd JUndefined (toCheck ratings) in
  if Js.gt rating_avg (JNum 5) || Js.lt rating_avg (JNum 1)
  then send 400 average_not_in_range ;; ret Stop
  else ret Next.

(** The error kinds of the ratings validator and the body sent for each. *)
Inductive Violation : Type :=
| MissingField
| NegativeCount
| OutOfRangeAverage.

Definition violation_body (v : Violation) : Body :=
  match v with
  | MissingField => missing_fields
  | NegativeCount => count_not_positive
  | OutOfRangeAverage => average_not_in_range
  end.

Definition some_missing (r : Req.Ratings) : bool :=
  existsb (fun v => negb (isNumberProvided v)) (toCheck r).

Definition some_negative_count (r : Req.Ratings) : bool :=
  existsb (fun v => Js.lt v (JNum 0)) (tl (toCheck r)).

Definition average_out_of_range (r : Req.Ratings) : bool :=
  Js.gt (Req.average r) (JNum 5) || Js.lt (Req.average r) (JNum 1).

(** The first violated constraint in the order the validator checks them:
    presence, then the six counts, then the average. *)
Definition first_violation (r : Req.Ratings) : option Violation :=
  if some_missing r then Some MissingField
  else if some_negative_count r then Some NegativeCount
  else if average_out_of_range r then Some OutOfRangeAverage
  else None.

(** The first violated constraint in the order the specification gives:
    presence, then the average, then the six counts. *)
Definition first_violation_as_specified (r : Req.Ratings) : option Violation :=
  if some_missing r then Some MissingField
  else if average_out_of_range r then Some OutOfRangeAverage
  else if some_negative_count r then Some NegativeCount
  else None.

Definition update_ratings (request : Req.Request) : Middleware :=
  ratings <- property_of (Req.body_ratings request) ;;
  let values := toCheck ratings ++ [Req.params_isbn request] in
  Pool.query_then_catch
    {| Db.theQuery := Db.UpdateRatings; Db.values := values |}
    (fun r => match rows_of r with
              | [row] => send 201 (result (toBook row))
              | _ => send 404 (message "No book with given ISBN")
              end)
    name_exists_or_500 ;;
  ret Stop.

Definition put_rating (request : Req.Request) : list Middleware :=
  [check_isbn request; update_ratings_validate request; update_ratings request].

(** ** GET and DELETE /title/:name, GET and DELETE /author/:name *)

(** The first middleware of the four by-name routes. *)
Definition check_name (request : Req.Request) : Middleware :=
  if negb (isStringProvided (Req.params_name request))
  then send 400 (message "No query parameter in url") ;; ret Stop
  else ret Next.

(** The handler shared by the four routes up to the statement and the
    wording of the 404. *)
Definition by_name (t : Db.Template) (not_found : string)
           (request : Req.Request) : Middleware :=
  let values := [Req.params_name request] in
  Pool.query_then_catch
    {| Db.theQuery := t; Db.values := values |}
    (fun r => if (1 <=? rowCount r)%nat
              then send 200 (results (map toBook (rows_of r)))
              else send 404 (message not_found))
    (fun _ => send 500 server_error) ;;
  ret Stop.

Definition get_title (request : Req.Request) : list Middleware :=
  [check_name request; by_name Db.SelectByTitle "No book with given title" request].

Definition delete_title (request : Req.Request) : list Middleware :=
  [check_name request; by_name Db.DeleteByTitle "title not found" request].

Definition get_author (request : Req.Request) : list Middleware :=
  [check_name request; by_name Db.SelectByAuthor "Author not found" request].

Definition delete_author (request : Req.Request) : list Middleware :=
  [check_name request; by_name Db.DeleteByAuthor "Authors not found" request].

(** ** POST /pagination/offset *)

Definition resolve_limit (raw : value) : Q :=
  match isNumberProvided raw, Js.ToNumber raw with
  | true, Some n => if Qlt_bool 0 n then n else 16
  | _, _ => 16
  end.

Definition resolve_offset (raw : value) : Q :=
  match isNumberProvided raw, Js.ToNumber raw with
  | true, Some n => if Qle_bool 0 n then n else 0
  | _, _ => 0
  end.

(** [parseInt(result.rows[0].exact_count)] *)
Definition exact_count (r : Db.QueryResult) : Handler Q :=
  match r with
  | Db.Counted n => ret (inject_Z n)
  | _ => throw
  end.

(** The handler is [async] and awaits without [try]: a rejected round trip
    leaves the request unanswered.  Numbers are exact: [limit + offset] is
    the sum of the language for whole numbers up to 2^53. *)
Definition pagination_offset (request : Req.Request) : Middleware :=
  unhandled (
    let limit := resolve_limit (Req.body_limit request) in
    let offset := resolve_offset (Req.body_offset request) in
    let values := [JNum limit; JNum offset] in
    page <- Pool.await_query {| Db.theQuery := Db.SelectPage; Db.values := values |} ;;
    counted <- Pool.await_query {| Db.theQuery := Db.CountBooks; Db.values := [] |} ;;
    count <- exact_count counted ;;
    send 200 (paged (map toBook (rows_of page))
                    {| totalRecords := count;
                       limit := limit;
                       offset := offset;
                       nextPage := limit + offset |})) ;;
  ret Stop.

Definition post_pagination_offset (request : Req.Request) : list Middleware :=
  [pagination_offset request].

End WithCollaborators.
End BooksRouter.

(* ===================================================================== *)
(** * A reference implementation of the collaborators                     *)
(* ===================================================================== *)

Module Reference.

Definition digit (c : ascii) : option Z :=
  let n := nat_of_ascii c in
  if (48 <=? n)%nat && (n <=? 57)%nat then Some (Z.of_nat (n - 48)) else None.

(** Decimal digits with at most one point and at least one digit. *)
Fixpoint scan (s : string) (num : Z) (scale : positive)
         (seen_point seen_digit : bool) : option Q :=
  match s with
  | EmptyString => if seen_digit then Some (num # scale) else None
  | String c s' =>
      if Ascii.eqb c "."
      then if seen_point then None else scan s' num scale true seen_digit
      else match digit c with
           | Some d =>
               scan s' (10 * num + d)%Z
                    (if seen_point then (10 * scale)%positive else scale)
                    seen_point true
           | None => None
           end
  end.

(** A signed decimal literal. *)
Definition decimal (s : string) : option Q :=
  match s with
  | String "-" s' => option_map Qopp (scan s' 0 1 false false)
  | String "+" s' => scan s' 0 1 false false
  | _ => scan s 0 1 false false
  end.

(** Modelled from the spec: [validationFunctions] lives in
    [core/utilities], which is not among the sources; the spec describes
    [isStringProvided] and [isNumberProvided] as pure presence/type
    predicates.  Here a provided string is a non-empty string and a
    provided number is a number or a non-empty string that reads as one.
    The conversions are restricted to signed decimal literals (the empty
    string converts to 0 in the language and is refused by the engine). *)
#[export] Instance collaborators : Collaborators := {|
  StringToNumber := fun s =>
    match s with
    | EmptyString => Some 0
    | _ => decimal s
    end;
  pgNumeric := decimal;
  isStringProvided := fun v =>
    match v with
    | JStr (String _ _) => true
    | _ => false
    end;
  isNumberProvided := fun v =>
    match v with
    | JNum _ => true
    | JStr (String c s) =>
        match decimal (String c s) with
        | Some _ => true
        | None => false
        end
    | _ => false
    end
|}.

End Reference.

(* ===================================================================== *)
(** * Sample requests and stores                                          *)
(* ===================================================================== *)

Module Samples.

Definition book (isbn : Q) (name : string) (avg : Q) : Db.BookRow :=
  {| Db.isbn13 := isbn; Db.publication_year := 1999;
     Db.original_title := name; Db.title := name;
     Db.rating_avg := avg; Db.rating_count := 10;
     Db.rating_1_star := 1; Db.rating_2_star := 1; Db.rating_3_star := 1;
     Db.rating_4_star := 1; Db.rating_5_star := 6;
     Db.image_url := "http://img/l.png";
     Db.image_small_url := "http://img/s.png" |}.

Definition author (id : Z) (name : string) : Db.AuthorRow :=
  {| Db.author_id := id; Db.author_name := name |}.

Definition link (isbn : Q) (id : Z) : Db.LinkRow :=
  {| Db.ba_isbn13 := isbn; Db.ba_author_id := id |}.

Definition empty_store : Db.Store :=
  {| Db.Books := []; Db.Author := []; Db.Books_Authors := [] |}.

(** One book by Zed and Abe (linked in that order), a second book of the
    same title by Abe, and a third book by Zed. *)
Definition library : Db.Store :=
  {| Db.Books := [ book 9780000000001 "Dune" 4;
                   book 9780000000002 "Dune" (7 # 2);
                   book 9780000000003 "Emma" 5 ];
     Db.Author := [ author 1 "Zed"; author 2 "Abe" ];
     Db.Books_Authors := [ link 9780000000001 1; link 9780000000001 2;
                           link 9780000000002 2; link 9780000000003 1 ] |}.

(** A store whose [Books] table holds the same ISBN twice. *)
Definition duplicated_isbn : Db.Store :=
  {| Db.Books := [ book 9780000000001 "Dune" 4;
                   book 9780000000001 "Dune Messiah" 3 ];
     Db.Author := [ author 1 "Zed" ];
     Db.Books_Authors := [ link 9780000000001 1 ] |}.

Definition with_isbn (isbn : string) : Req.Request :=
  {| Req.params_isbn := JStr isbn; Req.params_name := JUndefined;
     Req.body_entry := None;
     Req.body_min := JUndefined; Req.body_max := JUndefined;
     Req.body_order := JUndefined;
     Req.body_ratings := None;
     Req.body_limit := JUndefined; Req.body_offset := JUndefined |}.

Definition with_name (name : string) : Req.Request :=
  {| Req.params_isbn := JUndefined; Req.params_name := JStr name;
     Req.body_entry := None;
     Req.body_min := JUndefined; Req.body_max := JUndefined;
     Req.body_order := JUndefined;
     Req.body_ratings := None;
     Req.body_limit := JUndefined; Req.body_offset := JUndefined |}.

Definition with_entry (e : Req.Entry) : Req.Request :=
  {| Req.params_isbn := JUndefined; Req.params_name := JUndefined;
     Req.body_entry := Some e;
     Req.body_min := JUndefined; Req.body_max := JUndefined;
     Req.body_order := JUndefined;
     Req.body_ratings := None;
     Req.body_limit := JUndefined; Req.body_offset := JUndefined |}.

Definition with_ratings (isbn : string) (r : Req.Ratings) : Req.Request :=
  {| Req.params_isbn := JStr isbn; Req.params_name := JUndefined;
     Req.body_entry := None;
     Req.body_min := JUndefined; Req.body_max := JUndefined;
     Req.body_order := JUndefined;
     Req.body_ratings := Some r;
     Req.body_limit := JUndefined; Req.body_offset := JUndefined |}.


Definition with_page (limit offset : value) : Req.Request :=
  {| Req.params_isbn := JUndefined; Req.params_name := JUndefined;
     Req.body_entry := None;
     Req.body_min := JUndefined; Req.body_max := JUndefined;
     Req.body_order := JUndefined;
     Req.body_ratings := None;
     Req.body_limit := limit; Req.body_offset := offset |}.

(** A well-formed entry but for the ISBN given. *)
Definition entry_with_isbn (isbn : value) : Req.Entry :=
  {| Req.isbn13 := isbn;
     Req.authors := JStr "Ann Author";
     Req.publication := JNum 1999;
     Req.original_title := JStr "A Title";
     Req.title := JStr "A Title";
     Req.ratings := Some (Req.ratings_of 4 10 1 1 1 1 6);
     Req.icons := Some {| Req.large := JStr "http://img/l.png";
                          Req.small := JStr "http://img/s.png" |} |}.

(** The insert of a well-formed entry into an empty store during which the
    second round trip, the author upsert, fails. *)
Definition insert_with_failed_upsert : Express.World :=
  BooksRouter.run
    (BooksRouter.post_books (C := Reference.collaborators)
       (with_entry (entry_with_isbn (JNum 9780000000009))))
    {| Express.store := empty_store; Express.faults := [false; true];
       Express.response := None; Express.issued := [] |}.

End Samples.

(* ===================================================================== *)
(** * The router as a whole, and the constraints its statements rely on   *)
(* ===================================================================== *)

Module Catalog.

(** The ten registrations of [booksRouter], in source order. *)
Inductive Endpoint : Type :=
| POST_books
| GET_isbns
| DELETE_isbns
| POST_rating
| PUT_rating
| GET_title
| DELETE_title
| GET_author
| DELETE_author
| POST_pagination_offset.

Definition writes (e : Endpoint) : bool :=
  match e with
  | POST_books | DELETE_isbns | PUT_rating | DELETE_title | DELETE_author => true
  | _ => false
  end.

(** The four routes on [/title/:name] and [/author/:name]. *)
Definition takes_name (e : Endpoint) : bool :=
  match e with
  | GET_title | DELETE_title | GET_author | DELETE_author => true
  | _ => false
  end.

(** The routes whose storage promise ends in a [.catch]; the paginated scan
    awaits its two statements without one. *)
Definition catches (e : Endpoint) : bool :=
  match e with
  | POST_pagination_offset => false
  | _ => true
  end.

(** The status codes the router sends itself, and the framework's 500. *)
Definition status_codes : list Z := [200; 201; 400; 404; 500]%Z.

(** The unique keys the statements name: the ISBN of a book ("already
    exists."), [ON CONFLICT (author_name)], the generated author id, and
    [ON CONFLICT (isbn13, author_id)]. *)
Definition distinct_isbns (books : list Db.BookRow) : Prop :=
  ForallOrdPairs (fun x y => ~ Db.isbn13 x == Db.isbn13 y) books.

Definition distinct_links (links : list Db.LinkRow) : Prop :=
  ForallOrdPairs
    (fun x y => ~ (Db.ba_isbn13 x == Db.ba_isbn13 y
                   /\ Db.ba_author_id x = Db.ba_author_id y))
    links.

(** The next storage round trip is not a failed one. *)
Definition served (w : Express.World) : Prop :=
  hd false (Express.faults w) = false.

(** The author names the join gives the books satisfying [p], in scan
    order. *)
Definition joined_names (p : Db.BookRow -> bool) (s : Db.Store) : list string :=
  map (fun j : Db.BookRow * Db.AuthorRow => Db.author_name (snd j))
      (filter (Engine.by_book p) (Db.joined s)).

(** The [authors] column of the books satisfying [p] when they make one
    group: NULL without a join row, the ordered names otherwise. *)
Definition authors_column (p : Db.BookRow -> bool) (s : Db.Store)
  : option string :=
  match joined_names p s with
  | [] => None
  | names => Some (Db.string_agg_ordered names)
  end.

(** The store once the books satisfying [doomed] are deleted, with the link
    rows of their ISBNs. *)
Definition without (doomed : Db.BookRow -> bool) (s : Db.Store) : Db.Store :=
  {| Db.Books := filter (fun b => negb (doomed b)) (Db.Books s);
     Db.Author := Db.Author s;
     Db.Books_Authors :=
       filter (fun ba => negb (existsb (fun b => doomed b
                                          && Qeq_bool (Db.isbn13 b) (Db.ba_isbn13 ba))
                                       (Db.Books s)))
              (Db.Books_Authors s) |}.

(** The books some link gives an author of that name: the rows
    [delete_book] of DELETE /author/:name selects, by ISBN. *)
Definition wrote (name : string) (s : Db.Store) (b : Db.BookRow) : bool :=
  existsb (fun j => Engine.written_by name j
                    && Qeq_bool (Db.isbn13 (fst j)) (Db.isbn13 b))
          (Db.joined s).

(** The book is linked to the author: a row of [Books_Authors] carries the
    ISBN of the one and the id of the other. *)
Definition linked_to (s : Db.Store) (b : Db.BookRow) (a : Db.AuthorRow) : Prop :=
  In a (Db.Author s)
  /\ exists ba, In ba (Db.Books_Authors s)
                /\ Db.isbn13 b == Db.ba_isbn13 ba
                /\ Db.ba_author_id ba = Db.author_id a.

(** The book has an author. *)
Definition linked (s : Db.Store) (b : Db.BookRow) : Prop :=
  exists a, linked_to s b a.

(** The book has an author of that name. *)
Definition has_author_named (name : string) (s : Db.Store) (b : Db.BookRow)
  : Prop :=
  exists a, linked_to s b a /\ Db.author_name a = name.

(** The two rows agree on the thirteen columns, as values of the engine. *)
Definition same_columns (x y : Db.BookRow) : Prop :=
  Db.isbn13 x == Db.isbn13 y
  /\ Db.publication_year x == Db.publication_year y
  /\ Db.original_title x = Db.original_title y
  /\ Db.title x = Db.title y
  /\ Db.rating_avg x == Db.rating_avg y
  /\ Db.rating_count x == Db.rating_count y
  /\ Db.rating_1_star x == Db.rating_1_star y
  /\ Db.rating_2_star x == Db.rating_2_star y
  /\ Db.rating_3_star x == Db.rating_3_star y
  /\ Db.rating_4_star x == Db.rating_4_star y
  /\ Db.rating_5_star x == Db.rating_5_star y
  /\ Db.image_url x = Db.image_url y
  /\ Db.image_small_url x = Db.image_small_url y.

(** 2^53: up to it the sum of two whole numbers is exact in the language. *)
Definition max_safe_integer : Z := 9007199254740992.

(** The statements that read. *)
Definition is_select (t : Db.Template) : bool :=
  match t with
  | Db.SelectByIsbn | Db.SelectByRating _ | Db.SelectByTitle
  | Db.SelectByAuthor | Db.SelectPage | Db.CountBooks => true
  | _ => false
  end.

Definition keys_hold (s : Db.Store) : Prop :=
  distinct_isbns (Db.Books s)
  /\ NoDup (map Db.author_id (Db.Author s))
  /\ NoDup (map Db.author_name (Db.Author s))
  /\ distinct_links (Db.Books_Authors s).

Section WithCollaborators.
Context {C : Collaborators}.

Definition booksRouter (e : Endpoint) (request : Req.Request)
  : list BooksRouter.Middleware :=
  match e with
  | POST_books => BooksRouter.post_books request
  | GET_isbns => BooksRouter.get_isbns request
  | DELETE_isbns => BooksRouter.delete_isbns request
  | POST_rating => BooksRouter.post_rating request
  | PUT_rating => BooksRouter.put_rating request
  | GET_title => BooksRouter.get_title request
  | DELETE_title => BooksRouter.delete_title request
  | GET_author => BooksRouter.get_author request
  | DELETE_author => BooksRouter.delete_author request
  | POST_pagination_offset => BooksRouter.post_pagination_offset request
  end.

(** The eight conditions of the insert validator with the names they
    report, in source order. *)
Definition checks (entry : Req.Entry) : list (bool * string) :=
  [ (isNumberProvided (Req.isbn13 entry)
     && Js.ge (Req.isbn13 entry) (JNum 0), "ISBN");
    (isStringProvided (Req.authors entry), "Authors");
    (isNumberProvided (Req.publication entry)
     && Js.ge (Req.publication entry) (JNum 0), "Publication");
    (isStringProvided (Req.original_title entry), "Original Title");
    (isStringProvided (Req.title entry), "Title");
    (BooksRouter.ratings_valid (Req.ratings entry), "Rating");
    (BooksRouter.icon_valid (Req.icons entry) Req.large, "Image Url");
    (BooksRouter.icon_valid (Req.icons entry) Req.small, "Image Small Url") ].

(** The names of the conditions that fail, in that order. *)
Definition invalid_elements (entry : Req.Entry) : list string :=
  map snd (filter (fun c : bool * string => negb (fst c)) (checks entry)).

(** The response [verifyElement] sends for a name. *)
Definition invalid_element (name : string) : Express.Response :=
  {| Express.status := 400;
     Express.body := Express.message ("Invalid or missing " ++ name
                                      ++ " - please refer to documentation")%string |}.

End WithCollaborators.
End Catalog.

(* ===================================================================== *)
(** * Well-typed entries                                                  *)
(* ===================================================================== *)

Module Entry.

(** The content of a book entry whose fields all have the documented type:
    numbers for the ISBN, the year and the seven ratings, strings for the
    rest. *)
Record Typed : Type := {
  isbn13 : Q;
  authors : string;
  publication : Q;
  original_title : string;
  title : string;
  average : Q;
  count : Q;
  rating1 : Q;
  rating2 : Q;
  rating3 : Q;
  rating4 : Q;
  rating5 : Q;
  large : string;
  small : string
}.

(** [request.body.entry] for that content. *)
Definition entry (b : Typed) : Req.Entry :=
  {| Req.isbn13 := JNum (isbn13 b);
     Req.authors := JStr (authors b);
     Req.publication := JNum (publication b);
     Req.original_title := JStr (original_title b);
     Req.title := JStr (title b);
     Req.ratings := Some (Req.ratings_of (average b) (count b) (rating1 b)
                            (rating2 b) (rating3 b) (rating4 b) (rating5 b));
     Req.icons := Some {| Req.large := JStr (large b);
                          Req.small := JStr (small b) |} |}.

(** The row of [Books] holding that content. *)
Definition row (b : Typed) : Db.BookRow :=
  {| Db.isbn13 := isbn13 b; Db.publication_year := publication b;
     Db.original_title := original_title b; Db.title := title b;
     Db.rating_avg := average b; Db.rating_count := count b;
     Db.rating_1_star := rating1 b; Db.rating_2_star := rating2 b;
     Db.rating_3_star := rating3 b; Db.rating_4_star := rating4 b;
     Db.rating_5_star := rating5 b;
     Db.image_url := large b; Db.image_small_url := small b |}.

(** The statement the insert handler issues for that content. *)
Definition insert_statement (b : Typed) : Db.Query :=
  {| Db.theQuery := Db.InsertBook;
     Db.values :=
       [ JNum (isbn13 b); JNum (publication b);
         JStr (original_title b); JStr (title b);
         JNum (average b); JNum (count b);
         JNum (rating1 b); JNum (rating2 b); JNum (rating3 b);
         JNum (rating4 b); JNum (rating5 b);
         JStr (large b); JStr (small b) ] |}.

(** What the insert validator asks of such an entry. *)
Definition acceptable (b : Typed) : Prop :=
  0 <= isbn13 b /\ authors b <> EmptyString /\ 0 <= publication b
  /\ original_title b <> EmptyString /\ title b <> EmptyString
  /\ (1 <= average b /\ average b <= 5)
  /\ 0 <= count b /\ 0 <= rating1 b /\ 0 <= rating2 b /\ 0 <= rating3 b
  /\ 0 <= rating4 b /\ 0 <= rating5 b
  /\ large b <> EmptyString /\ small b <> EmptyString.

(** The names [split] finds in the authors string. *)
Definition names (b : Typed) : list string := Str.split (authors b) ", ".

(** The content of [Samples.entry_with_isbn] for a numeric ISBN. *)
Definition sample (isbn : Q) : Typed :=
  {| isbn13 := isbn; authors := "Ann Author"; publication := 1999;
     original_title := "A Title"; title := "A Title";
     average := 4; count := 10;
     rating1 := 1; rating2 := 1; rating3 := 1; rating4 := 1; rating5 := 6;
     large := "http://img/l.png"; small := "http://img/s.png" |}.

End Entry.

(* ===================================================================== *)
(** * Properties                                                          *)
(* ===================================================================== *)

Lemma Qlt_bool_iff x y : Qlt_bool x y = true <-> x < y.
Proof.
  unfold Qlt_bool. rewrite negb_true_iff. split; intro H.
  - apply Qnot_le_lt. intro L. apply Qle_bool_iff in L. congruence.
  - destruct (Qle_bool y x) eqn:E; [|reflexivity].
    apply Qle_bool_iff in E. exfalso. exact (Qlt_not_le _ _ H E).
Qed.

#[export] Instance reference_helpers_accept : HelpersAccept Reference.collaborators.
Proof.
  split.
  - reflexivity.
  - intros [|c s] H; [congruence | reflexivity].
Qed.

(** ** The framework *)

Section FrameworkFacts.
Import Express.
Local Open Scope handler_scope.

Lemma send_unanswered code b w :
  response w = None ->
  send code b w = (Returned tt, answered w {| status := code; body := b |}).
Proof. unfold send. intros ->. reflexivity. Qed.

Lemma send_answered code b w r :
  response w = Some r -> send code b w = (Threw, w).
Proof. unfold send. intros ->. reflexivity. Qed.

Lemma only_rejected_refl w : only_rejected w w.
Proof. unfold only_rejected. auto. Qed.

Lemma only_rejected_trans w1 w2 w3 :
  only_rejected w1 w2 -> only_rejected w2 w3 -> only_rejected w1 w3.
Proof.
  intros (S1 & F1 & I1 & R1) (S2 & F2 & I2 & R2).
  unfold only_rejected. repeat split; try congruence.
  destruct R2 as [E2 | (N2 & b2 & E2)].
  - destruct R1 as [E1 | (N1 & b1 & E1)].
    + left. congruence.
    + right. split; [assumption|]. exists b1. congruence.
  - destruct R1 as [E1 | (N1 & b1 & E1)].
    + right. split; [congruence|]. exists b2. assumption.
    + congruence.
Qed.

Lemma only_rejected_keeps w w' r :
  only_rejected w w' -> response w = Some r -> response w' = Some r.
Proof.
  intros (_ & _ & _ & [E | (N & _)]) H; congruence.
Qed.

Lemma only_rejected_answered w b :
  response w = None -> only_rejected w (answered w {| status := 400; body := b |}).
Proof.
  intros N. unfold only_rejected, answered; simpl.
  repeat split. right. split; [assumption|]. exists b. reflexivity.
Qed.

Lemma validating_ret A (a : A) : validating (ret a).
Proof. intros w. apply only_rejected_refl. Qed.

Lemma validating_throw A : validating (@throw A).
Proof. intros w. apply only_rejected_refl. Qed.

Lemma validating_send b : validating (send 400 b).
Proof.
  intros w. destruct (response w) eqn:E.
  - rewrite (send_answered _ _ _ E). apply only_rejected_refl.
  - rewrite (send_unanswered _ _ _ E). apply only_rejected_answered, E.
Qed.

Lemma validating_bind A B (m : Handler A) (k : A -> Handler B) :
  validating m -> (forall a, validating (k a)) -> validating (bind m k).
Proof.
  intros Hm Hk w. unfold bind. specialize (Hm w).
  destruct (m w) as [[a|] w1]; simpl in *.
  - eapply only_rejected_trans; [exact Hm | apply Hk].
  - exact Hm.
Qed.

Lemma validating_for_each A (body : A -> Handler unit) l :
  (forall x, validating (body x)) -> validating (for_each body l).
Proof.
  intros Hb. induction l as [|x l IH]; simpl.
  - apply validating_ret.
  - apply validating_bind; [apply Hb | intros _; exact IH].
Qed.

Lemma validating_if A (c : bool) (m1 m2 : Handler A) :
  validating m1 -> validating m2 -> validating (if c then m1 else m2).
Proof. destruct c; auto. Qed.

End FrameworkFacts.

Create HintDb validating.
#[local] Hint Resolve validating_ret validating_throw validating_send
  validating_bind validating_for_each validating_if : validating.

(** ** The validators *)

Section ValidatorFacts.
Context {C : Collaborators}.
Import Express BooksRouter.
Local Open Scope handler_scope.

Lemma validating_property_of A (o : option A) : validating (property_of o).
Proof. destruct o; simpl; auto with validating. Qed.

Lemma validating_verifyElement isValid name : validating (verifyElement isValid name).
Proof. unfold verifyElement. auto with validating. Qed.

Ltac validating :=
  repeat first
    [ apply validating_ret | apply validating_throw | apply validating_send
    | apply validating_property_of | apply validating_verifyElement
    | apply validating_for_each | apply validating_if | apply validating_bind
    | match goal with |- forall _, _ => intro end ].

Lemma validating_check_isbn request : validating (check_isbn request).
Proof.
  unfold check_isbn.
  apply validating_bind; [|validating].
  destruct (Req.params_isbn request); validating.
Qed.

Lemma validating_update_ratings_validate request :
  validating (update_ratings_validate request).
Proof. unfold update_ratings_validate. validating. Qed.

Lemma validating_rating_range_validate request :
  validating (rating_range_validate request).
Proof. unfold rating_range_validate. validating. Qed.

Lemma validating_add_book_validate request :
  validating (add_book_validate request).
Proof. unfold add_book_validate. validating. Qed.

(** [check_isbn] calls [next()] whatever it found. *)
Lemma check_isbn_always_next request w :
  response w = None ->
  exists w', check_isbn request w = (Returned Next, w') /\ only_rejected w w'.
Proof.
  intros N.
  assert (S : forall b, send 400 b w
                        = (Returned tt, answered w {| status := 400; body := b |}))
    by (intros; apply send_unanswered, N).
  unfold check_isbn, bind.
  destruct (Req.params_isbn request) eqn:E;
    try (rewrite S; eexists; split;
         [reflexivity | apply only_rejected_answered, N]);
    (destruct (negb (isNumberProvided _));
     [ rewrite S; eexists; split;
       [reflexivity | apply only_rejected_answered, N]
     | destruct (Number_lt _ 0 || Number_gt _ pow_10_13);
       [ rewrite S; eexists; split;
         [reflexivity | apply only_rejected_answered, N]
       | eexists; split; [reflexivity | apply only_rejected_refl] ] ]).
Qed.

Lemma check_isbn_accepted request w :
  isbn_accepted (Req.params_isbn request) = true ->
  check_isbn request w = (Returned Next, w).
Proof.
  unfold isbn_accepted, check_isbn, bind.
  destruct (Req.params_isbn request); try discriminate;
    intros H; apply andb_true_iff in H; destruct H as [H1 H2];
    rewrite H1; simpl; apply negb_true_iff in H2; rewrite H2; reflexivity.
Qed.

(** A guarded send inside a loop: nothing happens when no element trips
    the guard, and the client has the rejection when one does. *)
Lemma for_each_guard_quiet (p : value -> bool) b l w :
  existsb p l = false ->
  for_each (fun v => if p v then send 400 b else ret tt) l w = (Returned tt, w).
Proof.
  revert w. induction l as [|x l IH]; simpl; intros w H; [reflexivity|].
  apply orb_false_iff in H. destruct H as [Hx Hl].
  unfold bind. rewrite Hx. simpl. apply IH, Hl.
Qed.

Lemma for_each_guard_answered (p : value -> bool) b l w r :
  response w = Some r ->
  snd (for_each (fun v => if p v then send 400 b else ret tt) l w) = w.
Proof.
  intros R. induction l as [|x l IH]; simpl; [reflexivity|].
  unfold bind. destruct (p x).
  - rewrite (send_answered _ _ _ R). reflexivity.
  - simpl. exact IH.
Qed.

Lemma for_each_guard_trips (p : value -> bool) b l w :
  existsb p l = true -> response w = None ->
  snd (for_each (fun v => if p v then send 400 b else ret tt) l w)
  = answered w {| status := 400; body := b |}.
Proof.
  intros H N. induction l as [|x l IH]; simpl in *; [discriminate|].
  unfold bind. destruct (p x) eqn:Px.
  - rewrite (send_unanswered _ _ _ N).
    eapply for_each_guard_answered. reflexivity.
  - simpl in *. apply IH, H.
Qed.

(** What the client has after the ratings validator, whatever the validator
    goes on to do: the rejection of the first violated constraint, in the
    validator's own order, and nothing when no constraint is violated. *)
Lemma update_ratings_validate_world request r w :
  Req.body_ratings request = Some r ->
  response w = None ->
  snd (update_ratings_validate request w)
  = match first_violation r with
    | Some v => answered w {| status := 400; body := violation_body v |}
    | None => w
    end.
Proof.
  intros B N. unfold update_ratings_validate, first_violation.
  rewrite B. unfold property_of, bind at 1, ret at 1.
  unfold some_missing, some_negative_count, average_out_of_range.
  set (g1 := fun v : value => if negb (isNumberProvided v)
                              then send 400 missing_fields else ret tt).
  set (g2 := fun v : value => if Js.lt v (JNum 0)
                              then send 400 count_not_positive else ret tt).
  set (avg_test := Js.gt (hd JUndefined (toCheck r)) (JNum 5)
                   || Js.lt (hd JUndefined (toCheck r)) (JNum 1)).
  change (Js.gt (Req.average r) (JNum 5) || Js.lt (Req.average r) (JNum 1))
    with avg_test.
  assert (A : forall w0 r0, response w0 = Some r0 ->
              snd (bind (for_each g2 (tl (toCheck r)))
                     (fun _ => if avg_test
                               then send 400 average_not_in_range ;; ret Stop
                               else ret Next) w0) = w0).
  { intros w0 r0 R0. unfold bind at 1.
    pose proof (for_each_guard_answered (fun v => Js.lt v (JNum 0))
                  count_not_positive (tl (toCheck r)) w0 R0) as G.
    cbv beta in G; fold g2 in G.
    destruct (for_each g2 (tl (toCheck r)) w0) as [[[]|] w1]; simpl in G; subst w1;
      [|reflexivity].
    destruct avg_test; [|reflexivity].
    unfold bind. rewrite (send_answered _ _ _ R0). reflexivity. }
  destruct (existsb (fun v => negb (isNumberProvided v)) (toCheck r)) eqn:M.
  - pose proof (for_each_guard_trips (fun v => negb (isNumberProvided v))
                  missing_fields (toCheck r) w M N) as G.
    cbv beta in G; fold g1 in G. unfold bind at 1.
    destruct (for_each g1 (toCheck r) w) as [[[]|] w1]; simpl in G; subst w1;
      [|reflexivity].
    eapply A. reflexivity.
  - pose proof (for_each_guard_quiet (fun v => negb (isNumberProvided v))
                  missing_fields (toCheck r) w M) as G.
    cbv beta in G; fold g1 in G. unfold bind at 1. rewrite G.
    destruct (existsb (fun v => Js.lt v (JNum 0)) (tl (toCheck r))) eqn:Neg.
    + pose proof (for_each_guard_trips (fun v => Js.lt v (JNum 0))
                    count_not_positive (tl (toCheck r)) w Neg N) as G2.
      cbv beta in G2; fold g2 in G2. unfold bind at 1.
      destruct (for_each g2 (tl (toCheck r)) w) as [[[]|] w1]; simpl in G2; subst w1;
        [|reflexivity].
      destruct avg_test; [|reflexivity].
      unfold bind. erewrite send_answered by reflexivity. reflexivity.
    + pose proof (for_each_guard_quiet (fun v => Js.lt v (JNum 0))
                    count_not_positive (tl (toCheck r)) w Neg) as G2.
      cbv beta in G2; fold g2 in G2. unfold bind at 1. rewrite G2.
      destruct avg_test; [|reflexivity].
      unfold bind. rewrite (send_unanswered _ _ _ N). reflexivity.
Qed.

End ValidatorFacts.

(** ** POST /: a rejected insert is not stopped *)

Section InsertFacts.
Context {C : Collaborators}.
Import Express BooksRouter.

Lemma verifyElement_outcome isValid name w :
  fst (verifyElement isValid name w) = Returned tt
  \/ fst (verifyElement isValid name w) = Threw.
Proof.
  unfold verifyElement. destruct (negb isValid); [|left; reflexivity].
  unfold send. destruct (response w); [right | left]; reflexivity.
Qed.

(** No path through the insert validator ends the request: it reaches
    [next()] unless a statement throws on the way. *)
Lemma add_book_validate_never_stops request w :
  fst (add_book_validate request w) <> Returned Stop.
Proof.
  unfold add_book_validate, bind, property_of.
  destruct (Req.body_entry request) as [entry|]; [|discriminate].
  unfold ret at 1.
  repeat match goal with
         | |- context [verifyElement ?v ?n ?x] =>
             destruct (verifyElement v n x) as [[[]|] ?]; [|discriminate]
         end.
  discriminate.
Qed.

End InsertFacts.

(** C1 (defect): a book-insert request that fails shape validation is
    answered 400 and nevertheless reaches storage.  The validator never ends
    the request ([add_book_validate_never_stops]); for an entry whose only
    fault is a negative ISBN, the client receives the 400 for the ISBN while
    the Book INSERT is the first statement handed to the pool and the row
    with ISBN -1 is stored.  Nothing is stated about the author statements,
    whose fate after the 201 fails to be sent depends on the runtime. *)
Theorem C1_rejected_insert_still_written :
  let request := Samples.with_entry (Samples.entry_with_isbn (JNum (-1))) in
  let w := BooksRouter.run (BooksRouter.post_books (C := Reference.collaborators) request)
                           (Express.fresh Samples.empty_store) in
  Express.response w
  = Some {| Express.status := 400;
            Express.body := Express.message
              "Invalid or missing ISBN - please refer to documentation" |}
  /\ hd_error (map Db.theQuery (Express.issued w)) = Some Db.InsertBook
  /\ map Db.isbn13 (Db.Books (Express.store w)) = [-1].
Proof. vm_compute. repeat split; reflexivity. Qed.

(** ** By-ISBN lookup *)

Section ByIsbnFacts.
Context {C : Collaborators}.
Import Express BooksRouter.

Lemma round_trip_response q w :
  response (snd (Pool.round_trip q w)) = response w.
Proof.
  unfold Pool.round_trip.
  destruct (faults w) as [|[] later]; simpl;
    try destruct (Engine.exec q (store w)); reflexivity.
Qed.

Lemma round_trip_issued q w :
  issued (snd (Pool.round_trip q w)) = issued w ++ [q].
Proof.
  unfold Pool.round_trip.
  destruct (faults w) as [|[] later]; simpl;
    try destruct (Engine.exec q (store w)); reflexivity.
Qed.

(** Without a storage failure a round trip is the engine's execution. *)
Lemma round_trip_no_fault q w :
  faults w = [] ->
  Pool.round_trip q w
  = (fst (Engine.exec q (store w)),
     {| store := snd (Engine.exec q (store w)); faults := [];
        response := response w; issued := issued w ++ [q] |}).
Proof.
  unfold Pool.round_trip. intros ->. simpl.
  destruct (Engine.exec q (store w)); reflexivity.
Qed.

(** The response of GET /isbns/:isbn to an accepted parameter, by the
    outcome of its one statement. *)
Lemma get_isbns_response request w :
  response w = None ->
  isbn_accepted (Req.params_isbn request) = true ->
  response (run (get_isbns request) w)
  = Some (match fst (Pool.round_trip
                       {| Db.theQuery := Db.SelectByIsbn;
                          Db.values := [Req.params_isbn request] |} w) with
          | Db.Failure _ => {| status := 500; body := server_error |}
          | r =>
              match rows_of r with
              | [row] => {| status := 200; body := result (toBook row) |}
              | _ => {| status := 404;
                        body := message "No book with given ISBN" |}
              end
          end).
Proof.
  intros N A. unfold get_isbns, run.
  rewrite (check_isbn_accepted _ _ A).
  unfold get_by_isbn, bind, Pool.query_then_catch.
  pose proof (round_trip_response
                {| Db.theQuery := Db.SelectByIsbn;
                   Db.values := [Req.params_isbn request] |} w) as R.
  destruct (Pool.round_trip _ w) as [r w1]. simpl in R. rewrite N in R.
  simpl fst.
  destruct r as [rows| | |d]; simpl;
    try (unfold unhandled, one_book_or_404; simpl);
    try (destruct rows as [|row [|row' rows']]; simpl);
    try (rewrite (send_unanswered _ _ _ R); reflexivity).
Qed.

End ByIsbnFacts.

(** C2 (as stated, refuted): the by-ISBN statement matches two rows of a
    store that holds the ISBN twice, and the client is answered 404, not a
    server error. *)
Lemma C2_two_rows_answered_404 :
  let request := Samples.with_isbn "9780000000001" in
  let w0 := Express.fresh Samples.duplicated_isbn in
  let matched :=
    fst (Pool.round_trip (C := Reference.collaborators)
           {| Db.theQuery := Db.SelectByIsbn;
              Db.values := [Req.params_isbn request] |} w0) in
  BooksRouter.rowCount matched = 2%nat
  /\ Express.response
       (BooksRouter.run (BooksRouter.get_isbns (C := Reference.collaborators) request) w0)
     = Some {| Express.status := 404;
               Express.body := Express.message "No book with given ISBN" |}.
Proof. vm_compute. split; reflexivity. Qed.

(** C2 (amended): for every by-ISBN lookup whose parameter the route
    accepts, exactly one matched row returns that book; any other number of
    matched rows, zero or more than one, returns 404 "No book with given
    ISBN"; the server error is sent when the storage round trip fails. *)
Theorem C2_by_isbn_lookup :
  forall (C : Collaborators) (request : Req.Request) (w : Express.World),
    Express.response w = None ->
    BooksRouter.isbn_accepted (Req.params_isbn request) = true ->
    let matched :=
      fst (Pool.round_trip {| Db.theQuery := Db.SelectByIsbn;
                              Db.values := [Req.params_isbn request] |} w) in
    let answer := Express.response (BooksRouter.run (BooksRouter.get_isbns request) w) in
    (forall row, matched = Db.Rows [row] ->
       answer = Some {| Express.status := 200;
                        Express.body := Express.result (toBook row) |})
    /\ (forall rows, matched = Db.Rows rows -> length rows <> 1%nat ->
          answer = Some {| Express.status := 404;
                           Express.body := Express.message "No book with given ISBN" |})
    /\ (forall detail, matched = Db.Failure detail ->
          answer = Some {| Express.status := 500;
                           Express.body := BooksRouter.server_error |}).
Proof.
  intros C request w N A matched answer.
  unfold answer. rewrite (get_isbns_response _ _ N A). fold matched.
  repeat split.
  - intros row ->. reflexivity.
  - intros rows -> L. simpl. destruct rows as [|row [|row' rows']]; simpl in *;
      congruence.
  - intros detail ->. reflexivity.
Qed.

(** The lookup of a book of [Samples.library] that matches one row. *)
Lemma C2_by_isbn_lookup_witness :
  Express.sent_books
    (BooksRouter.run (BooksRouter.get_isbns (C := Reference.collaborators)
                        (Samples.with_isbn "9780000000003"))
                     (Express.fresh Samples.library))
  = [ toBook {| Db.columns := Samples.book 9780000000003 "Emma" 5;
                Db.authors := Some "Zed" |} ].
Proof.
  unfold Express.sent_books.
  rewrite (proj1 (@C2_by_isbn_lookup Reference.collaborators
                    (Samples.with_isbn "9780000000003")
                    (Express.fresh Samples.library) eq_refl eq_refl)
             {| Db.columns := Samples.book 9780000000003 "Emma" 5;
                Db.authors := Some "Zed" |});
    [reflexivity | vm_compute; reflexivity].
Defined.

(** ** PUT /rating/:isbn *)

(** C3 (as stated, refuted): with the average checked before the counts, a
    payload whose average is 0 and whose count is -1 would be reported as an
    out-of-range average; the validator reports the negative count. *)
Lemma C3_average_is_not_checked_before_counts :
  let r := Req.ratings_of 0 (-1) 0 0 0 0 0 in
  let request := Samples.with_ratings "9780000000001" r in
  BooksRouter.first_violation_as_specified (C := Reference.collaborators) r
  = Some BooksRouter.OutOfRangeAverage
  /\ Express.response
       (snd (BooksRouter.update_ratings_validate (C := Reference.collaborators)
               request (Express.fresh Samples.library)))
     = Some {| Express.status := 400;
               Express.body := BooksRouter.count_not_positive |}.
Proof. vm_compute. split; reflexivity. Qed.

(** C3 (amended): for every ratings payload submitted to the rating-update
    validator, the constraints are checked in the order: presence of all
    seven numeric fields, then all six counts >= 0, then average in [1,5];
    the client receives the 400 of the first violated constraint only, and
    nothing when none is violated; the validator changes nothing else. *)
Theorem C3_ratings_validator_reports_first_violation :
  forall (C : Collaborators) (request : Req.Request) (r : Req.Ratings)
         (w : Express.World),
    Req.body_ratings request = Some r ->
    Express.response w = None ->
    let w' := snd (BooksRouter.update_ratings_validate request w) in
    Express.response w'
    = option_map (fun v => {| Express.status := 400;
                              Express.body := BooksRouter.violation_body v |})
                 (BooksRouter.first_violation r)
    /\ Express.store w' = Express.store w
    /\ Express.issued w' = Express.issued w.
Proof.
  intros C request r w B N w'. unfold w'.
  rewrite (update_ratings_validate_world _ _ B N).
  destruct (BooksRouter.first_violation r); simpl; auto.
Qed.

(** An average of 0 together with a count of -1 is reported as the negative
    count. *)
Lemma C3_ratings_validator_witness :
  Express.response
    (snd (BooksRouter.update_ratings_validate (C := Reference.collaborators)
            (Samples.with_ratings "9780000000001"
               (Req.ratings_of 0 (-1) 0 0 0 0 0))
            (Express.fresh Samples.library)))
  = Some {| Express.status := 400;
            Express.body := BooksRouter.count_not_positive |}.
Proof.
  exact (proj1 (@C3_ratings_validator_reports_first_violation
                  Reference.collaborators
                  (Samples.with_ratings "9780000000001"
                     (Req.ratings_of 0 (-1) 0 0 0 0 0))
                  (Req.ratings_of 0 (-1) 0 0 0 0 0)
                  (Express.fresh Samples.library) eq_refl eq_refl)).
Defined.

Section RatingUpdateFacts.
Context {C : Collaborators}.
Import Express BooksRouter.
Local Open Scope handler_scope.

Lemma send_keeps_store code b w :
  store (snd (send code b w)) = store w.
Proof. unfold send. destruct (response w); reflexivity. Qed.

Lemma send_then_stop_is_not_next code b w :
  fst ((send code b ;; ret Stop) w) <> Returned Next.
Proof.
  unfold bind, send. destruct (response w); simpl; discriminate.
Qed.

(** The ratings validator reaches [next()] only past the range check. *)
Lemma update_ratings_validate_next request r w :
  Req.body_ratings request = Some r ->
  fst (update_ratings_validate request w) = Returned Next ->
  average_out_of_range r = false.
Proof.
  intros B. unfold update_ratings_validate, average_out_of_range.
  rewrite B. unfold property_of, bind at 1, ret at 1.
  unfold bind at 1. destruct (for_each _ (toCheck r) w) as [[[]|] w1];
    [|discriminate].
  unfold bind at 1. destruct (for_each _ (tl (toCheck r)) w1) as [[[]|] w2];
    [|discriminate].
  change (hd JUndefined (toCheck r)) with (Req.average r).
  destruct (Js.gt (Req.average r) (JNum 5) || Js.lt (Req.average r) (JNum 1));
    [|reflexivity].
  intros H. exfalso. exact (send_then_stop_is_not_next _ _ _ H).
Qed.

Lemma update_ratings_validate_passes request r w :
  Req.body_ratings request = Some r ->
  first_violation r = None ->
  update_ratings_validate request w = (Returned Next, w).
Proof.
  intros B. unfold first_violation, some_missing, some_negative_count,
    average_out_of_range.
  destruct (existsb _ (toCheck r)) eqn:M; [discriminate|].
  destruct (existsb _ (tl (toCheck r))) eqn:Neg; [discriminate|].
  destruct (Js.gt _ _ || Js.lt _ _) eqn:Avg; [discriminate|]. intros _.
  unfold update_ratings_validate. rewrite B.
  unfold property_of, bind at 1, ret at 1.
  unfold bind at 1.
  rewrite (for_each_guard_quiet (fun v => negb (isNumberProvided v)) _ _ _ M).
  unfold bind at 1.
  rewrite (for_each_guard_quiet (fun v => Js.lt v (JNum 0)) _ _ _ Neg).
  change (hd JUndefined (toCheck r)) with (Req.average r).
  rewrite Avg. reflexivity.
Qed.

Lemma zero_average_out_of_range r :
  Req.average r = JNum 0 -> average_out_of_range r = true.
Proof. unfold average_out_of_range. intros ->. reflexivity. Qed.

Lemma zero_average_is_a_violation r :
  Req.average r = JNum 0 -> first_violation r <> None.
Proof.
  intros A. unfold first_violation.
  rewrite (zero_average_out_of_range _ A).
  destruct (some_missing r); [discriminate|].
  destruct (some_negative_count r); discriminate.
Qed.

(** A rating update whose average is 0 never reaches the UPDATE. *)
Lemma put_rating_zero_average request r w :
  Req.body_ratings request = Some r ->
  Req.average r = JNum 0 ->
  response w = None ->
  only_rejected w (run (put_rating request) w)
  /\ response (run (put_rating request) w) <> None.
Proof.
  intros B A N.
  destruct (check_isbn_always_next request w N) as (w1 & E1 & R1).
  unfold put_rating, run. rewrite E1.
  pose proof (validating_update_ratings_validate request w1) as R2.
  pose proof (update_ratings_validate_next request w1 B) as NX.
  assert (S2 : response (snd (update_ratings_validate request w1)) <> None).
  { destruct (response w1) as [r1|] eqn:E.
    - rewrite (only_rejected_keeps R2 E). discriminate.
    - rewrite (update_ratings_validate_world _ _ B E).
      destruct (first_violation r) eqn:V.
      + simpl. discriminate.
      + exfalso. exact (zero_average_is_a_violation _ A V). }
  destruct (update_ratings_validate request w1) as [[[]|] w2]; simpl in *.
  - specialize (NX eq_refl).
    rewrite (zero_average_out_of_range _ A) in NX. discriminate.
  - split; [eapply only_rejected_trans; eassumption | assumption].
  - unfold error_handler. destruct (response w2) eqn:RW; [|congruence].
    split; [eapply only_rejected_trans; eassumption | congruence].
Qed.

(** The store after the UPDATE handler. *)
Lemma update_ratings_store request avg c r1 r2 r3 r4 r5 n w :
  Req.body_ratings request = Some (Req.ratings_of avg c r1 r2 r3 r4 r5) ->
  Engine.bind_numeric (Req.params_isbn request) = Engine.Bound n ->
  faults w = [] ->
  Db.Books (store (snd (update_ratings request w)))
  = map (fun b => if Engine.has_isbn n b
                  then Engine.set_ratings avg c r1 r2 r3 r4 r5 b else b)
        (Db.Books (store w)).
Proof.
  intros B I F. unfold update_ratings. rewrite B.
  unfold property_of, bind at 1, ret at 1.
  unfold bind, Pool.query_then_catch.
  rewrite (round_trip_no_fault _ _ F).
  unfold Engine.exec, Engine.update_ratings. simpl.
  rewrite I. simpl.
  destruct (map _ (filter (Engine.has_isbn n) (Db.Books (store w))))
    as [|row [|row' rows]]; simpl;
    unfold send, unhandled, name_exists_or_500, send; simpl;
    destruct (response w); reflexivity.
Qed.

End RatingUpdateFacts.

Section RatingUpdateRoute.
Context {C : Collaborators}.
Import Express BooksRouter.

(** When the ratings validator does not reach [next()], the request ends
    with the world the validator leaves. *)
Lemma put_rating_stopped request w w1 :
  check_isbn request w = (Returned Next, w1) ->
  fst (update_ratings_validate request w1) <> Returned Next ->
  response (snd (update_ratings_validate request w1)) <> None ->
  run (put_rating request) w = snd (update_ratings_validate request w1).
Proof.
  intros E1 NX S. unfold put_rating, run. rewrite E1.
  destruct (update_ratings_validate request w1) as [[[]|] w2]; simpl in *.
  - congruence.
  - reflexivity.
  - unfold error_handler. destruct (response w2); congruence.
Qed.

Lemma valid_aggregate_passes {HA : HelpersAccept C} avg c r1 r2 r3 r4 r5 :
  1 <= avg <= 5 ->
  0 <= c -> 0 <= r1 -> 0 <= r2 -> 0 <= r3 -> 0 <= r4 -> 0 <= r5 ->
  first_violation (Req.ratings_of avg c r1 r2 r3 r4 r5) = None.
Proof.
  intros [A1 A5] Hc H1 H2 H3 H4 H5.
  assert (NN : forall q, 0 <= q -> Qlt_bool q 0 = false).
  { intros q Hq. unfold Qlt_bool. apply negb_false_iff, Qle_bool_iff, Hq. }
  unfold first_violation, some_missing, some_negative_count,
    average_out_of_range, Req.ratings_of, toCheck; simpl.
  rewrite !number_is_provided. simpl.
  rewrite !NN by assumption. simpl.
  unfold Qlt_bool.
  rewrite (proj2 (Qle_bool_iff avg 5) A5), (proj2 (Qle_bool_iff 1 avg) A1).
  reflexivity.
Qed.

Lemma set_ratings_has_isbn n avg c r1 r2 r3 r4 r5 b :
  Engine.has_isbn n (Engine.set_ratings avg c r1 r2 r3 r4 r5 b)
  = Engine.has_isbn n b.
Proof. reflexivity. Qed.

(** The whole route on a valid aggregate: the UPDATE is applied. *)
Lemma put_rating_valid_aggregate {HA : HelpersAccept C}
      request avg c r1 r2 r3 r4 r5 n w :
  Req.body_ratings request = Some (Req.ratings_of avg c r1 r2 r3 r4 r5) ->
  1 <= avg <= 5 ->
  0 <= c -> 0 <= r1 -> 0 <= r2 -> 0 <= r3 -> 0 <= r4 -> 0 <= r5 ->
  Engine.bind_numeric (Req.params_isbn request) = Engine.Bound n ->
  response w = None -> faults w = [] ->
  Db.Books (store (run (put_rating request) w))
  = map (fun b => if Engine.has_isbn n b
                  then Engine.set_ratings avg c r1 r2 r3 r4 r5 b else b)
        (Db.Books (store w)).
Proof.
  intros B A Hc H1 H2 H3 H4 H5 I N F.
  destruct (check_isbn_always_next request w N) as (w1 & E1 & (S1 & F1 & _)).
  unfold put_rating, run. rewrite E1.
  rewrite (update_ratings_validate_passes _ _ B
             (valid_aggregate_passes A Hc H1 H2 H3 H4 H5)).
  rewrite <- S1.
  rewrite <- (update_ratings_store request w1 B I) by congruence.
  destruct (update_ratings request w1) as [[[]|] w2]; simpl; try reflexivity.
  unfold error_handler. destruct (response w2); reflexivity.
Qed.

End RatingUpdateRoute.

(** C4: a rating update whose payload has average = 0 is rejected with a
    400, no statement is issued and the store is unchanged; the 400 is the
    range error of the average when nothing is reported before it (the ISBN
    is accepted, no field is missing, no count is negative).  A rating update
    with a valid aggregate replaces the seven rating fields of the row of
    that ISBN by exactly the supplied values, whatever the relation between
    count and the per-star counts. *)
Theorem C4_rating_update_rejects_zero_average_and_stores_verbatim :
  (forall (C : Collaborators) (request : Req.Request) (r : Req.Ratings)
          (w : Express.World),
      Req.body_ratings request = Some r ->
      Req.average r = JNum 0 ->
      Express.response w = None ->
      let w' := BooksRouter.run (BooksRouter.put_rating request) w in
      Express.store w' = Express.store w
      /\ Express.issued w' = Express.issued w
      /\ (exists b, Express.response w'
                    = Some {| Express.status := 400; Express.body := b |})
      /\ (BooksRouter.isbn_accepted (Req.params_isbn request) = true ->
          BooksRouter.some_missing r = false ->
          BooksRouter.some_negative_count r = false ->
          Express.response w'
          = Some {| Express.status := 400;
                    Express.body := BooksRouter.average_not_in_range |}))
  /\
  (forall (C : Collaborators) (HA : HelpersAccept C) (request : Req.Request)
          (avg c r1 r2 r3 r4 r5 n : Q) (w : Express.World),
      Req.body_ratings request = Some (Req.ratings_of avg c r1 r2 r3 r4 r5) ->
      1 <= avg <= 5 ->
      0 <= c -> 0 <= r1 -> 0 <= r2 -> 0 <= r3 -> 0 <= r4 -> 0 <= r5 ->
      Engine.bind_numeric (Req.params_isbn request) = Engine.Bound n ->
      Express.response w = None ->
      Express.faults w = [] ->
      let w' := BooksRouter.run (BooksRouter.put_rating request) w in
      Db.Books (Express.store w')
      = map (fun b => if Engine.has_isbn n b
                      then Engine.set_ratings avg c r1 r2 r3 r4 r5 b else b)
            (Db.Books (Express.store w))
      /\ (forall b, In b (Db.Books (Express.store w')) ->
                    Engine.has_isbn n b = true ->
                    Db.rating_avg b = avg /\ Db.rating_count b = c
                    /\ Db.rating_1_star b = r1 /\ Db.rating_2_star b = r2
                    /\ Db.rating_3_star b = r3 /\ Db.rating_4_star b = r4
                    /\ Db.rating_5_star b = r5)).
Proof.
  split.
  - intros C request r w B A N w'.
    destruct (put_rating_zero_average request w B A N) as [(S & _ & I & R) NN].
    fold w' in S, I, R, NN.
    repeat split; try assumption.
    + destruct R as [R | (_ & b & R)]; [congruence | exists b; exact R].
    + intros Acc M Neg. unfold w'.
      pose proof (check_isbn_accepted request w Acc) as E1.
      assert (V : BooksRouter.first_violation r
                  = Some BooksRouter.OutOfRangeAverage).
      { unfold BooksRouter.first_violation. rewrite M, Neg.
        rewrite (zero_average_out_of_range _ A). reflexivity. }
      pose proof (update_ratings_validate_world request w B N) as W.
      rewrite V in W.
      rewrite (put_rating_stopped request w E1).
      * rewrite W. reflexivity.
      * intros NX. apply (update_ratings_validate_next request w B) in NX.
        rewrite (zero_average_out_of_range _ A) in NX. discriminate.
      * rewrite W. discriminate.
  - intros C HA request avg c r1 r2 r3 r4 r5 n w B A Hc H1 H2 H3 H4 H5 I N F w'.
    pose proof (@put_rating_valid_aggregate C HA request avg c r1 r2 r3 r4 r5 n w
                  B A Hc H1 H2 H3 H4 H5 I N F) as E.
    fold w' in E. split; [exact E|].
    intros b Hb Hn. rewrite E in Hb. apply in_map_iff in Hb.
    destruct Hb as (b0 & Eb & _).
    destruct (Engine.has_isbn n b0) eqn:H0.
    + subst b. simpl. repeat split; reflexivity.
    + subst b. congruence.
Qed.

(** An update with average 0 of a book of [Samples.library], and the update
    of the testable property (average 5, count 100, all of them five-star). *)
Lemma C4_rating_update_witness :
  (let w' := BooksRouter.run
               (BooksRouter.put_rating (C := Reference.collaborators)
                  (Samples.with_ratings "9780000000003"
                     (Req.ratings_of 0 10 1 1 1 1 6)))
               (Express.fresh Samples.library) in
   Express.store w' = Samples.library
   /\ Express.response w'
      = Some {| Express.status := 400;
                Express.body := BooksRouter.average_not_in_range |})
  /\ (let w' := BooksRouter.run
                  (BooksRouter.put_rating (C := Reference.collaborators)
                     (Samples.with_ratings "9780000000003"
                        (Req.ratings_of 5 100 0 0 0 0 100)))
                  (Express.fresh Samples.library) in
      forall b, In b (Db.Books (Express.store w')) ->
                Engine.has_isbn 9780000000003 b = true ->
                Db.rating_avg b = 5 /\ Db.rating_count b = 100
                /\ Db.rating_1_star b = 0 /\ Db.rating_2_star b = 0
                /\ Db.rating_3_star b = 0 /\ Db.rating_4_star b = 0
                /\ Db.rating_5_star b = 100).
Proof.
  split.
  - destruct (proj1 C4_rating_update_rejects_zero_average_and_stores_verbatim
                Reference.collaborators
                (Samples.with_ratings "9780000000003"
                   (Req.ratings_of 0 10 1 1 1 1 6))
                (Req.ratings_of 0 10 1 1 1 1 6)
                (Express.fresh Samples.library) eq_refl eq_refl eq_refl)
      as (S & _ & _ & R).
    split; [exact S | apply R; reflexivity].
  - apply (proj2 C4_rating_update_rejects_zero_average_and_stores_verbatim
             Reference.collaborators reference_helpers_accept
             (Samples.with_ratings "9780000000003"
                (Req.ratings_of 5 100 0 0 0 0 100))
             5 100 0 0 0 0 100 9780000000003 (Express.fresh Samples.library)
             eq_refl);
      try reflexivity; try (split; discriminate); discriminate.
Defined.

(** ** Deletes and the authors column *)

(** C5 (defect): two books of [Samples.library] are titled "Dune" and both
    have authors.  Deleting by that title fails in the engine (the subquery
    that supplies [authors] to every returned row yields two rows), the
    client is answered 500 and no book is removed. *)
Theorem C5_delete_by_title_of_two_books_fails :
  let w := BooksRouter.run
             (BooksRouter.delete_title (C := Reference.collaborators)
                (Samples.with_name "Dune"))
             (Express.fresh Samples.library) in
  length (filter (Engine.has_title "Dune") (Db.Books Samples.library)) = 2%nat
  /\ Express.response w
     = Some {| Express.status := 500;
               Express.body := BooksRouter.server_error |}
  /\ Express.store w = Samples.library.
Proof. vm_compute. repeat split; reflexivity. Qed.

(** C6 (defect): the first "Dune" of [Samples.library] is linked to Zed and
    then to Abe.  Its by-ISBN read carries "Abe, Zed"; the pre-image returned
    by the delete by author carries "Zed, Abe", in link order; and the read
    by author carries "Abe" alone. *)
Theorem C6_authors_column_by_route :
  map authors
      (Express.sent_books
         (BooksRouter.run
            (BooksRouter.get_isbns (C := Reference.collaborators)
               (Samples.with_isbn "9780000000001"))
            (Express.fresh Samples.library)))
  = [Some "Abe, Zed"]
  /\ map authors
         (Express.sent_books
            (BooksRouter.run
               (BooksRouter.delete_author (C := Reference.collaborators)
                  (Samples.with_name "Abe"))
               (Express.fresh Samples.library)))
     = [Some "Zed, Abe"; Some "Abe"]
  /\ map authors
         (Express.sent_books
            (BooksRouter.run
               (BooksRouter.get_author (C := Reference.collaborators)
                  (Samples.with_name "Abe"))
               (Express.fresh Samples.library)))
     = [Some "Abe"; Some "Abe"].
Proof. vm_compute. repeat split; reflexivity. Qed.

(** ** The ISBN check *)

(** C7 (defect): the ISBN 10^13 itself passes the range check of the three
    routes, whose statements are issued and answered 404; and a parameter
    that is rejected (here -1) is answered 400 while the statement is issued
    all the same, since the check calls [next()] on every path
    ([check_isbn_always_next]). *)
Theorem C7_isbn_check_boundary_and_fallthrough :
  let bound := "10000000000000" in
  let not_found :=
    Some {| Express.status := 404;
            Express.body := Express.message "No book with given ISBN" |} in
  let w_get := BooksRouter.run
                 (BooksRouter.get_isbns (C := Reference.collaborators)
                    (Samples.with_isbn bound))
                 (Express.fresh Samples.library) in
  let w_delete := BooksRouter.run
                    (BooksRouter.delete_isbns (C := Reference.collaborators)
                       (Samples.with_isbn bound))
                    (Express.fresh Samples.library) in
  let w_put := BooksRouter.run
                 (BooksRouter.put_rating (C := Reference.collaborators)
                    (Samples.with_ratings bound
                       (Req.ratings_of 5 100 0 0 0 0 100)))
                 (Express.fresh Samples.library) in
  let w_negative := BooksRouter.run
                      (BooksRouter.get_isbns (C := Reference.collaborators)
                         (Samples.with_isbn "-1"))
                      (Express.fresh Samples.library) in
  StringToNumber (Collaborators := Reference.collaborators) bound = Some pow_10_13
  /\ (Express.response w_get = not_found
      /\ map Db.theQuery (Express.issued w_get) = [Db.SelectByIsbn])
  /\ (Express.response w_delete = not_found
      /\ map Db.theQuery (Express.issued w_delete) = [Db.DeleteByIsbn])
  /\ (Express.response w_put = not_found
      /\ map Db.theQuery (Express.issued w_put) = [Db.UpdateRatings])
  /\ (Express.response w_negative
      = Some {| Express.status := 400;
                Express.body := Express.message
                  "ISBN not in range - please refer to documentation" |}
      /\ map Db.theQuery (Express.issued w_negative) = [Db.SelectByIsbn]).
Proof. vm_compute. repeat split; reflexivity. Qed.

(** ** ORDER BY and GROUP BY *)

Section RelationalFacts.
Import Db.

Variable A : Type.
Variable leb : A -> A -> bool.



Hypothesis leb_total : forall x y, leb x y = true \/ leb y x = true.

Let ordered (x y : A) : Prop := leb x y = true.

Lemma insert_by_head x y l :
  ordered y x -> HdRel ordered y l -> HdRel ordered y (insert_by leb x l).
Proof.
  intros Hyx H. destruct l as [|z l]; simpl.
  - constructor. exact Hyx.
  - destruct (leb x z); constructor; [exact Hyx|].
    inversion H; assumption.
Qed.

Lemma insert_by_sorted x l :
  Sorted ordered l -> Sorted ordered (insert_by leb x l).
Proof.
  induction 1 as [|y l S IH H]; simpl.
  - repeat constructor.
  - destruct (leb x y) eqn:E.
    + constructor; [constructor; assumption | constructor; exact E].
    + constructor; [exact IH|].
      apply insert_by_head; [|exact H].
      destruct (leb_total x y) as [T|T]; [congruence | exact T].
Qed.

Lemma sort_by_sorted l : Sorted ordered (sort_by leb l).
Proof.
  induction l as [|x l IH]; simpl; [constructor|].
  apply insert_by_sorted, IH.
Qed.

End RelationalFacts.

(** Every row of the aggregated view carries its names joined in
    alphabetical order: the reads by ISBN, by title and by rating range, the
    paginated scan and the delete by ISBN all take their [authors] from it. *)
Lemma book_view_authors_ordered where_ s row :
  In row (Db.book_view where_ s) ->
  exists names,
    Db.authors row = Some (String.concat ", " names)
    /\ Sorted (fun x y => String.leb x y = true) names.
Proof.
  unfold Db.book_view. intros H. apply in_map_iff in H.
  destruct H as (g & <- & _). simpl.
  exists (Db.sort_by String.leb (snd g)). split; [reflexivity|].
  apply sort_by_sorted. exact String.leb_total.
Qed.

Section SortedMap.
Variables (A B : Type) (f : A -> B).
Variables (R : A -> A -> Prop) (R' : B -> B -> Prop).
Hypothesis R_f : forall x y, R x y -> R' (f x) (f y).

End SortedMap.

Section GroupByFacts.
Import Db.

Variables K V : Type.
Variable eqb : K -> K -> bool.
Variable p : K -> bool.
Hypothesis p_respects : forall k k', eqb k k' = true -> p k = p k'.

Let on_key (g : K * list V) : bool := p (fst g).

Lemma add_to_group_kept k v gs :
  p k = true ->
  filter on_key (add_to_group eqb k v gs)
  = add_to_group eqb k v (filter on_key gs).
Proof.
  intros Pk. unfold on_key. induction gs as [|[k' vs] gs IH]; simpl.
  - rewrite Pk. reflexivity.
  - destruct (eqb k' k) eqn:E; simpl.
    + rewrite (p_respects E), Pk. simpl. rewrite E. reflexivity.
    + destruct (p k'); simpl; rewrite ?E, IH; reflexivity.
Qed.

Lemma add_to_group_dropped k v gs :
  p k = false ->
  filter on_key (add_to_group eqb k v gs) = filter on_key gs.
Proof.
  intros Pk. unfold on_key. induction gs as [|[k' vs] gs IH]; simpl.
  - rewrite Pk. reflexivity.
  - destruct (eqb k' k) eqn:E; simpl.
    + rewrite (p_respects E), Pk. reflexivity.
    + rewrite IH. reflexivity.
Qed.

Lemma fold_add_to_group_filter rows acc :
  fold_left (fun gs kv => add_to_group eqb (fst kv) (snd kv) gs)
            (filter (fun kv : K * V => p (fst kv)) rows) (filter on_key acc)
  = filter on_key
      (fold_left (fun gs kv => add_to_group eqb (fst kv) (snd kv) gs) rows acc).
Proof.
  revert acc. induction rows as [|[k v] rows IH]; intros acc; simpl;
    [reflexivity|].
  destruct (p k) eqn:Pk; simpl.
  - rewrite <- add_to_group_kept by exact Pk. apply IH.
  - rewrite <- IH. rewrite add_to_group_dropped by exact Pk. reflexivity.
Qed.

(** A WHERE on the grouping key can be applied to the groups. *)
Lemma group_by_filter rows :
  group_by eqb (filter (fun kv : K * V => p (fst kv)) rows)
  = filter on_key (group_by eqb rows).
Proof. exact (fold_add_to_group_filter rows []). Qed.

End GroupByFacts.

(** ** POST /rating *)

Section RatingRangeFacts.
Context {C : Collaborators}.
Import Express BooksRouter.
Local Open Scope handler_scope.

Lemma filter_of_map A B (f : B -> bool) (g : A -> B) l :
  filter f (map g l) = map g (filter (fun a => f (g a)) l).
Proof.
  induction l as [|x l IH]; simpl; [reflexivity|].
  destruct (f (g x)); simpl; rewrite IH; reflexivity.
Qed.

Lemma filter_everything A (l : list A) : filter (fun _ => true) l = l.
Proof. induction l as [|x l IH]; simpl; [|rewrite IH]; reflexivity. Qed.

Lemma book_eqb_rating_avg x y :
  Db.book_eqb x y = true -> Db.rating_avg x == Db.rating_avg y.
Proof.
  unfold Db.book_eqb. intros H.
  repeat (apply andb_true_iff in H; destruct H as [H ?]).
  apply Qeq_bool_iff. assumption.
Qed.

Lemma avg_between_respects lo hi x y :
  Db.book_eqb x y = true ->
  Engine.avg_between lo hi x = Engine.avg_between lo hi y.
Proof.
  intros H. apply book_eqb_rating_avg in H.
  unfold Engine.avg_between. rewrite H. reflexivity.
Qed.

(** A WHERE on book columns selects among the rows of the whole view. *)
Lemma book_view_where (p : Db.BookRow -> bool) s :
  (forall x y, Db.book_eqb x y = true -> p x = p y) ->
  Db.book_view (Engine.by_book p) s
  = filter (fun row => p (Db.columns row)) (Db.book_view (fun _ => true) s).
Proof.
  intros Hp. unfold Db.book_view, Engine.by_book.
  rewrite filter_everything.
  rewrite (filter_of_map (fun row => p (Db.columns row))). simpl.
  rewrite <- (group_by_filter (V := string) Db.book_eqb p Hp).
  rewrite (filter_of_map (fun kv : Db.BookRow * string => p (fst kv))). simpl.
  reflexivity.
Qed.





End RatingRangeFacts.

Section RatingRangeOrder.




End RatingRangeOrder.

(** ** POST /pagination/offset *)

Section PaginationFacts.
Context {C : Collaborators}.
Import Express BooksRouter.

Lemma resolve_limit_positive raw : 0 < resolve_limit raw.
Proof.
  unfold resolve_limit.
  destruct (isNumberProvided raw); [|reflexivity].
  destruct (Js.ToNumber raw) as [n|]; [|reflexivity].
  destruct (Qlt_bool 0 n) eqn:E; [|reflexivity].
  apply Qlt_bool_iff, E.
Qed.

Lemma resolve_offset_nonnegative raw : 0 <= resolve_offset raw.
Proof.
  unfold resolve_offset.
  destruct (isNumberProvided raw); [|discriminate].
  destruct (Js.ToNumber raw) as [n|]; [|discriminate].
  destruct (Qle_bool 0 n) eqn:E; [|discriminate].
  apply Qle_bool_iff, E.
Qed.

Lemma as_integer_nonnegative q z :
  Engine.as_integer q = Some z -> 0 <= q -> (0 <= z)%Z.
Proof.
  unfold Engine.as_integer. intros H Hq.
  destruct (Pos.eqb (Qden (Qred q)) 1) eqn:E; [|discriminate].
  injection H as <-. apply Pos.eqb_eq in E.
  rewrite <- (Qred_correct q) in Hq.
  unfold Qle in Hq. rewrite E in Hq. simpl in Hq. lia.
Qed.

Lemma exec_select_page l o li oi s :
  Engine.as_integer l = Some li -> Engine.as_integer o = Some oi ->
  (0 <= li <= Engine.max_bigint)%Z -> (0 <= oi <= Engine.max_bigint)%Z ->
  Engine.exec {| Db.theQuery := Db.SelectPage; Db.values := [JNum l; JNum o] |} s
  = (Db.Rows (firstn (Z.to_nat li)
                (skipn (Z.to_nat oi) (Db.book_view (fun _ => true) s))), s).
Proof.
  intros L O [Hl Bl] [Ho Bo]. apply Z.leb_le in Hl, Ho, Bl, Bo.
  unfold Engine.exec, Engine.select_page. cbn [Db.theQuery Db.values Engine.bind_numeric].
  rewrite L, O, Hl, Ho, Bl, Bo. reflexivity.
Qed.

(** The response of the paginated scan when storage answers. *)
Lemma pagination_response request w li oi :
  response w = None -> faults w = [] ->
  Engine.as_integer (resolve_limit (Req.body_limit request)) = Some li ->
  Engine.as_integer (resolve_offset (Req.body_offset request)) = Some oi ->
  (li <= Engine.max_bigint)%Z -> (oi <= Engine.max_bigint)%Z ->
  response (run (post_pagination_offset request) w)
  = Some {| status := 200;
            body := paged
              (map toBook
                 (firstn (Z.to_nat li)
                    (skipn (Z.to_nat oi)
                       (Db.book_view (fun _ => true) (store w)))))
              {| totalRecords := inject_Z (Z.of_nat (length (Db.Books (store w))));
                 limit := resolve_limit (Req.body_limit request);
                 offset := resolve_offset (Req.body_offset request);
                 nextPage := resolve_limit (Req.body_limit request)
                             + resolve_offset (Req.body_offset request) |} |}.
Proof.
  intros N F L O Bl Bo.
  pose proof (@as_integer_nonnegative _ _ L
                (Qlt_le_weak _ _ (resolve_limit_positive _))) as Hl.
  pose proof (@as_integer_nonnegative _ _ O (resolve_offset_nonnegative _)) as Ho.
  unfold post_pagination_offset, run, pagination_offset, bind, unhandled,
    Pool.await_query.
  rewrite (round_trip_no_fault _ _ F).
  rewrite (@exec_select_page _ _ li oi (store w) L O (conj Hl Bl) (conj Ho Bo)).
  cbn [fst snd].
  rewrite round_trip_no_fault by reflexivity.
  cbn. unfold send. cbn. rewrite N. reflexivity.
Qed.

End PaginationFacts.

(** ** Books without author links *)

Section OrphanFacts.
Context {C : Collaborators}.
Import Express BooksRouter.

(** Every row of the join carries a link row of the book's ISBN. *)
Lemma joined_has_link s b a :
  In (b, a) (Db.joined s) ->
  exists ba, In ba (Db.Books_Authors s)
             /\ Db.isbn13 b == Db.ba_isbn13 ba.
Proof.
  unfold Db.joined. intros H.
  apply in_flat_map in H. destruct H as (b0 & _ & H).
  apply in_flat_map in H. destruct H as (ba & Hba & H).
  destruct (Qeq_bool (Db.isbn13 b0) (Db.ba_isbn13 ba)) eqn:E; [|contradiction].
  apply in_map_iff in H. destruct H as (a0 & Heq & _).
  injection Heq as <- <-.
  exists ba. split; [exact Hba | apply Qeq_bool_iff, E].
Qed.

Lemma filter_nothing A (f : A -> bool) l :
  (forall x, In x l -> f x = false) -> filter f l = [].
Proof.
  induction l as [|x l IH]; simpl; intros H; [reflexivity|].
  rewrite (H x) by (left; reflexivity).
  apply IH. intros y Hy. apply H. right. exact Hy.
Qed.

(** The by-ISBN view of an ISBN without link rows is empty. *)
Lemma book_view_without_links s n :
  (forall ba, In ba (Db.Books_Authors s) -> ~ Db.ba_isbn13 ba == n) ->
  Db.book_view (Engine.by_book (Engine.has_isbn n)) s = [].
Proof.
  intros H. unfold Db.book_view.
  rewrite filter_nothing; [reflexivity|].
  intros [b a] Hj. unfold Engine.by_book, Engine.has_isbn. simpl.
  destruct (Qeq_bool (Db.isbn13 b) n) eqn:E; [|reflexivity].
  exfalso. apply Qeq_bool_iff in E.
  destruct (joined_has_link _ _ _ Hj) as (ba & Hba & Hi).
  apply (H ba Hba). rewrite <- Hi. exact E.
Qed.

End OrphanFacts.

(** C10: for every book whose row is in Books while no row of books_authors
    carries its ISBN, the by-ISBN read of that ISBN (a parameter the route
    accepts) is answered 404 "No book with given ISBN": the read joins Books
    with books_authors and Author, and the join has no row for the book. *)
Theorem C10_book_without_author_links_reads_as_not_found :
  forall (C : Collaborators) (request : Req.Request) (isbn : string) (n : Q)
         (b : Db.BookRow) (w : Express.World),
    Req.params_isbn request = JStr isbn ->
    BooksRouter.isbn_accepted (JStr isbn) = true ->
    pgNumeric isbn = Some n ->
    In b (Db.Books (Express.store w)) ->
    Db.isbn13 b == n ->
    (forall ba, In ba (Db.Books_Authors (Express.store w)) ->
                ~ Db.ba_isbn13 ba == n) ->
    Express.response w = None ->
    Express.faults w = [] ->
    Express.response (BooksRouter.run (BooksRouter.get_isbns request) w)
    = Some {| Express.status := 404;
              Express.body := Express.message "No book with given ISBN" |}.
Proof.
  intros C request isbn n b w P A G _ _ L N F.
  rewrite (get_isbns_response request w N) by (rewrite P; exact A).
  rewrite (round_trip_no_fault _ _ F). rewrite P.
  unfold Engine.exec, Engine.select_by_isbn.
  cbn [Db.theQuery Db.values Engine.bind_numeric fst]. rewrite G.
  rewrite (@book_view_without_links _ _ L). reflexivity.
Qed.

(** The insert whose author upsert fails answers 201 and leaves the book
    without a link; the by-ISBN read of that book is then answered 404. *)
Lemma C10_book_without_author_links_witness :
  Express.response Samples.insert_with_failed_upsert
  = Some {| Express.status := 201;
            Express.body := Express.message "Book successfully added." |}
  /\ map Db.isbn13 (Db.Books (Express.store Samples.insert_with_failed_upsert))
     = [9780000000009]
  /\ Db.Books_Authors (Express.store Samples.insert_with_failed_upsert) = []
  /\ Express.response
       (BooksRouter.run
          (BooksRouter.get_isbns (C := Reference.collaborators)
             (Samples.with_isbn "9780000000009"))
          (Express.fresh (Express.store Samples.insert_with_failed_upsert)))
     = Some {| Express.status := 404;
               Express.body := Express.message "No book with given ISBN" |}.
Proof.
  split; [vm_compute; reflexivity|].
  split; [vm_compute; reflexivity|].
  split; [vm_compute; reflexivity|].
  apply (@C10_book_without_author_links_reads_as_not_found
           Reference.collaborators
           (Samples.with_isbn "9780000000009") "9780000000009" 9780000000009
           (Samples.book 9780000000009 "A Title" 4)
           (Express.fresh (Express.store Samples.insert_with_failed_upsert)));
    try reflexivity.
  - vm_compute. left. reflexivity.
  - vm_compute. intros ba [].
Defined.

(* ===================================================================== *)
(** * Properties of the router as a whole                                 *)
(* ===================================================================== *)

(** ** Any relation between worlds that every send and every round trip
       respects is respected by every route *)

Section Steps.
Context {C : Collaborators}.
Import Express BooksRouter.
Local Open Scope handler_scope.

Variable R : World -> World -> Prop.
Variable allowed : Db.Template -> bool.

Hypothesis R_refl : forall w, R w w.
Hypothesis R_trans : forall w1 w2 w3, R w1 w2 -> R w2 w3 -> R w1 w3.
Hypothesis R_send :
  forall w code b,
    response w = None -> In code Catalog.status_codes ->
    R w (answered w {| status := code; body := b |}).
Hypothesis R_round_trip :
  forall q w, allowed (Db.theQuery q) = true -> R w (snd (Pool.round_trip q w)).

Let steps (A : Type) (m : Handler A) : Prop := forall w, R w (snd (m w)).

Lemma steps_ret A (a : A) : steps (ret a).
Proof. intros w. apply R_refl. Qed.

Lemma steps_throw A : steps (@throw A).
Proof. intros w. apply R_refl. Qed.

Lemma steps_send code b : In code Catalog.status_codes -> steps (send code b).
Proof.
  intros H w. unfold send. destruct (response w) eqn:E; simpl.
  - apply R_refl.
  - apply R_send; assumption.
Qed.

Lemma steps_bind A B (m : Handler A) (k : A -> Handler B) :
  steps m -> (forall a, steps (k a)) -> steps (bind m k).
Proof.
  intros Hm Hk w. unfold bind. specialize (Hm w).
  destruct (m w) as [[a|] w1]; simpl in *.
  - eapply R_trans; [exact Hm | apply Hk].
  - exact Hm.
Qed.

Lemma steps_for_each A (body : A -> Handler unit) l :
  (forall x, steps (body x)) -> steps (for_each body l).
Proof.
  intros Hb. induction l as [|x l IH]; simpl.
  - apply steps_ret.
  - apply steps_bind; [apply Hb | intros _; exact IH].
Qed.

Lemma steps_unhandled m : steps m -> steps (unhandled m).
Proof. intros H w. exact (H w). Qed.

Lemma steps_query_then_catch q on_result on_error :
  allowed (Db.theQuery q) = true ->
  (forall r, steps (on_result r)) -> (forall d, steps (on_error d)) ->
  steps (Pool.query_then_catch q on_result on_error).
Proof.
  intros A Hr He w. unfold Pool.query_then_catch.
  pose proof (R_round_trip q w A) as T.
  destruct (Pool.round_trip q w) as [r w1]. simpl in T.
  assert (E : forall d, R w (snd (unhandled (on_error d) w1)))
    by (intros d; eapply R_trans; [exact T | apply (He d)]).
  destruct r; try apply E;
    (match goal with
     | |- context [on_result ?r w1] =>
         pose proof (Hr r w1) as S; destruct (on_result r w1) as [[u|] w2];
         simpl in *;
         [ eapply R_trans; eassumption
         | eapply R_trans; [exact T|]; eapply R_trans; [exact S | apply (He None)] ]
     end).
Qed.

Lemma steps_await_query q :
  allowed (Db.theQuery q) = true -> steps (Pool.await_query q).
Proof.
  intros A w. unfold Pool.await_query.
  pose proof (R_round_trip q w A) as T.
  destruct (Pool.round_trip q w) as [[]] ; exact T.
Qed.

Lemma steps_property_of A (o : option A) : steps (property_of o).
Proof. destruct o; [apply steps_ret | apply steps_throw]. Qed.

Lemma steps_verifyElement isValid name : steps (verifyElement isValid name).
Proof.
  unfold verifyElement. destruct (negb isValid);
    [apply steps_send; simpl; tauto | apply steps_ret].
Qed.

Lemma steps_run chain :
  Forall (fun m : Middleware => steps m) chain -> forall w, R w (run chain w).
Proof.
  induction 1 as [|m chain Hm _ IH]; intros w; simpl; [apply R_refl|].
  specialize (Hm w). destruct (m w) as [[[]|] w1]; simpl in Hm.
  - eapply R_trans; [exact Hm | apply IH].
  - exact Hm.
  - eapply R_trans; [exact Hm|]. unfold error_handler.
    destruct (response w1) eqn:E; [apply R_refl|].
    apply R_send; [exact E | simpl; tauto].
Qed.

Ltac stepping :=
  repeat match goal with
         | |- forall _, _ => intro
         | |- steps (ret _) => apply steps_ret
         | |- steps throw => apply steps_throw
         | |- steps (property_of _) => apply steps_property_of
         | |- steps (verifyElement _ _) => apply steps_verifyElement
         | |- steps (for_each _ _) => apply steps_for_each
         | |- steps (unhandled _) => apply steps_unhandled
         | |- steps (send _ _) => apply steps_send
         | |- steps (Pool.query_then_catch _ _ _) => apply steps_query_then_catch
         | |- steps (Pool.await_query _) => apply steps_await_query
         | |- steps (bind _ _) => apply steps_bind
         | |- steps (if ?c then _ else _) => destruct c
         | |- steps (match ?x with _ => _ end) => destruct x
         | |- In _ Catalog.status_codes => simpl; tauto
         end.

(** Every endpoint whose statements are all allowed. *)
Lemma steps_booksRouter e request w :
  (forall t, (Catalog.writes e = false ->
              t = Db.SelectByIsbn \/ (exists o, t = Db.SelectByRating o)
              \/ t = Db.SelectByTitle \/ t = Db.SelectByAuthor
              \/ t = Db.SelectPage \/ t = Db.CountBooks) ->
             allowed t = true) ->
  R w (run (Catalog.booksRouter e request) w).
Proof.
  intros A. apply steps_run.
  assert (Sel : allowed Db.SelectByIsbn = true) by (apply A; auto).
  assert (Rat : forall o, allowed (Db.SelectByRating o) = true)
    by (intros o; apply A; eauto).
  assert (Tit : allowed Db.SelectByTitle = true) by (apply A; auto).
  assert (Aut : allowed Db.SelectByAuthor = true) by (apply A; auto 10).
  assert (Pag : allowed Db.SelectPage = true) by (apply A; auto 10).
  assert (Cnt : allowed Db.CountBooks = true) by (apply A; auto 10).
  destruct e; simpl;
    unfold post_books, get_isbns, delete_isbns, post_rating, put_rating,
      get_title, delete_title, get_author, delete_author,
      post_pagination_offset;
    repeat constructor;
    unfold add_book_validate, add_book, add_authors, link_author, split_authors,
      check_isbn, get_by_isbn, delete_by_isbn, one_book_or_404,
      rating_range_validate, rating_range, name_exists_or_500,
      update_ratings_validate, update_ratings, check_name, by_name,
      pagination_offset, exact_count;
    unfold name_exists_or_500, one_book_or_404, link_author;
    stepping;
    try assumption; try (simpl; apply Rat);
    try (apply A; intros W; discriminate W).
Qed.

End Steps.

(** ** The engine: reads, and the unique keys *)

Section OrderedPairs.
Variables (A : Type) (P : A -> A -> Prop).

Lemma ordered_pairs_filter (f : A -> bool) l :
  ForallOrdPairs P l -> ForallOrdPairs P (filter f l).
Proof.
  induction 1 as [|a l Ha _ IH]; simpl; [constructor|].
  destruct (f a); [|exact IH].
  constructor; [|exact IH].
  rewrite Forall_forall in *. intros x Hx. apply filter_In in Hx.
  apply Ha, Hx.
Qed.

Lemma ordered_pairs_map (f : A -> A) l :
  (forall x y, P x y -> P (f x) (f y)) ->
  ForallOrdPairs P l -> ForallOrdPairs P (map f l).
Proof.
  intros Hf. induction 1 as [|a l Ha _ IH]; simpl; constructor; [|exact IH].
  rewrite Forall_forall in *. intros y Hy. apply in_map_iff in Hy.
  destruct Hy as (x & <- & Hx). apply Hf, Ha, Hx.
Qed.

Lemma ordered_pairs_snoc l a :
  ForallOrdPairs P l -> Forall (fun x => P x a) l ->
  ForallOrdPairs P (l ++ [a]).
Proof.
  induction 1 as [|b l Hb _ IH]; simpl; intros H.
  - repeat constructor.
  - inversion H as [|? ? Hba Hl]; subst. constructor; [|apply IH, Hl].
    apply Forall_app. split; [exact Hb | repeat constructor; exact Hba].
Qed.

End OrderedPairs.

Section EngineFacts.
Context {C : Collaborators}.

Lemma no_duplicate_snoc A (l : list A) a :
  NoDup l -> ~ In a l -> NoDup (l ++ [a]).
Proof.
  induction 1 as [|b l Hb _ IH]; simpl; intros H.
  - repeat constructor. intros [].
  - constructor.
    + intros Hin. apply in_app_or in Hin. destruct Hin as [Hin|[->|[]]].
      * exact (Hb Hin).
      * apply H. left. reflexivity.
    + apply IH. intros Hin. apply H. right. exact Hin.
Qed.

Lemma max_id_bounds ids id :
  In id ids -> (id <= fold_right Z.max 0%Z ids)%Z.
Proof.
  induction ids as [|x ids IH]; simpl; intros H; [contradiction|].
  destruct H as [->|H]; [lia|]. specialize (IH H). lia.
Qed.

Lemma fresh_author_id_is_new s :
  ~ In (Engine.fresh_author_id s) (map Db.author_id (Db.Author s)).
Proof.
  unfold Engine.fresh_author_id. intros H. apply max_id_bounds in H. lia.
Qed.

(** A read leaves the store as it is. *)
Lemma select_keeps_store q s :
  Catalog.is_select (Db.theQuery q) = true -> snd (Engine.exec q s) = s.
Proof.
  unfold Engine.exec. destruct (Db.theQuery q); simpl; try discriminate;
    intros _;
    unfold Engine.select_by_isbn, Engine.select_by_rating,
      Engine.select_by_title, Engine.select_by_author, Engine.select_page,
      Engine.count_books;
    repeat match goal with
           | |- context [match ?x with _ => _ end] => destruct x
           end;
    reflexivity.
Qed.

(** The store after the book insert: the same, or one more row whose ISBN
    no row had. *)
Lemma insert_book_store vs s :
  snd (Engine.insert_book vs s) = s
  \/ exists row,
       existsb (Engine.has_isbn (Db.isbn13 row)) (Db.Books s) = false
       /\ snd (Engine.insert_book vs s)
          = {| Db.Books := Db.Books s ++ [row];
               Db.Author := Db.Author s;
               Db.Books_Authors := Db.Books_Authors s |}.
Proof.
  unfold Engine.insert_book.
  repeat (match goal with
          | |- context [match ?x with _ => _ end] =>
              lazymatch x with
              | existsb _ _ => fail
              | _ => destruct x
              end
          end; try (left; reflexivity)).
  match goal with
  | |- context [existsb ?f ?l] => destruct (existsb f l) eqn:E
  end; [left; reflexivity|].
  right. eexists. split; [|reflexivity]. exact E.
Qed.

Lemma upsert_author_store vs s :
  snd (Engine.upsert_author vs s) = s
  \/ exists name,
       ~ In name (map Db.author_name (Db.Author s))
       /\ snd (Engine.upsert_author vs s)
          = {| Db.Books := Db.Books s;
               Db.Author := Db.Author s
                            ++ [ {| Db.author_id := Engine.fresh_author_id s;
                                    Db.author_name := name |} ];
               Db.Books_Authors := Db.Books_Authors s |}.
Proof.
  unfold Engine.upsert_author.
  destruct vs as [|v [|? ?]]; try (left; reflexivity).
  destruct (Engine.bind_text v) as [|name|]; try (left; reflexivity).
  destruct (find _ (Db.Author s)) eqn:F; [left; reflexivity|].
  right. exists name. split; [|reflexivity].
  intros H. apply in_map_iff in H. destruct H as (a & Ha & Hin).
  apply (find_none _ _ F) in Hin. rewrite Ha, String.eqb_refl in Hin.
  discriminate.
Qed.

Lemma insert_link_store vs s :
  snd (Engine.insert_link vs s) = s
  \/ exists ba,
       Forall (fun x => ~ (Db.ba_isbn13 x == Db.ba_isbn13 ba
                           /\ Db.ba_author_id x = Db.ba_author_id ba))
              (Db.Books_Authors s)
       /\ snd (Engine.insert_link vs s)
          = {| Db.Books := Db.Books s;
               Db.Author := Db.Author s;
               Db.Books_Authors := Db.Books_Authors s ++ [ba] |}.
Proof.
  unfold Engine.insert_link.
  destruct vs as [|vi [|va [|? ?]]]; try (left; reflexivity).
  destruct (Engine.bind_numeric vi) as [|i|]; try (left; reflexivity).
  destruct (Engine.bind_numeric va) as [|a|]; try (left; reflexivity).
  destruct (Engine.as_integer a) as [id|]; try (left; reflexivity).
  destruct (existsb _ (Db.Books_Authors s)) eqn:E; [left; reflexivity|].
  right. eexists. split; [|reflexivity]. simpl.
  apply Forall_forall. intros x Hx [H1 H2].
  assert (existsb (fun ba => Qeq_bool (Db.ba_isbn13 ba) i
                             && Z.eqb (Db.ba_author_id ba) id)
                  (Db.Books_Authors s) = true).
  { apply existsb_exists. exists x. split; [exact Hx|].
    apply andb_true_iff. split; [apply Qeq_bool_iff, H1 | apply Z.eqb_eq, H2]. }
  congruence.
Qed.

Lemma update_ratings_store_shape vs s :
  snd (Engine.update_ratings vs s) = s
  \/ exists f : Db.BookRow -> Db.BookRow,
       (forall b, Db.isbn13 (f b) = Db.isbn13 b)
       /\ snd (Engine.update_ratings vs s)
          = {| Db.Books := map f (Db.Books s);
               Db.Author := Db.Author s;
               Db.Books_Authors := Db.Books_Authors s |}.
Proof.
  unfold Engine.update_ratings.
  repeat (match goal with
          | |- context [match ?x with _ => _ end] => destruct x
          end; try (left; reflexivity)).
  right. eexists. split; [|reflexivity].
  intros b. simpl. destruct (Engine.has_isbn _ b); reflexivity.
Qed.

Lemma delete_books_store doomed authors_of s :
  snd (Engine.delete_books doomed authors_of s) = s
  \/ exists f g,
       snd (Engine.delete_books doomed authors_of s)
       = {| Db.Books := filter f (Db.Books s);
            Db.Author := Db.Author s;
            Db.Books_Authors := filter g (Db.Books_Authors s) |}.
Proof.
  unfold Engine.delete_books.
  destruct (Engine.returning _ _); [|left; reflexivity].
  right. eexists. eexists. reflexivity.
Qed.

Lemma delete_statement_store q s :
  Db.theQuery q = Db.DeleteByIsbn \/ Db.theQuery q = Db.DeleteByTitle
  \/ Db.theQuery q = Db.DeleteByAuthor ->
  snd (Engine.exec q s) = s
  \/ exists f g,
       snd (Engine.exec q s)
       = {| Db.Books := filter f (Db.Books s);
            Db.Author := Db.Author s;
            Db.Books_Authors := filter g (Db.Books_Authors s) |}.
Proof.
  unfold Engine.exec.
  intros [-> | [-> | ->]];
    unfold Engine.delete_by_isbn, Engine.delete_by_title, Engine.delete_by_author;
    repeat (match goal with
            | |- context [match ?x with _ => _ end] => destruct x
            end; try (left; reflexivity));
    apply delete_books_store.
Qed.

(** No statement of the router breaks a unique key. *)
Lemma exec_keeps_keys q s :
  Catalog.keys_hold s -> Catalog.keys_hold (snd (Engine.exec q s)).
Proof.
  intros (KB & KI & KN & KL).
  destruct (Catalog.is_select (Db.theQuery q)) eqn:S.
  { rewrite (select_keeps_store q s S). repeat split; assumption. }
  unfold Engine.exec in *. destruct (Db.theQuery q) eqn:T; try discriminate.
  - destruct (insert_book_store (Db.values q) s) as [-> | (row & E & ->)];
      [repeat split; assumption|].
    repeat split; simpl; try assumption.
    apply ordered_pairs_snoc; [exact KB|].
    apply Forall_forall. intros x Hx Hq.
    assert (existsb (Engine.has_isbn (Db.isbn13 row)) (Db.Books s) = true).
    { apply existsb_exists. exists x. split; [exact Hx|].
      apply Qeq_bool_iff, Hq. }
    congruence.
  - destruct (upsert_author_store (Db.values q) s) as [-> | (name & N & ->)];
      [repeat split; assumption|].
    repeat split; simpl; try assumption; rewrite map_app; simpl;
      apply no_duplicate_snoc; try assumption.
    apply fresh_author_id_is_new.
  - destruct (insert_link_store (Db.values q) s) as [-> | (ba & F & ->)];
      [repeat split; assumption|].
    repeat split; simpl; try assumption.
    apply ordered_pairs_snoc; assumption.
  - pose proof (delete_statement_store q s) as D. unfold Engine.exec in D.
    rewrite T in D. destruct D as [-> | (f & g & ->)]; auto;
      repeat split; simpl; try assumption; apply ordered_pairs_filter; assumption.
  - destruct (update_ratings_store_shape (Db.values q) s) as [-> | (f & F & ->)];
      [repeat split; assumption|].
    repeat split; simpl; try assumption.
    apply ordered_pairs_map; [|exact KB].
    intros x y H. rewrite !F. exact H.
  - pose proof (delete_statement_store q s) as D. unfold Engine.exec in D.
    rewrite T in D. destruct D as [-> | (f & g & ->)]; auto;
      repeat split; simpl; try assumption; apply ordered_pairs_filter; assumption.
  - pose proof (delete_statement_store q s) as D. unfold Engine.exec in D.
    rewrite T in D. destruct D as [-> | (f & g & ->)]; auto 10;
      repeat split; simpl; try assumption; apply ordered_pairs_filter; assumption.
Qed.

End EngineFacts.

(** ** What every endpoint keeps *)

Section RouterFacts.
Context {C : Collaborators}.
Import Express BooksRouter.

Lemma round_trip_store q w :
  store (snd (Pool.round_trip q w)) = store w
  \/ store (snd (Pool.round_trip q w)) = snd (Engine.exec q (store w)).
Proof.
  unfold Pool.round_trip.
  destruct (faults w) as [|[] later]; simpl; auto;
    destruct (Engine.exec q (store w)); simpl; auto.
Qed.

Lemma reads_keep_store e request w :
  Catalog.writes e = false ->
  store (run (Catalog.booksRouter e request) w) = store w.
Proof.
  intros W.
  apply (@steps_booksRouter C (fun w w' => store w' = store w) Catalog.is_select).
  - reflexivity.
  - intros w1 w2 w3 H1 H2. congruence.
  - reflexivity.
  - intros q w0 S. destruct (round_trip_store q w0) as [E|E]; [exact E|].
    rewrite E. apply select_keeps_store, S.
  - intros t H. destruct (H W) as [->|[(o & ->)|[->|[->|[->| ->]]]]]; reflexivity.
Qed.

Lemma endpoints_keep_keys e request w :
  Catalog.keys_hold (store w) ->
  Catalog.keys_hold (store (run (Catalog.booksRouter e request) w)).
Proof.
  apply (@steps_booksRouter C
           (fun w w' => Catalog.keys_hold (store w) -> Catalog.keys_hold (store w'))
           (fun _ => true)); auto.
  intros q w0 _ K. destruct (round_trip_store q w0) as [E|E]; rewrite E;
    [exact K | apply exec_keeps_keys, K].
Qed.

Lemma endpoints_send_known_status e request w :
  response w = None ->
  forall r, response (run (Catalog.booksRouter e request) w) = Some r ->
            In (status r) Catalog.status_codes.
Proof.
  intros N r H.
  assert (S : response (run (Catalog.booksRouter e request) w) = response w
              \/ exists r', response (run (Catalog.booksRouter e request) w) = Some r'
                            /\ In (status r') Catalog.status_codes).
  { apply (@steps_booksRouter C
             (fun w w' => response w' = response w
                          \/ exists r', response w' = Some r'
                                        /\ In (status r') Catalog.status_codes)
             (fun _ => true)); auto.
    - intros w1 w2 w3 H1 [E2|(r2 & E2 & I2)].
      + destruct H1 as [E1|(r1 & E1 & I1)];
          [left; congruence | right; exists r1; split; [congruence | exact I1]].
      + right. exists r2. split; assumption.
    - intros w0 code b _ I. right. eexists. split; [reflexivity | exact I].
    - intros q w0 _. left. apply round_trip_response. }
  destruct S as [S | (r' & S & I)]; congruence.
Qed.

End RouterFacts.

(** X1: the five reading endpoints (by ISBN, by rating range, by title, by
    author, paginated scan) leave the store exactly as it was, for every
    request, whatever they answer and whatever storage failures occur. *)
Theorem X1_reading_endpoints_never_write :
  forall (C : Collaborators) (e : Catalog.Endpoint) (request : Req.Request)
         (w : Express.World),
    Catalog.writes e = false ->
    Express.store (BooksRouter.run (Catalog.booksRouter e request) w)
    = Express.store w.
Proof. intros C e request w W. exact (@reads_keep_store C e request w W). Qed.

Lemma X1_reading_endpoints_witness :
  Express.store
    (BooksRouter.run
       (Catalog.booksRouter (C := Reference.collaborators) Catalog.GET_title
          (Samples.with_name "Dune"))
       (Express.fresh Samples.library))
  = Samples.library.
Proof.
  exact (@X1_reading_endpoints_never_write Reference.collaborators
           Catalog.GET_title (Samples.with_name "Dune")
           (Express.fresh Samples.library) eq_refl).
Defined.

(** X2: every response of the router carries one of the statuses 200, 201,
    400, 404 and 500, for every endpoint and request. *)
Theorem X2_responses_carry_known_statuses :
  forall (C : Collaborators) (e : Catalog.Endpoint) (request : Req.Request)
         (w : Express.World) (r : Express.Response),
    Express.response w = None ->
    Express.response (BooksRouter.run (Catalog.booksRouter e request) w) = Some r ->
    In (Express.status r) [200; 201; 400; 404; 500]%Z.
Proof.
  intros C e request w r N H.
  exact (@endpoints_send_known_status C e request w N r H).
Qed.

Lemma X2_responses_witness :
  exists r,
    Express.response
      (BooksRouter.run
         (Catalog.booksRouter (C := Reference.collaborators) Catalog.GET_isbns
            (Samples.with_isbn "9780000000009"))
         (Express.fresh Samples.library))
    = Some r
    /\ In (Express.status r) [200; 201; 400; 404; 500]%Z.
Proof.
  exists {| Express.status := 404;
            Express.body := Express.message "No book with given ISBN" |}.
  split; [reflexivity|].
  exact (@X2_responses_carry_known_statuses Reference.collaborators
           Catalog.GET_isbns (Samples.with_isbn "9780000000009")
           (Express.fresh Samples.library)
           {| Express.status := 404;
              Express.body := Express.message "No book with given ISBN" |}
           eq_refl eq_refl).
Defined.

(** X3: the unique keys the statements rely on survive every endpoint: if no
    two books share an ISBN, no two authors share an id or a name, and no
    link is held twice, the same is true after any request, succeeded or
    failed. *)
Theorem X3_endpoints_keep_unique_keys :
  forall (C : Collaborators) (e : Catalog.Endpoint) (request : Req.Request)
         (w : Express.World),
    Catalog.keys_hold (Express.store w) ->
    Catalog.keys_hold
      (Express.store (BooksRouter.run (Catalog.booksRouter e request) w)).
Proof. intros C e request w K. exact (@endpoints_keep_keys C e request w K). Qed.

Lemma library_keys_hold : Catalog.keys_hold Samples.library.
Proof.
  unfold Catalog.keys_hold, Catalog.distinct_isbns, Catalog.distinct_links.
  repeat split.
  - repeat constructor; unfold Qeq; simpl; lia.
  - repeat constructor; simpl; intuition discriminate.
  - repeat constructor; simpl; intuition discriminate.
  - repeat constructor; unfold Qeq; simpl; intuition (try discriminate; try lia).
Qed.

(** The insert of one more book into [Samples.library]. *)
Lemma X3_endpoints_keep_unique_keys_witness :
  Catalog.keys_hold
    (Express.store
       (BooksRouter.run
          (Catalog.booksRouter (C := Reference.collaborators) Catalog.POST_books
             (Samples.with_entry (Samples.entry_with_isbn (JNum 9780000000009))))
          (Express.fresh Samples.library))).
Proof.
  exact (@X3_endpoints_keep_unique_keys Reference.collaborators
           Catalog.POST_books
           (Samples.with_entry (Samples.entry_with_isbn (JNum 9780000000009)))
           (Express.fresh Samples.library) library_keys_hold).
Defined.

(** ** POST /: conflict, success, failure *)

Section InsertRoute.
Context {C : Collaborators} {HA : HelpersAccept C}.
Import Express BooksRouter.
Local Open Scope handler_scope.

(** The insert validator sends nothing for an acceptable typed entry. *)
Lemma add_book_validate_passes b request w :
  Req.body_entry request = Some (Entry.entry b) ->
  Entry.acceptable b ->
  add_book_validate request w = (Returned Next, w).
Proof.
  intros E (Hi & Ha & Hp & Ho & Ht & (H1 & H5) & Hc & R1 & R2 & R3 & R4 & R5
            & Hl & Hs).
  unfold add_book_validate. rewrite E. unfold property_of, bind at 1, ret at 1.
  unfold Entry.entry, ratings_valid, icon_valid, Req.ratings_of. simpl.
  rewrite !number_is_provided.
  rewrite !string_is_provided by assumption.
  rewrite !(fun x H => proj2 (Qle_bool_iff 0 x) H) by assumption.
  rewrite (proj2 (Qle_bool_iff _ _) H1), (proj2 (Qle_bool_iff _ _) H5).
  reflexivity.
Qed.

Lemma exec_insert_duplicate b s :
  existsb (Engine.has_isbn (Entry.isbn13 b)) (Db.Books s) = true ->
  Engine.exec (Entry.insert_statement b) s
  = (Db.Failure (Some Engine.duplicate_key_detail), s).
Proof.
  intros H. unfold Engine.exec, Entry.insert_statement, Engine.insert_book. simpl.
  rewrite H. reflexivity.
Qed.

Lemma exec_insert_new b s :
  existsb (Engine.has_isbn (Entry.isbn13 b)) (Db.Books s) = false ->
  Engine.exec (Entry.insert_statement b) s
  = (Db.Rows [ {| Db.columns := Entry.row b; Db.authors := None |} ],
     {| Db.Books := Db.Books s ++ [Entry.row b];
        Db.Author := Db.Author s;
        Db.Books_Authors := Db.Books_Authors s |}).
Proof.
  intros H. unfold Engine.exec, Entry.insert_statement, Engine.insert_book. simpl.
  rewrite H. reflexivity.
Qed.

(** The handler, once the entry is read. *)
Lemma add_book_unfolded b request :
  Req.body_entry request = Some (Entry.entry b) ->
  add_book request
  = (Pool.query_then_catch (Entry.insert_statement b)
       (add_authors (Entry.names b))
       (fun detail =>
          if already_exists detail
          then send 400 (message "Book exists")
          else send 500 server_error) ;;
     ret Stop).
Proof.
  intros E. unfold add_book. rewrite E. reflexivity.
Qed.

Lemma round_trip_served q w :
  Catalog.served w ->
  Pool.round_trip q w
  = (fst (Engine.exec q (store w)),
     {| store := snd (Engine.exec q (store w)); faults := tl (faults w);
        response := response w; issued := issued w ++ [q] |}).
Proof.
  unfold Catalog.served, Pool.round_trip.
  destruct (faults w) as [|[] later]; simpl; try discriminate; intros _;
    destruct (Engine.exec q (store w)); reflexivity.
Qed.

Lemma round_trip_failed q w later :
  faults w = true :: later ->
  Pool.round_trip q w
  = (Db.Failure None,
     {| store := store w; faults := later; response := response w;
        issued := issued w ++ [q] |}).
Proof. unfold Pool.round_trip. intros ->. reflexivity. Qed.

Lemma query_then_catch_returns q on_result on_error w :
  fst (Pool.query_then_catch q on_result on_error w) = Returned tt.
Proof.
  unfold Pool.query_then_catch, unhandled.
  destruct (Pool.round_trip q w) as [r w1].
  destruct r; try reflexivity;
    match goal with
    | |- context [on_result ?r w1] => destruct (on_result r w1) as [[[]|] w2]
    end; reflexivity.
Qed.

Lemma for_each_returns A (body : A -> Handler unit) l w :
  (forall x w0, fst (body x w0) = Returned tt) ->
  fst (for_each body l w) = Returned tt.
Proof.
  intros H. revert w. induction l as [|x l IH]; intros w; simpl; [reflexivity|].
  unfold bind. specialize (H x w). destruct (body x w) as [[[]|] w1];
    simpl in H; [apply IH | discriminate].
Qed.

(** What the author statements may change: rows are added to [Author] and
    [Books_Authors], nothing else moves. *)
Let grows (w w' : World) : Prop :=
  response w' = response w
  /\ Db.Books (store w') = Db.Books (store w)
  /\ incl (Db.Author (store w)) (Db.Author (store w'))
  /\ incl (Db.Books_Authors (store w)) (Db.Books_Authors (store w')).

Let author_statement (t : Db.Template) : bool :=
  match t with
  | Db.UpsertAuthor | Db.InsertLink => true
  | _ => false
  end.

Lemma grows_refl w : grows w w.
Proof. unfold grows. auto using incl_refl. Qed.

Lemma grows_trans w1 w2 w3 : grows w1 w2 -> grows w2 w3 -> grows w1 w3.
Proof.
  intros (R1 & B1 & A1 & L1) (R2 & B2 & A2 & L2). unfold grows.
  repeat split; try congruence; eapply incl_tran; eassumption.
Qed.

Lemma grows_round_trip q w :
  author_statement (Db.theQuery q) = true -> grows w (snd (Pool.round_trip q w)).
Proof.
  intros A. unfold grows. rewrite round_trip_response.
  split; [reflexivity|].
  destruct (round_trip_store q w) as [E|E]; rewrite E;
    [auto using incl_refl|].
  unfold Engine.exec. destruct (Db.theQuery q); try discriminate.
  - destruct (upsert_author_store (Db.values q) (store w)) as [-> | (n & _ & ->)];
      simpl; auto using incl_refl, incl_appl.
  - destruct (insert_link_store (Db.values q) (store w)) as [-> | (ba & _ & ->)];
      simpl; auto using incl_refl, incl_appl.
Qed.

(** The loop over the authors, whatever storage does. *)
Lemma author_loop names isbn w :
  fst (for_each (fun author =>
                   Pool.query_then_catch
                     {| Db.theQuery := Db.UpsertAuthor;
                        Db.values := [JStr author] |}
                     (link_author isbn)
                     (fun _ => ret tt))
                names w) = Returned tt
  /\ grows w (snd (for_each (fun author =>
                               Pool.query_then_catch
                                 {| Db.theQuery := Db.UpsertAuthor;
                                    Db.values := [JStr author] |}
                                 (link_author isbn)
                                 (fun _ => ret tt))
                            names w)).
Proof.
  split.
  - apply for_each_returns. intros. apply query_then_catch_returns.
  - apply (@steps_for_each grows grows_refl grows_trans).
    intros author w0.
    apply (@steps_query_then_catch C grows author_statement grows_trans
             grows_round_trip); [reflexivity | | intros; apply grows_refl].
    intros r w1. unfold link_author.
    destruct r as [|[|id ids]| |]; try apply grows_refl.
    apply (@steps_query_then_catch C grows author_statement grows_trans
             grows_round_trip); [reflexivity | |]; intros; apply grows_refl.
Qed.

(** The whole route on an acceptable entry, by the fate of the INSERT. *)
Lemma post_books_duplicate b request w :
  Req.body_entry request = Some (Entry.entry b) ->
  Entry.acceptable b ->
  response w = None -> Catalog.served w ->
  existsb (Engine.has_isbn (Entry.isbn13 b)) (Db.Books (store w)) = true ->
  run (post_books request) w
  = {| store := store w; faults := tl (faults w);
       response := Some {| status := 400; body := message "Book exists" |};
       issued := issued w ++ [Entry.insert_statement b] |}.
Proof.
  intros E A N S D. unfold post_books, run.
  rewrite (@add_book_validate_passes b request w E A).
  rewrite (@add_book_unfolded b request E).
  unfold bind, Pool.query_then_catch.
  rewrite (@round_trip_served _ _ S), (@exec_insert_duplicate b _ D).
  cbn. unfold send. cbn. rewrite N. reflexivity.
Qed.

Lemma post_books_failed b request w later :
  Req.body_entry request = Some (Entry.entry b) ->
  Entry.acceptable b ->
  response w = None -> faults w = true :: later ->
  run (post_books request) w
  = {| store := store w; faults := later;
       response := Some {| status := 500; body := server_error |};
       issued := issued w ++ [Entry.insert_statement b] |}.
Proof.
  intros E A N F. unfold post_books, run.
  rewrite (@add_book_validate_passes b request w E A).
  rewrite (@add_book_unfolded b request E).
  unfold bind, Pool.query_then_catch.
  rewrite (@round_trip_failed _ _ _ F).
  cbn. unfold send. cbn. rewrite N. reflexivity.
Qed.

Lemma post_books_stored b request w :
  Req.body_entry request = Some (Entry.entry b) ->
  Entry.acceptable b ->
  response w = None -> Catalog.served w ->
  existsb (Engine.has_isbn (Entry.isbn13 b)) (Db.Books (store w)) = false ->
  let w' := run (post_books request) w in
  response w' = Some {| status := 201;
                        body := message "Book successfully added." |}
  /\ Db.Books (store w') = Db.Books (store w) ++ [Entry.row b]
  /\ incl (Db.Author (store w)) (Db.Author (store w'))
  /\ incl (Db.Books_Authors (store w)) (Db.Books_Authors (store w')).
Proof.
  intros E A N S D. cbv zeta.
  remember (run (post_books request) w) as w' eqn:Hw.
  unfold post_books, run in Hw.
  rewrite (@add_book_validate_passes b request w E A) in Hw.
  rewrite (@add_book_unfolded b request E) in Hw.
  unfold bind at 1, Pool.query_then_catch in Hw.
  rewrite (@round_trip_served _ _ S), (@exec_insert_new b _ D) in Hw.
  cbn [fst snd] in Hw. unfold add_authors, rows_of in Hw. cbn [Db.columns] in Hw.
  unfold bind at 1 in Hw.
  match type of Hw with
  | context [for_each ?body ?l ?w1] =>
      destruct (author_loop l (JNum (Db.isbn13 (Entry.row b))) w1) as [Ret G];
      destruct (for_each body l w1) as [o w2]
  end.
  simpl in Ret, G. subst o. destruct G as (R2 & B2 & A2 & L2). simpl in *.
  unfold send in Hw. rewrite R2, N in Hw. cbn in Hw. subst w'. cbn.
  repeat split; assumption.
Qed.

End InsertRoute.

Lemma sample_acceptable isbn : 0 <= isbn -> Entry.acceptable (Entry.sample isbn).
Proof.
  intros H. unfold Entry.acceptable, Entry.sample; simpl.
  repeat split; try assumption; discriminate.
Qed.

(** X4: inserting an acceptable entry whose ISBN some book already has is
    answered 400 "Book exists"; the store is unchanged and the INSERT is the
    only statement issued (no author is upserted, no link is made). *)
Theorem X4_insert_of_existing_isbn_is_rejected :
  forall (C : Collaborators) (HA : HelpersAccept C) (b : Entry.Typed)
         (request : Req.Request) (w : Express.World),
    Req.body_entry request = Some (Entry.entry b) ->
    Entry.acceptable b ->
    Express.response w = None ->
    Catalog.served w ->
    existsb (Engine.has_isbn (Entry.isbn13 b)) (Db.Books (Express.store w)) = true ->
    let w' := BooksRouter.run (BooksRouter.post_books request) w in
    Express.response w'
    = Some {| Express.status := 400;
              Express.body := Express.message "Book exists" |}
    /\ Express.store w' = Express.store w
    /\ Express.issued w' = Express.issued w ++ [Entry.insert_statement b].
Proof.
  intros C HA b request w E A N S D w'. unfold w'.
  rewrite (@post_books_duplicate C HA b request w E A N S D).
  repeat split.
Qed.

(** A second insert of the first book of [Samples.library]. *)
Lemma X4_insert_of_existing_isbn_witness :
  let w' := BooksRouter.run
              (BooksRouter.post_books (C := Reference.collaborators)
                 (Samples.with_entry (Entry.entry (Entry.sample 9780000000001))))
              (Express.fresh Samples.library) in
  Express.response w'
  = Some {| Express.status := 400;
            Express.body := Express.message "Book exists" |}
  /\ Express.store w' = Samples.library
  /\ Express.issued w' = [Entry.insert_statement (Entry.sample 9780000000001)].
Proof.
  apply (@X4_insert_of_existing_isbn_is_rejected Reference.collaborators
           reference_helpers_accept (Entry.sample 9780000000001)
           (Samples.with_entry (Entry.entry (Entry.sample 9780000000001)))
           (Express.fresh Samples.library) eq_refl);
    try reflexivity.
  apply sample_acceptable. discriminate.
Defined.

(** X5: inserting an acceptable entry whose ISBN no book has is answered 201
    and appends the row with exactly the entry's values, as soon as the
    INSERT itself succeeds: whatever failures the author and link statements
    meet afterwards, the answer is the same, no other book row changes, and
    no author or link row is lost. *)
Theorem X5_insert_stores_the_entry_whatever_the_author_statements_do :
  forall (C : Collaborators) (HA : HelpersAccept C) (b : Entry.Typed)
         (request : Req.Request) (w : Express.World),
    Req.body_entry request = Some (Entry.entry b) ->
    Entry.acceptable b ->
    Express.response w = None ->
    Catalog.served w ->
    existsb (Engine.has_isbn (Entry.isbn13 b)) (Db.Books (Express.store w)) = false ->
    let w' := BooksRouter.run (BooksRouter.post_books request) w in
    Express.response w'
    = Some {| Express.status := 201;
              Express.body := Express.message "Book successfully added." |}
    /\ Db.Books (Express.store w') = Db.Books (Express.store w) ++ [Entry.row b]
    /\ incl (Db.Author (Express.store w)) (Db.Author (Express.store w'))
    /\ incl (Db.Books_Authors (Express.store w))
            (Db.Books_Authors (Express.store w')).
Proof.
  intros C HA b request w E A N S D.
  exact (@post_books_stored C HA b request w E A N S D).
Qed.

(** An insert into [Samples.library] whose author upsert and link insert
    both fail. *)
Lemma X5_insert_stores_the_entry_witness :
  let w' := BooksRouter.run
              (BooksRouter.post_books (C := Reference.collaborators)
                 (Samples.with_entry (Entry.entry (Entry.sample 9780000000009))))
              {| Express.store := Samples.library;
                 Express.faults := [false; true; true];
                 Express.response := None; Express.issued := [] |} in
  Express.response w'
  = Some {| Express.status := 201;
            Express.body := Express.message "Book successfully added." |}
  /\ Db.Books (Express.store w')
     = Db.Books Samples.library ++ [Entry.row (Entry.sample 9780000000009)].
Proof.
  destruct (@X5_insert_stores_the_entry_whatever_the_author_statements_do
              Reference.collaborators reference_helpers_accept
              (Entry.sample 9780000000009)
              (Samples.with_entry (Entry.entry (Entry.sample 9780000000009)))
              {| Express.store := Samples.library;
                 Express.faults := [false; true; true];
                 Express.response := None; Express.issued := [] |}
              eq_refl (@sample_acceptable 9780000000009 ltac:(discriminate))
              eq_refl eq_refl eq_refl) as (R & B & _).
  split; assumption.
Defined.

(** X6: when the INSERT round trip of an acceptable entry fails for another
    reason than a duplicate key, the answer is 500 "server error - contact
    support", nothing is stored, and no author statement is issued. *)
Theorem X6_failed_insert_is_a_server_error :
  forall (C : Collaborators) (HA : HelpersAccept C) (b : Entry.Typed)
         (request : Req.Request) (w : Express.World) (later : list bool),
    Req.body_entry request = Some (Entry.entry b) ->
    Entry.acceptable b ->
    Express.response w = None ->
    Express.faults w = true :: later ->
    let w' := BooksRouter.run (BooksRouter.post_books request) w in
    Express.response w'
    = Some {| Express.status := 500;
              Express.body := BooksRouter.server_error |}
    /\ Express.store w' = Express.store w
    /\ Express.issued w' = Express.issued w ++ [Entry.insert_statement b].
Proof.
  intros C HA b request w later E A N F w'. unfold w'.
  rewrite (@post_books_failed C HA b request w later E A N F).
  repeat split.
Qed.

Lemma X6_failed_insert_witness :
  let w' := BooksRouter.run
              (BooksRouter.post_books (C := Reference.collaborators)
                 (Samples.with_entry (Entry.entry (Entry.sample 9780000000009))))
              {| Express.store := Samples.library; Express.faults := [true];
                 Express.response := None; Express.issued := [] |} in
  Express.response w'
  = Some {| Express.status := 500;
            Express.body := BooksRouter.server_error |}
  /\ Express.store w' = Samples.library
  /\ Express.issued w' = [Entry.insert_statement (Entry.sample 9780000000009)].
Proof.
  apply (@X6_failed_insert_is_a_server_error Reference.collaborators
           reference_helpers_accept (Entry.sample 9780000000009)
           (Samples.with_entry (Entry.entry (Entry.sample 9780000000009)))
           {| Express.store := Samples.library; Express.faults := [true];
              Express.response := None; Express.issued := [] |} []
           eq_refl (@sample_acceptable 9780000000009 ltac:(discriminate))
           eq_refl eq_refl).
Defined.

(** ** The view of one book *)

Unset Implicit Arguments.

Section OneBookView.
Context {C : Collaborators}.

Lemma fold_single_key K V (eqb : K -> K -> bool) k (rows : list (K * V)) vs :
  eqb k k = true ->
  (forall r, In r rows -> fst r = k) ->
  fold_left (fun gs kv => Db.add_to_group eqb (fst kv) (snd kv) gs) rows [(k, vs)]
  = [(k, vs ++ map snd rows)].
Proof.
  intros Hk. revert vs. induction rows as [|[k' v] rows IH]; intros vs H; simpl.
  - rewrite app_nil_r. reflexivity.
  - assert (k' = k) by (apply (H (k', v)); left; reflexivity). subst k'.
    rewrite Hk. rewrite IH by (intros r Hr; apply H; right; exact Hr).
    rewrite <- app_assoc. reflexivity.
Qed.

(** Rows of one key make one group. *)
Lemma group_by_single_key K V (eqb : K -> K -> bool) k (rows : list (K * V)) :
  eqb k k = true ->
  (forall r, In r rows -> fst r = k) ->
  rows <> [] ->
  Db.group_by eqb rows = [(k, map snd rows)].
Proof.
  intros Hk H Hne. destruct rows as [|[k' v] rows]; [congruence|].
  assert (k' = k) by (apply (H (k', v)); left; reflexivity). subst k'.
  unfold Db.group_by. simpl.
  apply (fold_single_key K V eqb k rows [v] Hk).
  intros r Hr. apply H. right. exact Hr.
Qed.

Lemma book_eqb_refl b : Db.book_eqb b b = true.
Proof.
  unfold Db.book_eqb. rewrite !Qeq_bool_refl, !String.eqb_refl. reflexivity.
Qed.

Lemma joined_book s b a : In (b, a) (Db.joined s) -> In b (Db.Books s).
Proof.
  unfold Db.joined. intros H.
  apply in_flat_map in H. destruct H as (b0 & Hb & H).
  apply in_flat_map in H. destruct H as (ba & _ & H).
  destruct (Qeq_bool _ _); [|contradiction].
  apply in_map_iff in H. destruct H as (a0 & Heq & _).
  injection Heq as <- _. exact Hb.
Qed.

(** When one book only satisfies [p], the view under [p] is empty or is the
    one row of that book with its names in alphabetical order. *)
Lemma book_view_of_one_book p s b :
  filter p (Db.Books s) = [b] ->
  Db.book_view (Engine.by_book p) s
  = match Catalog.joined_names p s with
    | [] => []
    | names => [ {| Db.columns := b;
                    Db.authors := Some (Db.string_agg_ordered names) |} ]
    end.
Proof.
  intros U. unfold Db.book_view, Catalog.joined_names.
  set (rows := filter (Engine.by_book p) (Db.joined s)).
  assert (K : forall j, In j rows -> fst j = b).
  { intros [b' a] Hj. apply filter_In in Hj. destruct Hj as [Hj Hp].
    apply joined_book in Hj. unfold Engine.by_book in Hp. simpl in *.
    assert (Hin : In b' (filter p (Db.Books s))) by (apply filter_In; auto).
    rewrite U in Hin. destruct Hin as [<-|[]]. reflexivity. }
  destruct rows as [|j rows'] eqn:E; [reflexivity|].
  rewrite <- E in *.
  rewrite (@group_by_single_key _ _ Db.book_eqb b
             (map (fun j => (fst j, Db.author_name (snd j))) rows)
             (book_eqb_refl b)).
  - rewrite map_map. simpl. rewrite E. reflexivity.
  - intros r Hr. apply in_map_iff in Hr. destruct Hr as (j0 & <- & Hj0).
    simpl. apply K, Hj0.
  - rewrite E. discriminate.
Qed.

End OneBookView.

(** ** DELETE /isbns/:isbn *)

Section DeleteByIsbn.
Context {C : Collaborators}.
Import Express BooksRouter.

Lemma authors_column_is_scalar p s b :
  filter p (Db.Books s) = [b] ->
  Engine.scalar_subquery (map Db.authors (Db.book_view (Engine.by_book p) s))
  = Some (Catalog.authors_column p s).
Proof.
  intros U. rewrite (book_view_of_one_book p s b U).
  unfold Catalog.authors_column.
  destruct (Catalog.joined_names p s); reflexivity.
Qed.

Lemma exec_delete_by_isbn v n b s :
  Engine.bind_numeric v = Engine.Bound n ->
  filter (Engine.has_isbn n) (Db.Books s) = [b] ->
  Engine.exec {| Db.theQuery := Db.DeleteByIsbn; Db.values := [v] |} s
  = (Db.Rows [ {| Db.columns := b;
                  Db.authors := Catalog.authors_column (Engine.has_isbn n) s |} ],
     Catalog.without (Engine.has_isbn n) s).
Proof.
  intros B U. unfold Engine.exec, Engine.delete_by_isbn. cbn [Db.theQuery Db.values].
  rewrite B. unfold Engine.delete_books. rewrite U. cbn [Engine.returning].
  rewrite (authors_column_is_scalar _ s b U). reflexivity.
Qed.

Lemma exec_delete_by_isbn_absent v n s :
  Engine.bind_numeric v = Engine.Bound n ->
  filter (Engine.has_isbn n) (Db.Books s) = [] ->
  Engine.exec {| Db.theQuery := Db.DeleteByIsbn; Db.values := [v] |} s
  = (Db.Rows [], Catalog.without (Engine.has_isbn n) s).
Proof.
  intros B U. unfold Engine.exec, Engine.delete_by_isbn. cbn [Db.theQuery Db.values].
  rewrite B. unfold Engine.delete_books. rewrite U. reflexivity.
Qed.

Lemma filter_all A (f : A -> bool) l :
  (forall x, In x l -> f x = true) -> filter f l = l.
Proof.
  induction l as [|x l IH]; simpl; intros H; [reflexivity|].
  rewrite (H x) by (left; reflexivity). f_equal.
  apply IH. intros y Hy. apply H. right. exact Hy.
Qed.

(** Deleting no book changes nothing. *)
Lemma without_nothing doomed s :
  filter doomed (Db.Books s) = [] -> Catalog.without doomed s = s.
Proof.
  intros U. unfold Catalog.without.
  assert (D : forall b, In b (Db.Books s) -> doomed b = false).
  { intros b Hb. destruct (doomed b) eqn:E; [|reflexivity].
    assert (In b (filter doomed (Db.Books s))) by (apply filter_In; auto).
    rewrite U in H. contradiction. }
  rewrite filter_all by (intros b Hb; rewrite (D b Hb); reflexivity).
  rewrite filter_all.
  - destruct s; reflexivity.
  - intros ba _. apply negb_true_iff.
    apply not_true_iff_false. intros H. apply existsb_exists in H.
    destruct H as (b & Hb & H). rewrite (D b Hb) in H. discriminate.
Qed.

(** After the delete no book and no link carries the ISBN. *)
Lemma without_isbn_books n s :
  filter (Engine.has_isbn n) (Db.Books (Catalog.without (Engine.has_isbn n) s)) = [].
Proof.
  simpl. apply filter_nothing. intros b Hb. apply filter_In in Hb.
  destruct Hb as [_ Hb]. apply negb_true_iff in Hb. exact Hb.
Qed.

Lemma without_isbn_links n s b :
  In b (Db.Books s) -> Engine.has_isbn n b = true ->
  forall ba, In ba (Db.Books_Authors (Catalog.without (Engine.has_isbn n) s)) ->
             ~ Db.ba_isbn13 ba == n.
Proof.
  intros Hb Hn ba Hba Heq. simpl in Hba. apply filter_In in Hba.
  destruct Hba as [_ Hba]. apply negb_true_iff in Hba.
  assert (X : existsb (fun b0 => Engine.has_isbn n b0
                                 && Qeq_bool (Db.isbn13 b0) (Db.ba_isbn13 ba))
                      (Db.Books s) = true).
  { apply existsb_exists. exists b. split; [exact Hb|].
    rewrite Hn. simpl. apply Qeq_bool_iff.
    unfold Engine.has_isbn in Hn. apply Qeq_bool_iff in Hn.
    rewrite Hn, Heq. reflexivity. }
  congruence.
Qed.

(** The world after DELETE /isbns/:isbn on an accepted parameter that the
    engine reads as [n], by the rows of that ISBN. *)
Lemma delete_isbns_run request n w rows :
  isbn_accepted (Req.params_isbn request) = true ->
  Engine.bind_numeric (Req.params_isbn request) = Engine.Bound n ->
  response w = None -> Catalog.served w ->
  fst (Engine.exec {| Db.theQuery := Db.DeleteByIsbn;
                      Db.values := [Req.params_isbn request] |} (store w))
  = Db.Rows rows ->
  run (delete_isbns request) w
  = {| store := snd (Engine.exec {| Db.theQuery := Db.DeleteByIsbn;
                                    Db.values := [Req.params_isbn request] |}
                                 (store w));
       faults := tl (faults w);
       response :=
         Some (match rows with
               | [row] => {| status := 200; body := result (toBook row) |}
               | _ => {| status := 404;
                         body := message "No book with given ISBN" |}
               end);
       issued := issued w ++ [ {| Db.theQuery := Db.DeleteByIsbn;
                                  Db.values := [Req.params_isbn request] |} ] |}.
Proof.
  intros A B N S E. unfold delete_isbns, run.
  rewrite (check_isbn_accepted request w A).
  unfold delete_by_isbn, bind, Pool.query_then_catch.
  rewrite (@round_trip_served C _ w S). rewrite E.
  unfold one_book_or_404, rows_of.
  destruct rows as [|row [|row' rows']]; unfold send; cbn; rewrite N; reflexivity.
Qed.

(** A read by ISBN of a store where no link carries the ISBN. *)
Lemma get_isbns_without_links request n w :
  isbn_accepted (Req.params_isbn request) = true ->
  Engine.bind_numeric (Req.params_isbn request) = Engine.Bound n ->
  response w = None -> Catalog.served w ->
  (forall ba, In ba (Db.Books_Authors (store w)) -> ~ Db.ba_isbn13 ba == n) ->
  response (run (get_isbns request) w)
  = Some {| status := 404; body := message "No book with given ISBN" |}.
Proof.
  intros A B N S L.
  rewrite (get_isbns_response request w N A).
  rewrite (@round_trip_served C _ w S).
  unfold Engine.exec, Engine.select_by_isbn. cbn [Db.theQuery Db.values fst].
  rewrite B. rewrite (@book_view_without_links (store w) n L). reflexivity.
Qed.

End DeleteByIsbn.

(** X8: DELETE /isbns/:isbn of an accepted ISBN that no book carries is
    answered 404 "No book with given ISBN" and leaves the store unchanged. *)
Theorem X8_delete_by_isbn_of_no_book_is_not_found :
  forall (C : Collaborators) (request : Req.Request) (n : Q) (w : Express.World),
    BooksRouter.isbn_accepted (Req.params_isbn request) = true ->
    Engine.bind_numeric (Req.params_isbn request) = Engine.Bound n ->
    Express.response w = None ->
    Catalog.served w ->
    filter (Engine.has_isbn n) (Db.Books (Express.store w)) = [] ->
    let w' := BooksRouter.run (BooksRouter.delete_isbns request) w in
    Express.response w'
    = Some {| Express.status := 404;
              Express.body := Express.message "No book with given ISBN" |}
    /\ Express.store w' = Express.store w.
Proof.
  intros C request n w A B N S U w'.
  pose proof (exec_delete_by_isbn_absent (Req.params_isbn request) n
                (Express.store w) B U) as E.
  pose proof (delete_isbns_run request n w _ A B N S (f_equal fst E)) as R.
  fold w' in R. rewrite E in R. cbn [snd] in R. rewrite R. cbn.
  split; [reflexivity | apply without_nothing, U].
Qed.

Lemma X8_delete_by_isbn_of_no_book_witness :
  let w' := BooksRouter.run
              (BooksRouter.delete_isbns (C := Reference.collaborators)
                 (Samples.with_isbn "9780000000009"))
              (Express.fresh Samples.library) in
  Express.response w'
  = Some {| Express.status := 404;
            Express.body := Express.message "No book with given ISBN" |}
  /\ Express.store w' = Samples.library.
Proof.
  exact (X8_delete_by_isbn_of_no_book_is_not_found
           Reference.collaborators (Samples.with_isbn "9780000000009")
           9780000000009 (Express.fresh Samples.library)
           eq_refl eq_refl eq_refl eq_refl eq_refl).
Defined.

(** ** PUT /rating/:isbn: the answers *)

Section RatingUpdateAnswers.
Context {C : Collaborators} {HA : HelpersAccept C}.
Import Express BooksRouter.

Lemma exec_update_ratings avg c r1 r2 r3 r4 r5 v n s :
  Engine.bind_numeric v = Engine.Bound n ->
  Engine.exec {| Db.theQuery := Db.UpdateRatings;
                 Db.values := toCheck (Req.ratings_of avg c r1 r2 r3 r4 r5) ++ [v] |} s
  = (Db.Rows (map (fun b => Engine.returning_star
                              (Engine.set_ratings avg c r1 r2 r3 r4 r5 b))
                  (filter (Engine.has_isbn n) (Db.Books s))),
     {| Db.Books := map (fun b => if Engine.has_isbn n b
                                  then Engine.set_ratings avg c r1 r2 r3 r4 r5 b
                                  else b) (Db.Books s);
        Db.Author := Db.Author s;
        Db.Books_Authors := Db.Books_Authors s |}).
Proof.
  intros B. unfold Engine.exec, Engine.update_ratings. simpl. rewrite B.
  reflexivity.
Qed.

(** The world after the route, for a valid aggregate and an accepted ISBN. *)
Lemma put_rating_run request avg c r1 r2 r3 r4 r5 n w :
  Req.body_ratings request = Some (Req.ratings_of avg c r1 r2 r3 r4 r5) ->
  1 <= avg <= 5 ->
  0 <= c -> 0 <= r1 -> 0 <= r2 -> 0 <= r3 -> 0 <= r4 -> 0 <= r5 ->
  isbn_accepted (Req.params_isbn request) = true ->
  Engine.bind_numeric (Req.params_isbn request) = Engine.Bound n ->
  response w = None -> Catalog.served w ->
  let upd := Engine.set_ratings avg c r1 r2 r3 r4 r5 in
  let q := {| Db.theQuery := Db.UpdateRatings;
              Db.values := toCheck (Req.ratings_of avg c r1 r2 r3 r4 r5)
                           ++ [Req.params_isbn request] |} in
  run (put_rating request) w
  = {| store := {| Db.Books := map (fun b => if Engine.has_isbn n b
                                             then upd b else b)
                                   (Db.Books (store w));
                   Db.Author := Db.Author (store w);
                   Db.Books_Authors := Db.Books_Authors (store w) |};
       faults := tl (faults w);
       response :=
         Some (match filter (Engine.has_isbn n) (Db.Books (store w)) with
               | [b] => {| status := 201;
                           body := result (toBook (Engine.returning_star (upd b))) |}
               | _ => {| status := 404;
                         body := message "No book with given ISBN" |}
               end);
       issued := issued w ++ [q] |}.
Proof.
  intros B A Hc H1 H2 H3 H4 H5 Acc I N S upd q.
  unfold put_rating, run.
  rewrite (check_isbn_accepted request w Acc).
  rewrite (@update_ratings_validate_passes C request _ w B
             (@valid_aggregate_passes C HA avg c r1 r2 r3 r4 r5
                A Hc H1 H2 H3 H4 H5)).
  unfold update_ratings. rewrite B.
  unfold property_of, bind, ret, Pool.query_then_catch.
  rewrite (@round_trip_served C _ w S).
  fold q. unfold q at 1 2.
  rewrite (exec_update_ratings avg c r1 r2 r3 r4 r5 _ n (store w) I).
  cbn [fst snd]. unfold rows_of.
  destruct (filter (Engine.has_isbn n) (Db.Books (store w))) as [|b [|b' bs]];
    unfold send; cbn; rewrite ?N, ?I; cbn; rewrite ?N, ?I; reflexivity.
Qed.

End RatingUpdateAnswers.

(** X9: a rating update with a valid aggregate for an accepted ISBN that
    exactly one book carries is answered 201 with that book: its seven
    ratings are the supplied values, its other columns are unchanged, and it
    has no authors field (the statement returns the columns of Books only). *)
Theorem X9_rating_update_answers_with_the_updated_book :
  forall (C : Collaborators) (HA : HelpersAccept C) (request : Req.Request)
         (avg c r1 r2 r3 r4 r5 n : Q) (b : Db.BookRow) (w : Express.World),
    Req.body_ratings request = Some (Req.ratings_of avg c r1 r2 r3 r4 r5) ->
    1 <= avg <= 5 ->
    0 <= c -> 0 <= r1 -> 0 <= r2 -> 0 <= r3 -> 0 <= r4 -> 0 <= r5 ->
    BooksRouter.isbn_accepted (Req.params_isbn request) = true ->
    Engine.bind_numeric (Req.params_isbn request) = Engine.Bound n ->
    Express.response w = None ->
    Catalog.served w ->
    filter (Engine.has_isbn n) (Db.Books (Express.store w)) = [b] ->
    Express.response (BooksRouter.run (BooksRouter.put_rating request) w)
    = Some {| Express.status := 201;
              Express.body := Express.result
                {| isbn13 := Db.isbn13 b;
                   authors := None;
                   publication := Db.publication_year b;
                   original_title := Db.original_title b;
                   title := Db.title b;
                   ratings := {| average := avg; count := c;
                                 rating_1 := r1; rating_2 := r2; rating_3 := r3;
                                 rating_4 := r4; rating_5 := r5 |};
                   icons := {| large := Db.image_url b;
                               small := Db.image_small_url b |} |} |}.
Proof.
  intros C HA request avg c r1 r2 r3 r4 r5 n b w B A Hc H1 H2 H3 H4 H5 Acc I N S U.
  rewrite (@put_rating_run C HA request avg c r1 r2 r3 r4 r5 n w
             B A Hc H1 H2 H3 H4 H5 Acc I N S).
  cbn [Express.response]. rewrite U. reflexivity.
Qed.

Lemma X9_rating_update_witness :
  Express.response
    (BooksRouter.run
       (BooksRouter.put_rating (C := Reference.collaborators)
          (Samples.with_ratings "9780000000003"
             (Req.ratings_of 5 100 0 0 0 0 100)))
       (Express.fresh Samples.library))
  = Some {| Express.status := 201;
            Express.body := Express.result
              {| isbn13 := 9780000000003;
                 authors := None;
                 publication := 1999;
                 original_title := "Emma";
                 title := "Emma";
                 ratings := {| average := 5; count := 100;
                               rating_1 := 0; rating_2 := 0; rating_3 := 0;
                               rating_4 := 0; rating_5 := 100 |};
                 icons := {| large := "http://img/l.png";
                             small := "http://img/s.png" |} |} |}.
Proof.
  apply (X9_rating_update_answers_with_the_updated_book
           Reference.collaborators reference_helpers_accept
           (Samples.with_ratings "9780000000003"
              (Req.ratings_of 5 100 0 0 0 0 100))
           5 100 0 0 0 0 100 9780000000003
           (Samples.book 9780000000003 "Emma" 5)
           (Express.fresh Samples.library) eq_refl);
    try reflexivity; try (split; discriminate); discriminate.
Defined.

(** X10: a rating update with a valid aggregate for an accepted ISBN that no
    book carries is answered 404 "No book with given ISBN" and leaves every
    book row as it was. *)
Theorem X10_rating_update_of_no_book_is_not_found :
  forall (C : Collaborators) (HA : HelpersAccept C) (request : Req.Request)
         (avg c r1 r2 r3 r4 r5 n : Q) (w : Express.World),
    Req.body_ratings request = Some (Req.ratings_of avg c r1 r2 r3 r4 r5) ->
    1 <= avg <= 5 ->
    0 <= c -> 0 <= r1 -> 0 <= r2 -> 0 <= r3 -> 0 <= r4 -> 0 <= r5 ->
    BooksRouter.isbn_accepted (Req.params_isbn request) = true ->
    Engine.bind_numeric (Req.params_isbn request) = Engine.Bound n ->
    Express.response w = None ->
    Catalog.served w ->
    filter (Engine.has_isbn n) (Db.Books (Express.store w)) = [] ->
    let w' := BooksRouter.run (BooksRouter.put_rating request) w in
    Express.response w'
    = Some {| Express.status := 404;
              Express.body := Express.message "No book with given ISBN" |}
    /\ Express.store w' = Express.store w.
Proof.
  intros C HA request avg c r1 r2 r3 r4 r5 n w B A Hc H1 H2 H3 H4 H5 Acc I N S U w'.
  unfold w'.
  rewrite (@put_rating_run C HA request avg c r1 r2 r3 r4 r5 n w
             B A Hc H1 H2 H3 H4 H5 Acc I N S).
  cbn [Express.response Express.store]. rewrite U. split; [reflexivity|].
  assert (M : map (fun b => if Engine.has_isbn n b
                            then Engine.set_ratings avg c r1 r2 r3 r4 r5 b else b)
                  (Db.Books (Express.store w)) = Db.Books (Express.store w)).
  { rewrite <- (map_id (Db.Books (Express.store w))) at 2.
    apply map_ext_in. intros b Hb.
    destruct (Engine.has_isbn n b) eqn:E; [|reflexivity].
    assert (In b (filter (Engine.has_isbn n) (Db.Books (Express.store w))))
      by (apply filter_In; auto).
    rewrite U in H. contradiction. }
  rewrite M. destruct (Express.store w); reflexivity.
Qed.

Lemma X10_rating_update_of_no_book_witness :
  let w' := BooksRouter.run
              (BooksRouter.put_rating (C := Reference.collaborators)
                 (Samples.with_ratings "9780000000009"
                    (Req.ratings_of 5 100 0 0 0 0 100)))
              (Express.fresh Samples.library) in
  Express.response w'
  = Some {| Express.status := 404;
            Express.body := Express.message "No book with given ISBN" |}
  /\ Express.store w' = Samples.library.
Proof.
  apply (X10_rating_update_of_no_book_is_not_found
           Reference.collaborators reference_helpers_accept
           (Samples.with_ratings "9780000000009"
              (Req.ratings_of 5 100 0 0 0 0 100))
           5 100 0 0 0 0 100 9780000000009
           (Express.fresh Samples.library) eq_refl);
    try reflexivity; try (split; discriminate); discriminate.
Defined.

(** ** The routes by title and by author *)

Section ByName.
Context {C : Collaborators}.
Import Express BooksRouter.

Lemma check_name_passes request w :
  isStringProvided (Req.params_name request) = true ->
  check_name request w = (Returned Next, w).
Proof. unfold check_name. intros ->. reflexivity. Qed.

Lemma check_name_stops request w rest :
  isStringProvided (Req.params_name request) = false ->
  response w = None ->
  run (check_name request :: rest) w
  = answered w {| status := 400; body := message "No query parameter in url" |}.
Proof.
  intros P N. unfold check_name. rewrite P. simpl.
  unfold bind, send, ret. rewrite N. reflexivity.
Qed.

(** The world after a by-name route whose statement gave [rows]. *)
Lemma by_name_run t not_found request w rows s' :
  isStringProvided (Req.params_name request) = true ->
  response w = None -> Catalog.served w ->
  Engine.exec {| Db.theQuery := t; Db.values := [Req.params_name request] |}
              (store w) = (Db.Rows rows, s') ->
  run [check_name request; by_name t not_found request] w
  = {| store := s'; faults := tl (faults w);
       response :=
         Some (match rows with
               | [] => {| status := 404; body := message not_found |}
               | _ => {| status := 200; body := results (map toBook rows) |}
               end);
       issued := issued w ++ [ {| Db.theQuery := t;
                                  Db.values := [Req.params_name request] |} ] |}.
Proof.
  intros P N S E. unfold run. rewrite (check_name_passes request w P).
  unfold by_name, bind, ret, Pool.query_then_catch.
  rewrite (@round_trip_served C _ w S). rewrite E. cbn [fst snd].
  unfold rowCount, rows_of.
  destruct rows as [|row rows]; unfold send; cbn; rewrite N; reflexivity.
Qed.

Lemma book_eqb_title x y : Db.book_eqb x y = true -> Db.title x = Db.title y.
Proof.
  unfold Db.book_eqb. intros H.
  repeat (apply andb_true_iff in H; destruct H as [H ?]).
  apply String.eqb_eq. assumption.
Qed.

Lemma has_title_respects t x y :
  Db.book_eqb x y = true -> Engine.has_title t x = Engine.has_title t y.
Proof.
  intros H. unfold Engine.has_title. rewrite (book_eqb_title x y H). reflexivity.
Qed.

Lemma exec_select_by_title v t s :
  Engine.bind_text v = Engine.Bound t ->
  Engine.exec {| Db.theQuery := Db.SelectByTitle; Db.values := [v] |} s
  = (Db.Rows (filter (fun row => Engine.has_title t (Db.columns row))
                     (Db.book_view (fun _ => true) s)), s).
Proof.
  intros B. unfold Engine.exec, Engine.select_by_title. simpl. rewrite B.
  rewrite (book_view_where (Engine.has_title t) s (has_title_respects t)).
  reflexivity.
Qed.

End ByName.

(** X11: the four routes on [/title/:name] and [/author/:name] answer a
    request whose name parameter is not a provided string with 400 "No query
    parameter in url" and do nothing else: no statement is issued and the
    store is untouched. *)
Theorem X11_by_name_routes_require_the_name :
  forall (C : Collaborators) (e : Catalog.Endpoint) (request : Req.Request)
         (w : Express.World),
    Catalog.takes_name e = true ->
    isStringProvided (Req.params_name request) = false ->
    Express.response w = None ->
    BooksRouter.run (Catalog.booksRouter e request) w
    = {| Express.store := Express.store w;
         Express.faults := Express.faults w;
         Express.response :=
           Some {| Express.status := 400;
                   Express.body := Express.message "No query parameter in url" |};
         Express.issued := Express.issued w |}.
Proof.
  intros C e request w T P N.
  destruct e; try discriminate T;
    unfold Catalog.booksRouter, BooksRouter.get_title, BooksRouter.delete_title,
      BooksRouter.get_author, BooksRouter.delete_author;
    rewrite (check_name_stops request w _ P N); reflexivity.
Qed.

Lemma X11_by_name_routes_witness :
  BooksRouter.run
    (Catalog.booksRouter (C := Reference.collaborators) Catalog.DELETE_author
       (Samples.with_name ""))
    (Express.fresh Samples.library)
  = {| Express.store := Samples.library;
       Express.faults := [];
       Express.response :=
         Some {| Express.status := 400;
                 Express.body := Express.message "No query parameter in url" |};
       Express.issued := [] |}.
Proof.
  exact (X11_by_name_routes_require_the_name Reference.collaborators
           Catalog.DELETE_author (Samples.with_name "")
           (Express.fresh Samples.library) eq_refl eq_refl eq_refl).
Defined.

(** ** DELETE /title/:name *)

Section DeleteByTitle.
Context {C : Collaborators}.
Import Express BooksRouter.

Lemma exec_delete_by_title v t s :
  Engine.bind_text v = Engine.Bound t ->
  (length (filter (Engine.has_title t) (Db.Books s)) <= 1)%nat ->
  Engine.exec {| Db.theQuery := Db.DeleteByTitle; Db.values := [v] |} s
  = (Db.Rows (map (fun b => {| Db.columns := b;
                               Db.authors :=
                                 Catalog.authors_column (Engine.has_title t) s |})
                  (filter (Engine.has_title t) (Db.Books s))),
     Catalog.without (Engine.has_title t) s).
Proof.
  intros B L. unfold Engine.exec, Engine.delete_by_title.
  cbn [Db.theQuery Db.values]. rewrite B. unfold Engine.delete_books.
  destruct (filter (Engine.has_title t) (Db.Books s)) as [|b [|b' bs]] eqn:U.
  - reflexivity.
  - cbn [Engine.returning map].
    rewrite (authors_column_is_scalar _ s b U). reflexivity.
  - simpl in L. lia.
Qed.

Lemma without_books doomed s :
  filter doomed (Db.Books (Catalog.without doomed s)) = [].
Proof.
  simpl. apply filter_nothing. intros b Hb. apply filter_In in Hb.
  destruct Hb as [_ Hb]. apply negb_true_iff in Hb. exact Hb.
Qed.

End DeleteByTitle.

(** ** GROUP BY: the keys and the members of the groups *)

Section GroupKeys.
Variables K V : Type.
Variable eqb : K -> K -> bool.

Let add (gs : list (K * list V)) (kv : K * V) : list (K * list V) :=
  Db.add_to_group eqb (fst kv) (snd kv) gs.

Let apart (g1 g2 : K * list V) : Prop := eqb (fst g1) (fst g2) = false.

Lemma add_to_group_keys (P : K -> Prop) k v gs :
  P k -> Forall (fun g => P (fst g)) gs ->
  Forall (fun g : K * list V => P (fst g)) (Db.add_to_group eqb k v gs).
Proof.
  intros Hk. induction gs as [|[k' vs] rest IH]; intros H; simpl.
  - constructor; [exact Hk|constructor].
  - inversion H as [|g l Hg Hl]; subst.
    destruct (eqb k' k); constructor; auto.
Qed.

Lemma add_to_group_apart k v gs :
  ForallOrdPairs apart gs -> ForallOrdPairs apart (Db.add_to_group eqb k v gs).
Proof.
  induction gs as [|[k' vs] rest IH]; intros H; simpl.
  - constructor; constructor.
  - inversion H as [|g l Hg Hl]; subst.
    destruct (eqb k' k) eqn:E.
    + constructor; [exact Hg | exact Hl].
    + constructor; [|apply IH; exact Hl].
      apply (add_to_group_keys (fun k0 => eqb k' k0 = false) k v rest E Hg).
Qed.

(** No two groups have equal keys. *)
Lemma group_by_apart rows : ForallOrdPairs apart (Db.group_by eqb rows).
Proof.
  unfold Db.group_by.
  assert (G : forall acc, ForallOrdPairs apart acc ->
                          ForallOrdPairs apart (fold_left add rows acc)).
  { induction rows as [|[k v] rows' IH]; intros acc H; simpl; [exact H|].
    apply IH. unfold add. simpl. apply add_to_group_apart, H. }
  apply G. constructor.
Qed.

(** Keys and members of the groups come from the rows, and no group is
    empty. *)
Lemma add_to_group_from (P : K -> Prop) (Q : V -> Prop) k v gs :
  P k -> Q v ->
  Forall (fun g => P (fst g) /\ Forall Q (snd g) /\ snd g <> []) gs ->
  Forall (fun g : K * list V => P (fst g) /\ Forall Q (snd g) /\ snd g <> [])
         (Db.add_to_group eqb k v gs).
Proof.
  intros Hk Hv. induction gs as [|[k' vs] rest IH]; intros H; simpl.
  - constructor; [|constructor]. simpl. repeat split; [exact Hk| |discriminate].
    constructor; [exact Hv|constructor].
  - inversion H as [|g l Hg Hl]; subst.
    destruct (eqb k' k); constructor; auto.
    destruct Hg as (Pk & Qs & _). simpl in *.
    repeat split; [exact Pk| |].
    + apply Forall_app. split; [exact Qs|]. constructor; [exact Hv|constructor].
    + destruct vs; discriminate.
Qed.

Lemma group_by_from (P : K -> Prop) (Q : V -> Prop) rows :
  (forall r, In r rows -> P (fst r) /\ Q (snd r)) ->
  Forall (fun g => P (fst g) /\ Forall Q (snd g) /\ snd g <> [])
         (Db.group_by eqb rows).
Proof.
  unfold Db.group_by.
  assert (G : forall acc,
             (forall r, In r rows -> P (fst r) /\ Q (snd r)) ->
             Forall (fun g => P (fst g) /\ Forall Q (snd g) /\ snd g <> []) acc ->
             Forall (fun g => P (fst g) /\ Forall Q (snd g) /\ snd g <> [])
                    (fold_left add rows acc)).
  { induction rows as [|[k v] rows' IH]; intros acc R H; simpl; [exact H|].
    apply IH; [intros r Hr; apply R; right; exact Hr|].
    unfold add. simpl.
    destruct (R (k, v) (or_introl eq_refl)) as [Pk Qv].
    apply add_to_group_from; assumption. }
  intros R. apply G; [exact R|constructor].
Qed.

Hypothesis eqb_refl : forall k, eqb k k = true.

Lemma add_to_group_covers k (v : V) gs :
  exists g, In g (Db.add_to_group eqb k v gs) /\ eqb (fst g) k = true.
Proof.
  induction gs as [|[k' vs] rest IH]; simpl.
  - exists (k, [v]). split; [left; reflexivity|apply eqb_refl].
  - destruct (eqb k' k) eqn:E.
    + exists (k', vs ++ [v]). split; [left; reflexivity|exact E].
    + destruct IH as (g & Hg & Hk). exists g. split; [right; exact Hg|exact Hk].
Qed.

Lemma add_to_group_keeps k (v : V) gs g :
  In g gs -> exists g', In g' (Db.add_to_group eqb k v gs) /\ fst g' = fst g.
Proof.
  induction gs as [|[k' vs] rest IH]; simpl; [contradiction|].
  intros [<-|H].
  - destruct (eqb k' k).
    + exists (k', vs ++ [v]). split; [left; reflexivity|reflexivity].
    + exists (k', vs). split; [left; reflexivity|reflexivity].
  - destruct (eqb k' k).
    + exists g. split; [right; exact H|reflexivity].
    + destruct (IH H) as (g' & Hg' & Hk).
      exists g'. split; [right; exact Hg'|exact Hk].
Qed.

Lemma fold_add_keeps (rows : list (K * V)) acc g :
  In g acc -> exists g', In g' (fold_left add rows acc) /\ fst g' = fst g.
Proof.
  revert acc g. induction rows as [|[k v] rows' IH]; intros acc g H; simpl.
  - exists g. split; [exact H|reflexivity].
  - destruct (add_to_group_keeps k v acc g H) as (g1 & H1 & K1).
    destruct (IH _ g1 H1) as (g2 & H2 & K2).
    exists g2. split; [exact H2|congruence].
Qed.

(** Every row falls in a group of its key. *)
Lemma group_by_covers (rows : list (K * V)) r :
  In r rows ->
  exists g, In g (Db.group_by eqb rows) /\ eqb (fst g) (fst r) = true.
Proof.
  unfold Db.group_by.
  assert (G : forall acc, In r rows ->
                          exists g, In g (fold_left add rows acc)
                                    /\ eqb (fst g) (fst r) = true).
  { induction rows as [|[k v] rows' IH]; intros acc H; simpl; [contradiction|].
    destruct H as [<-|H]; [|apply IH; exact H].
    destruct (add_to_group_covers k v acc) as (g & Hg & Hk).
    destruct (fold_add_keeps rows' _ g Hg) as (g' & Hg' & Hk').
    exists g'. split; [exact Hg'|]. simpl. rewrite Hk'. exact Hk. }
  apply G.
Qed.

End GroupKeys.

(** ** GET and DELETE /author/:name *)

Section ByAuthor.
Context {C : Collaborators}.
Import Express BooksRouter.

Lemma existsb_pointwise A (f g : A -> bool) l :
  (forall x, f x = g x) -> existsb f l = existsb g l.
Proof.
  intros H. induction l as [|x l IH]; simpl; [reflexivity|].
  rewrite H, IH. reflexivity.
Qed.

Lemma Qeq_bool_trans x y z :
  Qeq_bool x y = true -> Qeq_bool y z = true -> Qeq_bool x z = true.
Proof.
  intros H1 H2. apply Qeq_bool_iff in H1, H2. apply Qeq_bool_iff.
  rewrite H1. exact H2.
Qed.

Lemma Qeq_bool_symm x y : Qeq_bool x y = true -> Qeq_bool y x = true.
Proof.
  intros H. apply Qeq_bool_iff in H. apply Qeq_bool_iff. symmetry. exact H.
Qed.

(** The key of every row of [delete_book] is the ISBN of a book of the
    author. *)
Lemma delete_book_keys name s d :
  In d (Engine.delete_book_by_author name s) ->
  existsb (fun j => Engine.written_by name j
                    && Qeq_bool (Db.isbn13 (fst j)) (fst d))
          (Db.joined s) = true.
Proof.
  unfold Engine.delete_book_by_author. intros H.
  apply in_map_iff in H. destruct H as (g & <- & Hg). cbn [fst].
  match type of Hg with
  | In g (Db.group_by Qeq_bool ?rows) =>
      pose proof (group_by_from Q string Qeq_bool
                    (fun k => existsb (fun j => Engine.written_by name j
                                                && Qeq_bool (Db.isbn13 (fst j)) k)
                                      (Db.joined s) = true)
                    (fun _ => True) rows) as F
  end.
  apply (proj1 (Forall_forall _ _)) with (x := g) in F; [exact (proj1 F)| |exact Hg].
  intros r Hr. apply in_map_iff in Hr. destruct Hr as (j & <- & Hj).
  apply filter_In in Hj. destruct Hj as [_ Hj]. cbn [fst snd].
  split; [exact Hj|exact I].
Qed.

(** The books the delete by author removes are the books of the author. *)
Lemma doomed_is_wrote name s b :
  existsb (fun d => Qeq_bool (fst d) (Db.isbn13 b))
          (Engine.delete_book_by_author name s)
  = Catalog.wrote name s b.
Proof.
  apply Bool.eq_iff_eq_true. split; intros H.
  - apply existsb_exists in H. destruct H as (d & Hd & Hk).
    apply delete_book_keys, existsb_exists in Hd. destruct Hd as (j & Hj & Hw).
    apply andb_true_iff in Hw. destruct Hw as [Hw Hq].
    apply existsb_exists. exists j. split; [exact Hj|].
    rewrite Hw. simpl. exact (Qeq_bool_trans _ _ _ Hq Hk).
  - apply existsb_exists in H. destruct H as (j & Hj & Hw).
    apply andb_true_iff in Hw. destruct Hw as [Hw Hq].
    unfold Engine.delete_book_by_author.
    match goal with
    | |- existsb _ (map _ (Db.group_by Qeq_bool ?rows)) = true =>
        destruct (group_by_covers Q string Qeq_bool Qeq_bool_refl rows
                    (Db.isbn13 (fst j), Db.TRIM (Db.author_name (snd j))))
          as (g & Hg & Hk)
    end.
    + apply in_map_iff. exists j. split; [reflexivity|].
      apply filter_In. split; [exact Hj|].
      apply existsb_exists. exists j. split; [exact Hj|].
      rewrite Hw. simpl. apply Qeq_bool_refl.
    + apply existsb_exists.
      exists (fst g, Some (Db.string_agg (snd g))). split.
      * apply in_map_iff. exists g. split; [reflexivity|exact Hg].
      * cbn [fst] in *. exact (Qeq_bool_trans _ _ _ Hk Hq).
Qed.

Lemma filter_apart A (key : A -> Q) l n :
  ForallOrdPairs (fun x y => Qeq_bool (key x) (key y) = false) l ->
  (length (filter (fun x => Qeq_bool (key x) n) l) <= 1)%nat.
Proof.
  induction l as [|a l IH]; intros H; simpl; [lia|].
  inversion H as [|a' l' Ha Hl]; subst.
  destruct (Qeq_bool (key a) n) eqn:E; [|apply IH, Hl].
  rewrite filter_nothing; [simpl; lia|].
  intros y Hy. apply not_true_iff_false. intros Hn.
  rewrite Forall_forall in Ha. specialize (Ha y Hy).
  rewrite (Qeq_bool_trans _ _ _ E (Qeq_bool_symm _ _ Hn)) in Ha. discriminate.
Qed.

(** The subquery that supplies [authors] is correlated on the ISBN, the key
    of the grouping: it never yields two rows. *)
Lemma delete_book_is_scalar name s n :
  Engine.scalar_subquery
    (map snd (filter (fun d => Qeq_bool (fst d) n)
                     (Engine.delete_book_by_author name s))) <> None.
Proof.
  unfold Engine.delete_book_by_author.
  rewrite filter_of_map. cbn [fst].
  match goal with
  | |- context [filter _ (Db.group_by Qeq_bool ?rows)] =>
      pose proof (filter_apart _ fst (Db.group_by Qeq_bool rows) n
                    (group_by_apart Q string Qeq_bool rows)) as L;
      destruct (filter (fun a => Qeq_bool (fst a) n) (Db.group_by Qeq_bool rows))
        as [|g [|g' gs]]
  end; simpl in *; try discriminate. lia.
Qed.

Lemma returning_total authors_of l :
  (forall b, authors_of b <> None) ->
  exists rows, Engine.returning authors_of l = Some rows
               /\ map Db.columns rows = l.
Proof.
  intros T. induction l as [|b l (rows & E & M)]; simpl.
  - exists []. split; reflexivity.
  - destruct (authors_of b) as [a|] eqn:A; [|destruct (T b A)].
    rewrite E. eexists. split; [reflexivity|]. simpl. rewrite M. reflexivity.
Qed.

Lemma exec_delete_by_author v name s :
  Engine.bind_text v = Engine.Bound name ->
  exists rows,
    map Db.columns rows = filter (Catalog.wrote name s) (Db.Books s)
    /\ Engine.exec {| Db.theQuery := Db.DeleteByAuthor; Db.values := [v] |} s
       = (Db.Rows rows, Catalog.without (Catalog.wrote name s) s).
Proof.
  intros B. unfold Engine.exec, Engine.delete_by_author.
  cbn [Db.theQuery Db.values]. rewrite B. unfold Engine.delete_books.
  rewrite (filter_ext _ _ (doomed_is_wrote name s)).
  destruct (returning_total
              (fun b => Engine.scalar_subquery
                          (map snd (filter (fun d => Qeq_bool (fst d) (Db.isbn13 b))
                                           (Engine.delete_book_by_author name s))))
              (filter (Catalog.wrote name s) (Db.Books s))
              (fun b => delete_book_is_scalar name s (Db.isbn13 b)))
    as (rows & E & M).
  rewrite E. exists rows. split; [exact M|].
  unfold Catalog.without. f_equal. f_equal.
  - apply filter_ext. intros b. rewrite doomed_is_wrote. reflexivity.
  - apply filter_ext. intros ba. f_equal. apply existsb_pointwise.
    intros b. rewrite doomed_is_wrote. reflexivity.
Qed.

(** The join of the store after a delete is part of the join before, on
    books that were kept. *)
Lemma joined_without doomed s b a :
  In (b, a) (Db.joined (Catalog.without doomed s)) ->
  In (b, a) (Db.joined s) /\ doomed b = false.
Proof.
  unfold Db.joined. intros H.
  apply in_flat_map in H. destruct H as (b0 & Hb0 & H).
  apply in_flat_map in H. destruct H as (ba & Hba & H).
  cbn [Catalog.without Db.Books Db.Books_Authors Db.Author] in *.
  apply filter_In in Hb0. destruct Hb0 as [Hb0 Hd].
  apply filter_In in Hba. destruct Hba as [Hba _].
  destruct (Qeq_bool (Db.isbn13 b0) (Db.ba_isbn13 ba)) eqn:E; [|contradiction].
  assert (b = b0).
  { apply in_map_iff in H. destruct H as (a0 & Heq & _).
    injection Heq as <- _. reflexivity. }
  subst b0. split; [|apply negb_true_iff; exact Hd].
  apply in_flat_map. exists b. split; [exact Hb0|].
  apply in_flat_map. exists ba. split; [exact Hba|].
  rewrite E. exact H.
Qed.

Lemma no_book_of_the_author_left name s :
  filter (Engine.written_by name)
         (Db.joined (Catalog.without (Catalog.wrote name s) s)) = [].
Proof.
  apply filter_nothing. intros [b a] H.
  apply joined_without in H. destruct H as [H D].
  destruct (Engine.written_by name (b, a)) eqn:E; [|reflexivity].
  assert (W : Catalog.wrote name s b = true).
  { apply existsb_exists. exists (b, a). split; [exact H|].
    rewrite E. simpl. apply Qeq_bool_refl. }
  congruence.
Qed.

Lemma exec_select_by_author v name s :
  Engine.bind_text v = Engine.Bound name ->
  Engine.exec {| Db.theQuery := Db.SelectByAuthor; Db.values := [v] |} s
  = (Db.Rows (Db.book_view (Engine.written_by name) s), s).
Proof.
  intros B. unfold Engine.exec, Engine.select_by_author. simpl. rewrite B.
  reflexivity.
Qed.

Lemma get_author_of_nobody request name w :
  isStringProvided (Req.params_name request) = true ->
  Engine.bind_text (Req.params_name request) = Engine.Bound name ->
  response w = None -> Catalog.served w ->
  filter (Engine.written_by name) (Db.joined (store w)) = [] ->
  response (run (get_author request) w)
  = Some {| status := 404; body := message "Author not found" |}.
Proof.
  intros P B N S E. unfold get_author.
  rewrite (by_name_run Db.SelectByAuthor "Author not found" request w _ _ P N S
             (exec_select_by_author (Req.params_name request) name (store w) B)).
  cbn [response]. unfold Db.book_view. rewrite E. reflexivity.
Qed.

(** Sorting names that are all the same. *)
Lemma sort_by_constant name l :
  Forall (fun v => v = name) l ->
  Db.sort_by String.leb l = repeat name (length l).
Proof.
  induction l as [|x l IH]; intros H; simpl; [reflexivity|].
  inversion H as [|x' l' Hx Hl]; subst.
  rewrite (IH Hl). destruct (length l); simpl; [reflexivity|].
  assert (R : String.leb name name = true).
  { destruct (String.leb_total name name); assumption. }
  rewrite R. reflexivity.
Qed.

(** Every row of the view by author is a book the author is linked to, and
    its [authors] is the searched name, once per link. *)
Lemma book_view_by_author name s row :
  In row (Db.book_view (Engine.written_by name) s) ->
  (exists a, In (Db.columns row, a) (Db.joined s) /\ Db.author_name a = name)
  /\ exists k, Db.authors row = Some (String.concat ", " (repeat name (S k))).
Proof.
  unfold Db.book_view. intros H.
  apply in_map_iff in H. destruct H as (g & <- & Hg). cbn [Db.columns Db.authors].
  match type of Hg with
  | In g (Db.group_by Db.book_eqb ?rows) =>
      pose proof (group_by_from Db.BookRow string Db.book_eqb
                    (fun b => exists a, In (b, a) (Db.joined s)
                                        /\ Db.author_name a = name)
                    (fun v => v = name) rows) as F
  end.
  apply (proj1 (Forall_forall _ _)) with (x := g) in F; [| |exact Hg].
  - destruct F as (Pg & Qg & Ng). split; [exact Pg|].
    unfold Db.string_agg_ordered, Db.string_agg.
    rewrite (sort_by_constant name (snd g) Qg).
    destruct (snd g) as [|v vs]; [congruence|].
    exists (length vs). reflexivity.
  - intros r Hr. apply in_map_iff in Hr. destruct Hr as ([b a] & <- & Hj).
    apply filter_In in Hj. destruct Hj as [Hj Hw]. cbn [fst snd].
    unfold Engine.written_by in Hw. cbn [snd] in Hw. apply String.eqb_eq in Hw.
    split; [exists a; split; assumption|exact Hw].
Qed.

End ByAuthor.

(** ** Every storage promise with a [.catch] ends in a response *)

Section Answers.
Context {C : Collaborators}.
Import Express BooksRouter.
Local Open Scope handler_scope.

(** The code leaves the client with a response. *)
Let answers (A : Type) (m : Handler A) : Prop :=
  forall w, response (snd (m w)) <> None.

(** The code throws or leaves the client with a response. *)
Let settles (A : Type) (m : Handler A) : Prop :=
  forall w, fst (m w) = Threw \/ response (snd (m w)) <> None.

(** The middleware ends the chain only once the client has a response. *)
Let passes (m : Middleware) : Prop :=
  forall w, fst (m w) = Returned Stop -> response (snd (m w)) <> None.

Lemma answers_send code b : answers unit (send code b).
Proof.
  intros w. unfold send. destruct (response w) eqn:E; simpl.
  - rewrite E. discriminate.
  - discriminate.
Qed.

Lemma settles_answers A (m : Handler A) : answers A m -> settles A m.
Proof. intros H w. right. apply H. Qed.

Lemma settles_throw A : settles A throw.
Proof. intros w. left. reflexivity. Qed.

Lemma settles_bind A B (m : Handler A) (k : A -> Handler B) :
  (forall a, settles B (k a)) -> settles B (bind m k).
Proof.
  intros H w. unfold bind. destruct (m w) as [[a|] w1].
  - apply H.
  - left. reflexivity.
Qed.

Lemma settles_then_ret A B (m : Handler A) (b : B) :
  answers A m -> settles B (bind m (fun _ => ret b)).
Proof.
  intros H w. unfold bind, ret. specialize (H w).
  destruct (m w) as [[a|] w1]; [right; exact H|left; reflexivity].
Qed.

Lemma round_trip_keeps_response q w :
  response (snd (Pool.round_trip q w)) = response w.
Proof.
  unfold Pool.round_trip.
  destruct (faults w) as [|[] later];
    try destruct (Engine.exec q (store w)); reflexivity.
Qed.

Lemma answers_query_then_catch q on_result on_error :
  (forall r, settles unit (on_result r)) ->
  (forall d, answers unit (on_error d)) ->
  answers unit (Pool.query_then_catch q on_result on_error).
Proof.
  intros Hr He w. unfold Pool.query_then_catch, unhandled.
  destruct (Pool.round_trip q w) as [r w1].
  destruct r; try apply He;
    match goal with
    | |- context [on_result ?r w1] =>
        destruct (Hr r w1) as [T|T];
        destruct (on_result r w1) as [[u|] w2]; simpl in *;
        try discriminate T; try exact T; try apply He
    end.
Qed.

Lemma passes_ret_next : passes (ret Next).
Proof. intros w H. discriminate H. Qed.

Lemma passes_settles m : settles Continue m -> passes m.
Proof.
  intros H w E. destruct (H w) as [T|T]; [congruence|exact T].
Qed.

Lemma passes_bind A (m : Handler A) (k : A -> Middleware) :
  (forall a, passes (k a)) -> passes (bind m k).
Proof.
  intros H w. unfold bind. destruct (m w) as [[a|] w1].
  - apply H.
  - intros E. discriminate E.
Qed.

Lemma error_handler_answers w : response (error_handler w) <> None.
Proof.
  unfold error_handler. destruct (response w) eqn:E; simpl.
  - rewrite E. discriminate.
  - discriminate.
Qed.

(** A chain whose last middleware settles and whose other middlewares stop
    only after answering leaves the client with a response. *)
Lemma run_answers chain last w :
  Forall passes chain -> settles Continue last ->
  response (run (chain ++ [last]) w) <> None.
Proof.
  intros H L. revert w. induction H as [|m chain Hm _ IH]; intros w; simpl.
  - destruct (L w) as [T|T]; destruct (last w) as [[[]|] w1]; simpl in *;
      try discriminate T; try exact T; apply error_handler_answers.
  - specialize (Hm w). destruct (m w) as [[[]|] w1]; simpl in *.
    + apply IH.
    + apply Hm. reflexivity.
    + apply error_handler_answers.
Qed.

Ltac answering :=
  repeat match goal with
         | |- forall _, _ => intro
         | |- answers _ (send _ _) => apply answers_send
         | |- answers _ (Pool.query_then_catch _ _ _) =>
             apply answers_query_then_catch
         | |- answers _ (if ?c then _ else _) => destruct c
         | |- answers _ (match ?x with _ => _ end) => destruct x
         | |- settles _ (send _ _) => apply settles_answers
         | |- settles _ throw => apply settles_throw
         | |- settles _ (bind _ (fun _ => ret _)) => apply settles_then_ret
         | |- settles _ (bind _ _) => apply settles_bind
         | |- settles _ (if ?c then _ else _) => destruct c
         | |- settles _ (match ?x with _ => _ end) => destruct x
         | |- passes (ret Next) => apply passes_ret_next
         | |- passes (bind (send _ _) _) => apply passes_settles
         | |- passes (bind _ _) => apply passes_bind
         | |- passes (if ?c then _ else _) => destruct c
         | |- passes (match ?x with _ => _ end) => destruct x
         | |- Forall _ _ => constructor
         end.

Lemma catching_endpoints_answer e request w :
  Catalog.catches e = true ->
  response (run (Catalog.booksRouter e request) w) <> None.
Proof.
  intros T. destruct e; try discriminate T; clear T;
    unfold Catalog.booksRouter, post_books, get_isbns, delete_isbns, post_rating,
      put_rating, get_title, delete_title, get_author, delete_author;
    match goal with
    | |- response (run [?a; ?b] w) <> None => apply (run_answers [a] b w)
    | |- response (run [?a; ?b; ?c] w) <> None => apply (run_answers [a; b] c w)
    end;
    unfold add_book_validate, add_book, add_authors, split_authors,
      check_isbn, get_by_isbn, delete_by_isbn, one_book_or_404,
      rating_range_validate, rating_range, name_exists_or_500,
      update_ratings_validate, update_ratings, check_name, by_name, property_of;
    unfold name_exists_or_500, one_book_or_404, link_author;
    cbv zeta; answering.
Qed.

End Answers.

(** X16: every route but the paginated scan leaves the client with a
    response, whatever the request, the store and the storage failures: the
    validators end the chain only after sending, every storage promise has a
    [.catch] that sends, and what a handler throws reaches the error
    handler. *)
Theorem X16_catching_endpoints_always_answer :
  forall (C : Collaborators) (e : Catalog.Endpoint) (request : Req.Request)
         (w : Express.World),
    Catalog.catches e = true ->
    exists r,
      Express.response (BooksRouter.run (Catalog.booksRouter e request) w)
      = Some r.
Proof.
  intros C e request w T.
  pose proof (catching_endpoints_answer e request w T) as H.
  destruct (Express.response (BooksRouter.run (Catalog.booksRouter e request) w))
    as [r|]; [exists r; reflexivity|congruence].
Qed.

(** A delete by title whose round trip fails. *)
Lemma X16_catching_endpoints_witness :
  exists r,
    Express.response
      (BooksRouter.run
         (Catalog.booksRouter (C := Reference.collaborators) Catalog.DELETE_title
            (Samples.with_name "Emma"))
         {| Express.store := Samples.library; Express.faults := [true];
            Express.response := None; Express.issued := [] |})
    = Some r.
Proof.
  exact (X16_catching_endpoints_always_answer Reference.collaborators
           Catalog.DELETE_title (Samples.with_name "Emma")
           {| Express.store := Samples.library; Express.faults := [true];
              Express.response := None; Express.issued := [] |} eq_refl).
Defined.

(** ** POST /: the validator *)

Section InsertValidator.
Context {C : Collaborators}.
Import Express BooksRouter.
Local Open Scope handler_scope.

Lemma verify_each_answered (cs : list (bool * string)) w r :
  response w = Some r ->
  for_each (fun c => verifyElement (fst c) (snd c)) cs w
  = match filter (fun c : bool * string => negb (fst c)) cs with
    | [] => (Returned tt, w)
    | _ :: _ => (Threw, w)
    end.
Proof.
  intros A. induction cs as [|[valid name] cs IH]; [reflexivity|].
  cbn [for_each filter fst snd]. unfold bind.
  destruct valid; cbn [negb].
  - change (verifyElement true name w) with (Returned tt, w). exact IH.
  - change (verifyElement false name w)
      with (send 400 (message ("Invalid or missing " ++ name
                               ++ " - please refer to documentation")%string) w).
    unfold send. rewrite A. reflexivity.
Qed.

(** A run of [verifyElement] calls: the first failing one sends, a second
    failing one throws on sending again. *)
Lemma verify_each (cs : list (bool * string)) w :
  response w = None ->
  for_each (fun c => verifyElement (fst c) (snd c)) cs w
  = match map snd (filter (fun c : bool * string => negb (fst c)) cs) with
    | [] => (Returned tt, w)
    | [name] => (Returned tt, answered w (Catalog.invalid_element name))
    | name :: _ :: _ => (Threw, answered w (Catalog.invalid_element name))
    end.
Proof.
  intros N. induction cs as [|[valid name] cs IH]; [reflexivity|].
  cbn [for_each filter fst snd]. unfold bind.
  destruct valid; cbn [negb].
  - change (verifyElement true name w) with (Returned tt, w). exact IH.
  - change (verifyElement false name w)
      with (send 400 (message ("Invalid or missing " ++ name
                               ++ " - please refer to documentation")%string) w).
    unfold send. rewrite N. cbn [map snd].
    fold (Catalog.invalid_element name).
    rewrite (verify_each_answered cs
               (answered w (Catalog.invalid_element name))
               (Catalog.invalid_element name) eq_refl).
    destruct (filter (fun c : bool * string => negb (fst c)) cs); reflexivity.
Qed.

Lemma add_book_validate_as_checks request entry w :
  Req.body_entry request = Some entry ->
  add_book_validate request w
  = (for_each (fun c => verifyElement (fst c) (snd c)) (Catalog.checks entry) ;;
     ret Next) w.
Proof.
  intros E. unfold add_book_validate. rewrite E.
  unfold property_of, bind at 1, ret at 1.
  unfold Catalog.checks. cbn [for_each fst snd]. cbv zeta. unfold bind.
  repeat match goal with
         | |- context [verifyElement ?v ?n ?x] =>
             destruct (verifyElement v n x) as [[[]|] ?]; [|reflexivity]
         end.
  reflexivity.
Qed.

End InsertValidator.

(** X17: the insert validator reports the first invalid element of the
    entry, in the order ISBN, Authors, Publication, Original Title, Title,
    Rating, Image Url, Image Small Url.  With no invalid element it sends
    nothing and calls the handler; with exactly one it sends the 400 and
    still calls the handler; with two or more the second report throws, the
    handler is not called, and the route ends with the first 400 and nothing
    issued or written. *)
Theorem X17_insert_validator_reports_the_first_invalid_element :
  forall (C : Collaborators) (request : Req.Request) (entry : Req.Entry)
         (w : Express.World),
    Req.body_entry request = Some entry ->
    Express.response w = None ->
    BooksRouter.add_book_validate request w
    = match Catalog.invalid_elements entry with
      | [] => (Express.Returned BooksRouter.Next, w)
      | [name] => (Express.Returned BooksRouter.Next,
                   Express.answered w (Catalog.invalid_element name))
      | name :: _ :: _ => (Express.Threw,
                           Express.answered w (Catalog.invalid_element name))
      end
    /\ (forall name other rest,
           Catalog.invalid_elements entry = name :: other :: rest ->
           BooksRouter.run (BooksRouter.post_books request) w
           = Express.answered w (Catalog.invalid_element name)).
Proof.
  intros C request entry w E N.
  assert (V : BooksRouter.add_book_validate request w
              = match Catalog.invalid_elements entry with
                | [] => (Express.Returned BooksRouter.Next, w)
                | [name] => (Express.Returned BooksRouter.Next,
                             Express.answered w (Catalog.invalid_element name))
                | name :: _ :: _ =>
                    (Express.Threw,
                     Express.answered w (Catalog.invalid_element name))
                end).
  { rewrite (add_book_validate_as_checks request entry w E).
    unfold Express.bind. rewrite (verify_each (Catalog.checks entry) w N).
    unfold Catalog.invalid_elements.
    destruct (map snd (filter (fun c : bool * string => negb (fst c))
                              (Catalog.checks entry))) as [|name [|other rest]];
      reflexivity. }
  split; [exact V|].
  intros name other rest I. unfold BooksRouter.post_books, BooksRouter.run.
  rewrite V, I. reflexivity.
Qed.

(** An entry with a negative ISBN and an empty title. *)
Lemma X17_insert_validator_witness :
  let b := {| Entry.isbn13 := -1; Entry.authors := "Ann Author";
              Entry.publication := 1999;
              Entry.original_title := "A Title"; Entry.title := "";
              Entry.average := 4; Entry.count := 10;
              Entry.rating1 := 1; Entry.rating2 := 1; Entry.rating3 := 1;
              Entry.rating4 := 1; Entry.rating5 := 6;
              Entry.large := "http://img/l.png";
              Entry.small := "http://img/s.png" |} in
  BooksRouter.run
    (BooksRouter.post_books (C := Reference.collaborators)
       (Samples.with_entry (Entry.entry b)))
    (Express.fresh Samples.library)
  = Express.answered (Express.fresh Samples.library)
      (Catalog.invalid_element "ISBN").
Proof.
  intros b.
  exact (proj2 (X17_insert_validator_reports_the_first_invalid_element
                  Reference.collaborators (Samples.with_entry (Entry.entry b))
                  (Entry.entry b) (Express.fresh Samples.library)
                  eq_refl eq_refl)
               "ISBN" "Title" [] eq_refl).
Defined.

(** ** POST / then GET /isbns/:isbn *)

Section InsertThenRead.
Context {C : Collaborators} {HA : HelpersAccept C}.
Import Express BooksRouter.
Local Open Scope handler_scope.

Lemma as_integer_inject_Z z : Engine.as_integer (inject_Z z) = Some z.
Proof.
  unfold Engine.as_integer, inject_Z, Qred.
  pose proof (Z.ggcd_gcd z 1) as G.
  pose proof (Z.ggcd_correct_divisors z 1) as D.
  destruct (Z.ggcd z 1) as [g [aa bb]]. simpl in *.
  rewrite Z.gcd_1_r in G. subst g. destruct D as [D1 D2].
  rewrite Z.mul_1_l in D1, D2. subst aa bb. reflexivity.
Qed.

Lemma split_from_nonempty sep skip cur s : Str.split_from sep skip cur s <> [].
Proof.
  revert skip cur. induction s as [|c s IH]; intros skip cur.
  - discriminate.
  - cbn [Str.split_from]. destruct skip; [|apply IH].
    destruct (String.prefix sep (String c s)); [discriminate|apply IH].
Qed.

Lemma same_id_same_author l a a' :
  NoDup (map Db.author_id l) -> In a l -> In a' l ->
  Db.author_id a = Db.author_id a' -> a = a'.
Proof.
  induction l as [|x l IH]; simpl; intros N Ha Ha' E; [contradiction|].
  inversion N as [|y ys Hx Hl]; subst.
  destruct Ha as [<-|Ha], Ha' as [<-|Ha'].
  - reflexivity.
  - exfalso. apply Hx. rewrite E. apply in_map, Ha'.
  - exfalso. apply Hx. rewrite <- E. apply in_map, Ha.
  - apply IH; assumption.
Qed.

Lemma in_joined s b a :
  In (b, a) (Db.joined s)
  <-> In b (Db.Books s)
      /\ exists ba, In ba (Db.Books_Authors s)
                    /\ Qeq_bool (Db.isbn13 b) (Db.ba_isbn13 ba) = true
                    /\ In a (Db.Author s)
                    /\ Db.ba_author_id ba = Db.author_id a.
Proof.
  unfold Db.joined. split.
  - intros H. apply in_flat_map in H. destruct H as (b0 & Hb0 & H).
    apply in_flat_map in H. destruct H as (ba & Hba & H).
    destruct (Qeq_bool (Db.isbn13 b0) (Db.ba_isbn13 ba)) eqn:E; [|contradiction].
    apply in_map_iff in H. destruct H as (a0 & Heq & Ha0).
    injection Heq as <- <-. apply filter_In in Ha0. destruct Ha0 as [Ha0 Hid].
    apply Z.eqb_eq in Hid.
    split; [exact Hb0|]. exists ba. repeat split; assumption.
  - intros (Hb & ba & Hba & E & Ha & Hid).
    apply in_flat_map. exists b. split; [exact Hb|].
    apply in_flat_map. exists ba. split; [exact Hba|].
    rewrite E. apply in_map. apply filter_In. split; [exact Ha|].
    apply Z.eqb_eq. exact Hid.
Qed.

(** The upsert of one name: the author of that name is in the table
    afterwards and its id is returned. *)
Lemma exec_upsert name s :
  exists a s1,
    Engine.exec {| Db.theQuery := Db.UpsertAuthor; Db.values := [JStr name] |} s
    = (Db.AuthorIds [Db.author_id a], s1)
    /\ In a (Db.Author s1) /\ Db.author_name a = name
    /\ Db.Books s1 = Db.Books s
    /\ Db.Books_Authors s1 = Db.Books_Authors s
    /\ incl (Db.Author s) (Db.Author s1).
Proof.
  unfold Engine.exec, Engine.upsert_author.
  cbn [Db.theQuery Db.values Engine.bind_text].
  destruct (find (fun a => String.eqb (Db.author_name a) name) (Db.Author s))
    as [a|] eqn:F.
  - apply find_some in F. destruct F as [Ha Hn]. apply String.eqb_eq in Hn.
    exists a, s. repeat split; auto using incl_refl.
  - eexists {| Db.author_id := Engine.fresh_author_id s; Db.author_name := name |}.
    eexists. split; [reflexivity|]. cbn.
    repeat split; auto using incl_appl, incl_refl.
    apply in_or_app. right. left. reflexivity.
Qed.

(** The link of the ISBN to an id: the pair is in the table afterwards, and
    nothing else is new. *)
Lemma exec_link n id s :
  exists s2,
    Engine.exec {| Db.theQuery := Db.InsertLink;
                   Db.values := [JNum n; JNum (inject_Z id)] |} s
    = (Db.Rows [], s2)
    /\ Db.Books s2 = Db.Books s /\ Db.Author s2 = Db.Author s
    /\ incl (Db.Books_Authors s) (Db.Books_Authors s2)
    /\ (exists ba, In ba (Db.Books_Authors s2)
                   /\ Db.ba_isbn13 ba == n /\ Db.ba_author_id ba = id)
    /\ (forall ba, In ba (Db.Books_Authors s2) ->
                   In ba (Db.Books_Authors s)
                   \/ (Db.ba_isbn13 ba = n /\ Db.ba_author_id ba = id)).
Proof.
  unfold Engine.exec, Engine.insert_link.
  cbn [Db.theQuery Db.values Engine.bind_numeric].
  rewrite as_integer_inject_Z.
  destruct (existsb (fun ba => Qeq_bool (Db.ba_isbn13 ba) n
                               && Z.eqb (Db.ba_author_id ba) id)
                    (Db.Books_Authors s)) eqn:E.
  - exists s. split; [reflexivity|]. repeat split; auto using incl_refl.
    apply existsb_exists in E. destruct E as (ba & Hba & E).
    apply andb_true_iff in E. destruct E as [E1 E2].
    apply Qeq_bool_iff in E1. apply Z.eqb_eq in E2.
    exists ba. repeat split; assumption.
  - eexists. split; [reflexivity|]. cbn.
    repeat split; auto using incl_appl, incl_refl.
    + exists {| Db.ba_isbn13 := n; Db.ba_author_id := id |}.
      split; [apply in_or_app; right; left; reflexivity|].
      split; reflexivity.
    + intros ba Hba. apply in_app_or in Hba. destruct Hba as [Hba|[<-|[]]];
        [left; exact Hba|right; split; reflexivity].
Qed.

(** One turn of the loop over the authors when storage answers. *)
Lemma author_step name n w :
  faults w = [] ->
  exists a w',
    Pool.query_then_catch
      {| Db.theQuery := Db.UpsertAuthor; Db.values := [JStr name] |}
      (link_author (JNum n)) (fun _ => ret tt) w
    = (Returned tt, w')
    /\ faults w' = [] /\ response w' = response w
    /\ Db.Books (store w') = Db.Books (store w)
    /\ (Catalog.keys_hold (store w) -> Catalog.keys_hold (store w'))
    /\ incl (Db.Author (store w)) (Db.Author (store w'))
    /\ incl (Db.Books_Authors (store w)) (Db.Books_Authors (store w'))
    /\ In a (Db.Author (store w')) /\ Db.author_name a = name
    /\ (exists ba, In ba (Db.Books_Authors (store w'))
                   /\ Db.ba_isbn13 ba == n
                   /\ Db.ba_author_id ba = Db.author_id a)
    /\ (forall ba, In ba (Db.Books_Authors (store w')) ->
                   In ba (Db.Books_Authors (store w))
                   \/ (Db.ba_isbn13 ba = n
                       /\ Db.ba_author_id ba = Db.author_id a)).
Proof.
  intros F.
  destruct (exec_upsert name (store w))
    as (a & s1 & E1 & Ha & Hn & B1 & L1 & A1).
  destruct (exec_link n (Db.author_id a) s1)
    as (s2 & E2 & B2 & A2 & L2 & Hl & Hs).
  exists a.
  exists {| store := s2; faults := []; response := response w;
            issued := (issued w
                       ++ [ {| Db.theQuery := Db.UpsertAuthor;
                               Db.values := [JStr name] |} ])
                      ++ [ {| Db.theQuery := Db.InsertLink;
                              Db.values := [JNum n;
                                            JNum (inject_Z (Db.author_id a))] |} ] |}.
  split.
  - unfold Pool.query_then_catch at 1.
    rewrite (round_trip_no_fault _ w F), E1. cbn [fst snd].
    unfold link_author, Pool.query_then_catch.
    rewrite round_trip_no_fault by reflexivity. cbn [store].
    rewrite E2. reflexivity.
  - cbn [store faults response].
    split; [reflexivity|]. split; [reflexivity|].
    split; [congruence|].
    split.
    { intros K.
      pose proof (@exec_keeps_keys C
                    {| Db.theQuery := Db.UpsertAuthor;
                       Db.values := [JStr name] |} (store w) K) as K1.
      rewrite E1 in K1. cbn [snd] in K1.
      pose proof (@exec_keeps_keys C
                    {| Db.theQuery := Db.InsertLink;
                       Db.values := [JNum n; JNum (inject_Z (Db.author_id a))] |}
                    s1 K1) as K2.
      rewrite E2 in K2. exact K2. }
    split; [rewrite A2; exact A1|].
    split; [rewrite <- L1; exact L2|].
    split; [rewrite A2; exact Ha|].
    split; [exact Hn|].
    split; [exact Hl|].
    intros ba Hba. rewrite <- L1. apply Hs, Hba.
Qed.

(** The loop over the authors when storage answers: every name is linked to
    the ISBN, and every new link is of the ISBN to one of the names. *)
Lemma author_loop_links names n w :
  faults w = [] -> Catalog.keys_hold (store w) ->
  exists w',
    for_each (fun author =>
                Pool.query_then_catch
                  {| Db.theQuery := Db.UpsertAuthor;
                     Db.values := [JStr author] |}
                  (link_author (JNum n))
                  (fun _ => ret tt))
             names w
    = (Returned tt, w')
    /\ faults w' = [] /\ response w' = response w
    /\ Db.Books (store w') = Db.Books (store w)
    /\ Catalog.keys_hold (store w')
    /\ incl (Db.Author (store w)) (Db.Author (store w'))
    /\ incl (Db.Books_Authors (store w)) (Db.Books_Authors (store w'))
    /\ (forall x, In x names ->
          exists a ba, In a (Db.Author (store w')) /\ Db.author_name a = x
                       /\ In ba (Db.Books_Authors (store w'))
                       /\ Db.ba_isbn13 ba == n
                       /\ Db.ba_author_id ba = Db.author_id a)
    /\ (forall ba, In ba (Db.Books_Authors (store w')) ->
          In ba (Db.Books_Authors (store w))
          \/ (Db.ba_isbn13 ba = n
              /\ exists a, In a (Db.Author (store w'))
                           /\ Db.author_id a = Db.ba_author_id ba
                           /\ In (Db.author_name a) names)).
Proof.
  revert w. induction names as [|name names IH]; intros w F K.
  - exists w. cbn [for_each]. unfold ret.
    split; [reflexivity|]. split; [exact F|]. split; [reflexivity|].
    split; [reflexivity|]. split; [exact K|].
    split; [apply incl_refl|]. split; [apply incl_refl|].
    split; [intros x []|intros ba H; left; exact H].
  - destruct (author_step name n w F)
      as (a & w1 & E1 & F1 & R1 & B1 & K1 & A1 & L1 & Ha & Hn & Hl & Hs).
    destruct (IH w1 F1 (K1 K))
      as (w' & E & F' & R' & B' & K' & A' & L' & Hc & Hd).
    exists w'. cbn [for_each]. unfold bind. rewrite E1.
    split; [exact E|]. split; [exact F'|]. split; [congruence|].
    split; [congruence|]. split; [exact K'|].
    split; [eapply incl_tran; eassumption|].
    split; [eapply incl_tran; eassumption|].
    split.
    + intros x [<-|Hx]; [|apply Hc, Hx].
      destruct Hl as (ba & Hba & Hi & Hid).
      exists a, ba. repeat split; auto.
    + intros ba Hba. destruct (Hd ba Hba) as [H1|(Hi & a' & Ha' & Hid & Hin)].
      * destruct (Hs ba H1) as [H0|(Hi & Hid)]; [left; exact H0|].
        right. split; [exact Hi|]. exists a.
        repeat split; [apply A', Ha|symmetry; exact Hid|left; symmetry; exact Hn].
      * right. split; [exact Hi|]. exists a'.
        repeat split; [exact Ha'|exact Hid|right; exact Hin].
Qed.

(** The route on an acceptable entry of a new ISBN when storage answers
    every statement. *)
Lemma post_books_links b request w :
  Req.body_entry request = Some (Entry.entry b) ->
  Entry.acceptable b ->
  response w = None -> faults w = [] ->
  Catalog.keys_hold (store w) ->
  existsb (Engine.has_isbn (Entry.isbn13 b)) (Db.Books (store w)) = false ->
  let w' := run (post_books request) w in
  response w' = Some {| status := 201;
                        body := message "Book successfully added." |}
  /\ Db.Books (store w') = Db.Books (store w) ++ [Entry.row b]
  /\ Catalog.keys_hold (store w')
  /\ (forall x, In x (Entry.names b) ->
        exists a ba, In a (Db.Author (store w')) /\ Db.author_name a = x
                     /\ In ba (Db.Books_Authors (store w'))
                     /\ Db.ba_isbn13 ba == Entry.isbn13 b
                     /\ Db.ba_author_id ba = Db.author_id a)
  /\ (forall ba, In ba (Db.Books_Authors (store w')) ->
        In ba (Db.Books_Authors (store w))
        \/ (Db.ba_isbn13 ba = Entry.isbn13 b
            /\ exists a, In a (Db.Author (store w'))
                         /\ Db.author_id a = Db.ba_author_id ba
                         /\ In (Db.author_name a) (Entry.names b))).
Proof.
  intros E A N F K D. cbv zeta.
  remember (run (post_books request) w) as w' eqn:Hw.
  unfold post_books, run in Hw.
  rewrite (@add_book_validate_passes C HA b request w E A) in Hw.
  rewrite (@add_book_unfolded C b request E) in Hw.
  unfold bind at 1, Pool.query_then_catch in Hw.
  rewrite (round_trip_no_fault _ w F), (@exec_insert_new C b _ D) in Hw.
  cbn [fst snd] in Hw. unfold add_authors, rows_of in Hw. cbn [Db.columns] in Hw.
  unfold bind at 1 in Hw.
  pose proof (@exec_keeps_keys C (Entry.insert_statement b) (store w) K) as K1.
  rewrite (@exec_insert_new C b _ D) in K1. cbn [snd] in K1.
  match type of Hw with
  | context [for_each _ ?l ?w1] =>
      destruct (author_loop_links l (Db.isbn13 (Entry.row b)) w1 eq_refl K1)
        as (w2 & E2 & F2 & R2 & B2 & K2 & A2 & L2 & Hc & Hd)
  end.
  rewrite E2 in Hw. cbn [store response] in *.
  unfold send in Hw. rewrite R2, N in Hw. cbn in Hw. subst w'. cbn.
  split; [reflexivity|]. split; [exact B2|]. split; [exact K2|].
  split; [exact Hc|exact Hd].
Qed.

(** The by-ISBN read of a store where one book carries the ISBN. *)
Lemma get_isbns_of_one_book request n b w :
  isbn_accepted (Req.params_isbn request) = true ->
  Engine.bind_numeric (Req.params_isbn request) = Engine.Bound n ->
  response w = None -> Catalog.served w ->
  filter (Engine.has_isbn n) (Db.Books (store w)) = [b] ->
  Catalog.joined_names (Engine.has_isbn n) (store w) <> [] ->
  response (run (get_isbns request) w)
  = Some {| status := 200;
            body := result
              (toBook {| Db.columns := b;
                         Db.authors :=
                           Some (Db.string_agg_ordered
                                   (Catalog.joined_names (Engine.has_isbn n)
                                                         (store w))) |}) |}.
Proof.
  intros A B N S U J.
  rewrite (get_isbns_response request w N A).
  rewrite (@round_trip_served C _ w S).
  unfold Engine.exec, Engine.select_by_isbn. cbn [Db.theQuery Db.values fst].
  rewrite B. rewrite (book_view_of_one_book (Engine.has_isbn n) (store w) b U).
  destruct (Catalog.joined_names (Engine.has_isbn n) (store w)); [congruence|].
  reflexivity.
Qed.

End InsertThenRead.

(** X19: an acceptable entry of a new ISBN, inserted while storage answers
    every statement into a store whose keys are unique and which holds no
    link of that ISBN, is read back by GET /isbns/:isbn: the answer is 200
    with the thirteen columns of the entry and an [authors] field that joins,
    in alphabetical order, names that are exactly the names of the entry. *)
Theorem X19_inserted_book_is_read_back :
  forall (C : Collaborators) (HA : HelpersAccept C) (b : Entry.Typed)
         (request lookup : Req.Request) (w w2 : Express.World),
    Req.body_entry request = Some (Entry.entry b) ->
    Entry.acceptable b ->
    Express.response w = None ->
    Express.faults w = [] ->
    Catalog.keys_hold (Express.store w) ->
    existsb (Engine.has_isbn (Entry.isbn13 b)) (Db.Books (Express.store w)) = false ->
    (forall ba, In ba (Db.Books_Authors (Express.store w)) ->
                ~ Db.ba_isbn13 ba == Entry.isbn13 b) ->
    BooksRouter.isbn_accepted (Req.params_isbn lookup) = true ->
    Engine.bind_numeric (Req.params_isbn lookup) = Engine.Bound (Entry.isbn13 b) ->
    let w' := BooksRouter.run (BooksRouter.post_books request) w in
    Express.store w2 = Express.store w' ->
    Express.response w2 = None ->
    Catalog.served w2 ->
    Express.response w'
    = Some {| Express.status := 201;
              Express.body := Express.message "Book successfully added." |}
    /\ exists names,
         Express.response (BooksRouter.run (BooksRouter.get_isbns lookup) w2)
         = Some {| Express.status := 200;
                   Express.body := Express.result
                     (toBook {| Db.columns := Entry.row b;
                                Db.authors :=
                                  Some (Db.string_agg_ordered names) |}) |}
         /\ forall x, In x names <-> In x (Entry.names b).
Proof.
  intros C HA b request lookup w w2 E A N F K D O Acc B w' S2 N2 V2.
  destruct (post_books_links b request w E A N F K D)
    as (R & Bk & K' & Hc & Hd).
  fold w' in R, Bk, K', Hc, Hd.
  split; [exact R|].
  set (n := Entry.isbn13 b) in *.
  assert (U : filter (Engine.has_isbn n) (Db.Books (Express.store w2))
              = [Entry.row b]).
  { rewrite S2, Bk, filter_app.
    rewrite filter_nothing.
    - simpl. unfold Engine.has_isbn. cbn [Entry.row Db.isbn13].
      fold n. rewrite Qeq_bool_refl. reflexivity.
    - intros x Hx. apply not_true_iff_false. intros Hn.
      assert (X : existsb (Engine.has_isbn n) (Db.Books (Express.store w)) = true)
        by (apply existsb_exists; exists x; split; assumption).
      congruence. }
  assert (I : forall x, In x (Catalog.joined_names (Engine.has_isbn n)
                                                   (Express.store w2))
                        <-> In x (Entry.names b)).
  { intros x. unfold Catalog.joined_names. rewrite S2. split.
    - intros H. apply in_map_iff in H. destruct H as ([b' a] & <- & Hj).
      apply filter_In in Hj. destruct Hj as [Hj Hp].
      unfold Engine.by_book, Engine.has_isbn in Hp. cbn [fst snd] in *.
      apply in_joined in Hj. destruct Hj as (_ & ba & Hba & Hq & Ha & Hid).
      destruct (Hd ba Hba) as [H0|(Hi & a' & Ha' & Hid' & Hin)].
      + exfalso. apply (O ba H0).
        apply Qeq_bool_iff in Hq, Hp. rewrite <- Hq. exact Hp.
      + assert (a' = a).
        { apply (same_id_same_author (Db.Author (Express.store w'))); auto.
          - exact (proj1 (proj2 K')).
          - congruence. }
        subst a'. exact Hin.
    - intros H. destruct (Hc x H) as (a & ba & Ha & Hn & Hba & Hi & Hid).
      apply in_map_iff. exists (Entry.row b, a). split; [exact Hn|].
      apply filter_In. split.
      + apply in_joined. split.
        * rewrite Bk. apply in_or_app. right. left. reflexivity.
        * exists ba. repeat split; auto.
          apply Qeq_bool_iff. cbn [Entry.row Db.isbn13]. symmetry. exact Hi.
      + unfold Engine.by_book, Engine.has_isbn. cbn [fst Entry.row Db.isbn13].
        apply Qeq_bool_refl. }
  exists (Catalog.joined_names (Engine.has_isbn n) (Express.store w2)).
  split; [|exact I].
  apply (get_isbns_of_one_book lookup n (Entry.row b) w2 Acc B N2 V2 U).
  intros Z.
  assert (Hne : Entry.names b <> []) by apply split_from_nonempty.
  destruct (Entry.names b) as [|x xs] eqn:En; [congruence|].
  assert (X : In x (Catalog.joined_names (Engine.has_isbn n) (Express.store w2)))
    by (apply I; left; reflexivity).
  rewrite Z in X. exact X.
Qed.

(** The insert of the sample entry with ISBN 9780000000009 into
    [Samples.library], and its read. *)
Lemma X19_inserted_book_witness :
  let request := Samples.with_entry (Entry.entry (Entry.sample 9780000000009)) in
  let w' := BooksRouter.run
              (BooksRouter.post_books (C := Reference.collaborators) request)
              (Express.fresh Samples.library) in
  exists names,
    Express.response
      (BooksRouter.run
         (BooksRouter.get_isbns (C := Reference.collaborators)
            (Samples.with_isbn "9780000000009"))
         (Express.fresh (Express.store w')))
    = Some {| Express.status := 200;
              Express.body := Express.result
                (toBook {| Db.columns := Entry.row (Entry.sample 9780000000009);
                           Db.authors := Some (Db.string_agg_ordered names) |}) |}
    /\ forall x, In x names <-> In x ["Ann Author"].
Proof.
  intros request w'.
  refine (proj2 (X19_inserted_book_is_read_back
                   Reference.collaborators reference_helpers_accept
                   (Entry.sample 9780000000009) request
                   (Samples.with_isbn "9780000000009")
                   (Express.fresh Samples.library)
                   (Express.fresh (Express.store w'))
                   eq_refl (@sample_acceptable 9780000000009 _)
                   eq_refl eq_refl library_keys_hold eq_refl _
                   eq_refl eq_refl eq_refl eq_refl eq_refl)).
  - discriminate.
  - intros ba Hba. simpl in Hba. unfold Qeq.
    repeat (destruct Hba as [<-|Hba]; [simpl; lia|]). destruct Hba.
Defined.

(** ** PUT /rating/:isbn then GET /isbns/:isbn *)

Section UpdateThenRead.
Context {C : Collaborators} {HA : HelpersAccept C}.
Import Express BooksRouter.

(** Rewriting columns other than the ISBN rewrites the join row by row. *)
Lemma joined_map_books (f : Db.BookRow -> Db.BookRow) s :
  (forall b, Db.isbn13 (f b) = Db.isbn13 b) ->
  Db.joined {| Db.Books := map f (Db.Books s);
               Db.Author := Db.Author s;
               Db.Books_Authors := Db.Books_Authors s |}
  = map (fun j => (f (fst j), snd j)) (Db.joined s).
Proof.
  intros I. unfold Db.joined. cbn [Db.Books Db.Author Db.Books_Authors].
  induction (Db.Books s) as [|b books IH]; [reflexivity|].
  cbn [map flat_map]. rewrite map_app, IH. f_equal. clear IH.
  induction (Db.Books_Authors s) as [|ba links IHl]; [reflexivity|].
  cbn [flat_map]. rewrite map_app, IHl. f_equal.
  rewrite I. destruct (Qeq_bool (Db.isbn13 b) (Db.ba_isbn13 ba)); [|reflexivity].
  rewrite map_map. reflexivity.
Qed.

Lemma has_isbn_set_ratings n avg c r1 r2 r3 r4 r5 b :
  Engine.has_isbn n
    (if Engine.has_isbn n b then Engine.set_ratings avg c r1 r2 r3 r4 r5 b else b)
  = Engine.has_isbn n b.
Proof. destruct (Engine.has_isbn n b) eqn:E; [exact E|exact E]. Qed.

Lemma joined_names_after_update n avg c r1 r2 r3 r4 r5 s :
  Catalog.joined_names (Engine.has_isbn n)
    {| Db.Books := map (fun b => if Engine.has_isbn n b
                                 then Engine.set_ratings avg c r1 r2 r3 r4 r5 b
                                 else b) (Db.Books s);
       Db.Author := Db.Author s;
       Db.Books_Authors := Db.Books_Authors s |}
  = Catalog.joined_names (Engine.has_isbn n) s.
Proof.
  unfold Catalog.joined_names.
  rewrite (joined_map_books
             (fun b => if Engine.has_isbn n b
                       then Engine.set_ratings avg c r1 r2 r3 r4 r5 b else b) s)
    by (intros b; destruct (Engine.has_isbn n b); reflexivity).
  rewrite filter_of_map, map_map. cbn [snd].
  f_equal. apply filter_ext. intros [b a]. unfold Engine.by_book. cbn [fst].
  apply has_isbn_set_ratings.
Qed.

Lemma books_after_update n avg c r1 r2 r3 r4 r5 b books :
  filter (Engine.has_isbn n) books = [b] ->
  filter (Engine.has_isbn n)
         (map (fun b => if Engine.has_isbn n b
                        then Engine.set_ratings avg c r1 r2 r3 r4 r5 b else b)
              books)
  = [Engine.set_ratings avg c r1 r2 r3 r4 r5 b].
Proof.
  intros U. rewrite filter_of_map.
  rewrite (filter_ext _ _ (has_isbn_set_ratings n avg c r1 r2 r3 r4 r5)).
  rewrite U. cbn [map].
  assert (H : Engine.has_isbn n b = true).
  { assert (In b (filter (Engine.has_isbn n) books)) by (rewrite U; left; reflexivity).
    apply filter_In in H. exact (proj2 H). }
  rewrite H. reflexivity.
Qed.

(** The by-ISBN read of a store where one book carries the ISBN, with or
    without author links. *)
Lemma get_isbns_of_the_book request n b w :
  isbn_accepted (Req.params_isbn request) = true ->
  Engine.bind_numeric (Req.params_isbn request) = Engine.Bound n ->
  response w = None -> Catalog.served w ->
  filter (Engine.has_isbn n) (Db.Books (store w)) = [b] ->
  response (run (get_isbns request) w)
  = Some (match Catalog.authors_column (Engine.has_isbn n) (store w) with
          | None => {| status := 404; body := message "No book with given ISBN" |}
          | Some names =>
              {| status := 200;
                 body := result (toBook {| Db.columns := b;
                                           Db.authors := Some names |}) |}
          end).
Proof.
  intros A B N S U.
  rewrite (get_isbns_response request w N A).
  rewrite (@round_trip_served C _ w S).
  unfold Engine.exec, Engine.select_by_isbn. cbn [Db.theQuery Db.values fst].
  rewrite B. rewrite (book_view_of_one_book (Engine.has_isbn n) (store w) b U).
  unfold Catalog.authors_column.
  destruct (Catalog.joined_names (Engine.has_isbn n) (store w)); reflexivity.
Qed.

End UpdateThenRead.

(** X20: after a rating update answered 201, the by-ISBN read of the same
    ISBN shows the supplied ratings on the otherwise unchanged book, with the
    authors it had before; a book without author links stays unreadable
    (404). *)
Theorem X20_updated_ratings_are_read_back :
  forall (C : Collaborators) (HA : HelpersAccept C) (request : Req.Request)
         (avg c r1 r2 r3 r4 r5 n : Q) (b : Db.BookRow) (w w2 : Express.World),
    Req.body_ratings request = Some (Req.ratings_of avg c r1 r2 r3 r4 r5) ->
    1 <= avg <= 5 ->
    0 <= c -> 0 <= r1 -> 0 <= r2 -> 0 <= r3 -> 0 <= r4 -> 0 <= r5 ->
    BooksRouter.isbn_accepted (Req.params_isbn request) = true ->
    Engine.bind_numeric (Req.params_isbn request) = Engine.Bound n ->
    Express.response w = None ->
    Catalog.served w ->
    filter (Engine.has_isbn n) (Db.Books (Express.store w)) = [b] ->
    let w' := BooksRouter.run (BooksRouter.put_rating request) w in
    Express.store w2 = Express.store w' ->
    Express.response w2 = None ->
    Catalog.served w2 ->
    Express.response (BooksRouter.run (BooksRouter.get_isbns request) w2)
    = Some (match Catalog.authors_column (Engine.has_isbn n) (Express.store w) with
            | None => {| Express.status := 404;
                         Express.body := Express.message "No book with given ISBN" |}
            | Some names =>
                {| Express.status := 200;
                   Express.body := Express.result
                     (toBook {| Db.columns :=
                                  Engine.set_ratings avg c r1 r2 r3 r4 r5 b;
                                Db.authors := Some names |}) |}
            end).
Proof.
  intros C HA request avg c r1 r2 r3 r4 r5 n b w w2
         B A Hc H1 H2 H3 H4 H5 Acc I N S U w' S2 N2 V2.
  assert (R : Express.store w'
              = {| Db.Books :=
                     map (fun b => if Engine.has_isbn n b
                                   then Engine.set_ratings avg c r1 r2 r3 r4 r5 b
                                   else b) (Db.Books (Express.store w));
                   Db.Author := Db.Author (Express.store w);
                   Db.Books_Authors := Db.Books_Authors (Express.store w) |}).
  { unfold w'.
    rewrite (@put_rating_run C HA request avg c r1 r2 r3 r4 r5 n w
               B A Hc H1 H2 H3 H4 H5 Acc I N S).
    reflexivity. }
  rewrite (get_isbns_of_the_book request n
             (Engine.set_ratings avg c r1 r2 r3 r4 r5 b) w2 Acc I N2 V2).
  - rewrite S2, R. unfold Catalog.authors_column.
    rewrite joined_names_after_update. reflexivity.
  - rewrite S2, R. cbn [Db.Books]. apply books_after_update, U.
Qed.

(** The update of "Emma" in [Samples.library] and its read. *)
Lemma X20_updated_ratings_witness :
  let request := Samples.with_ratings "9780000000003"
                   (Req.ratings_of 5 100 0 0 0 0 100) in
  let w' := BooksRouter.run
              (BooksRouter.put_rating (C := Reference.collaborators) request)
              (Express.fresh Samples.library) in
  Express.response
    (BooksRouter.run
       (BooksRouter.get_isbns (C := Reference.collaborators) request)
       (Express.fresh (Express.store w')))
  = Some {| Express.status := 200;
            Express.body := Express.result
              (toBook {| Db.columns :=
                           Engine.set_ratings 5 100 0 0 0 0 100
                             (Samples.book 9780000000003 "Emma" 5);
                         Db.authors := Some "Zed" |}) |}.
Proof.
  intros request w'.
  apply (X20_updated_ratings_are_read_back
           Reference.collaborators reference_helpers_accept request
           5 100 0 0 0 0 100 9780000000003
           (Samples.book 9780000000003 "Emma" 5)
           (Express.fresh Samples.library)
           (Express.fresh (Express.store w')) eq_refl);
    try reflexivity; try (split; discriminate); discriminate.
Defined.

(** ** POST /pagination/offset: from one page to the next *)

Section NextPage.
Context {C : Collaborators} {HA : HelpersAccept C}.
Import Express BooksRouter.





Lemma firstn_add A (a b : nat) (l : list A) :
  firstn (a + b) l = firstn a l ++ firstn b (skipn a l).
Proof.
  revert l. induction a as [|a IH]; intros l; [reflexivity|].
  destruct l as [|x l]; simpl.
  - rewrite firstn_nil. reflexivity.
  - rewrite IH. reflexivity.
Qed.

End NextPage.


(** ** The aggregated view over the three tables *)

Section ViewFacts.

Lemma book_eqb_same x y : Db.book_eqb x y = true <-> Catalog.same_columns x y.
Proof.
  unfold Db.book_eqb, Catalog.same_columns.
  rewrite !andb_true_iff, !Qeq_bool_iff, !String.eqb_eq. tauto.
Qed.

Lemma joined_linked s b a :
  In (b, a) (Db.joined s) <-> In b (Db.Books s) /\ Catalog.linked_to s b a.
Proof.
  rewrite in_joined. unfold Catalog.linked_to. split.
  - intros (Hb & ba & Hba & E & Ha & Hid). apply Qeq_bool_iff in E.
    split; [exact Hb|]. split; [exact Ha|]. exists ba. auto.
  - intros (Hb & Ha & ba & Hba & E & Hid). split; [exact Hb|].
    exists ba. repeat split; auto. apply Qeq_bool_iff, E.
Qed.

Lemma apart_NoDup (gs : list (Db.BookRow * list string)) :
  ForallOrdPairs (fun g1 g2 => Db.book_eqb (fst g1) (fst g2) = false) gs ->
  NoDup (map fst gs).
Proof.
  induction 1 as [|g gs Hg _ IH]; simpl; constructor; [|exact IH].
  intros Hin. apply in_map_iff in Hin. destruct Hin as (g' & E & Hg').
  rewrite Forall_forall in Hg. specialize (Hg g' Hg'). simpl in Hg.
  rewrite E, book_eqb_refl in Hg. discriminate.
Qed.

(** No book is in two rows of the view. *)
Lemma book_view_distinct where_ s :
  NoDup (map Db.columns (Db.book_view where_ s)).
Proof.
  unfold Db.book_view. rewrite map_map. cbn [Db.columns].
  apply apart_NoDup. apply (group_by_apart Db.BookRow string Db.book_eqb).
Qed.

(** Every row of the view is a row of the join that passes the WHERE. *)
Lemma book_view_sound where_ s row :
  In row (Db.book_view where_ s) ->
  exists a, In (Db.columns row, a) (Db.joined s)
            /\ where_ (Db.columns row, a) = true.
Proof.
  unfold Db.book_view. intros H.
  apply in_map_iff in H. destruct H as (g & <- & Hg). cbn [Db.columns].
  match type of Hg with
  | In g (Db.group_by Db.book_eqb ?rows) =>
      pose proof (group_by_from Db.BookRow string Db.book_eqb
                    (fun b => exists a, In (b, a) (Db.joined s)
                                        /\ where_ (b, a) = true)
                    (fun _ => True) rows) as F
  end.
  apply (proj1 (Forall_forall _ _)) with (x := g) in F; [exact (proj1 F)| |exact Hg].
  intros r Hr. apply in_map_iff in Hr. destruct Hr as ([b a] & <- & Hj).
  apply filter_In in Hj. cbn [fst snd].
  split; [exists a; exact Hj | exact I].
Qed.

(** Every row of the join that passes the WHERE is in a row of the view. *)
Lemma book_view_complete where_ s b a :
  In (b, a) (Db.joined s) -> where_ (b, a) = true ->
  exists row, In row (Db.book_view where_ s)
              /\ Catalog.same_columns (Db.columns row) b.
Proof.
  intros Hj Hw. unfold Db.book_view.
  destruct (group_by_covers Db.BookRow string Db.book_eqb book_eqb_refl
              (map (fun j => (fst j, Db.author_name (snd j)))
                   (filter where_ (Db.joined s)))
              (b, Db.author_name a)) as (g & Hg & Hk).
  - apply in_map_iff. exists (b, a). split; [reflexivity|].
    apply filter_In. split; assumption.
  - exists {| Db.columns := fst g;
              Db.authors := Some (Db.string_agg_ordered (snd g)) |}.
    split; [|apply book_eqb_same; exact Hk].
    apply in_map_iff. exists g. split; [reflexivity|exact Hg].
Qed.

Lemma book_view_stored where_ s row :
  In row (Db.book_view where_ s) ->
  In (Db.columns row) (Db.Books s) /\ Catalog.linked s (Db.columns row).
Proof.
  intros H. destruct (book_view_sound where_ s row H) as (a & Hj & _).
  apply joined_linked in Hj. destruct Hj as [Hb Hl].
  split; [exact Hb|exists a; exact Hl].
Qed.

(** The view has at most as many rows as [Books]. *)
Lemma book_view_length where_ s :
  (length (Db.book_view where_ s) <= length (Db.Books s))%nat.
Proof.
  rewrite <- (length_map Db.columns).
  apply NoDup_incl_length; [apply book_view_distinct|].
  intros b Hb. apply in_map_iff in Hb. destruct Hb as (row & <- & Hr).
  exact (proj1 (book_view_stored where_ s row Hr)).
Qed.



(** No book of the table passes: the view is empty. *)
Lemma book_view_no_book p s :
  (forall b, In b (Db.Books s) -> p b = false) ->
  Db.book_view (Engine.by_book p) s = [].
Proof.
  intros H. unfold Db.book_view.
  rewrite filter_nothing; [reflexivity|].
  intros [b a] Hj. apply joined_book in Hj. exact (H b Hj).
Qed.

End ViewFacts.

(** ** POST /rating: the books of a range *)




(** ** POST /pagination/offset: defaults and the pagination block *)

(** C9: the resolved limit is 16 when the raw limit is absent, is not a
    provided number, does not convert to a number, or is <= 0, and is the raw
    value otherwise; the resolved offset is 0 when the raw offset is absent,
    is not a provided number, does not convert, or is < 0, and is the raw
    value otherwise, 0 included; and when storage answers, for whole values
    whose sum is at most 2^53 (where the addition of the language is exact),
    the pagination block of the response carries nextPage = limit + offset
    whatever the number of records: the page holds at most [limit] books,
    and none when the offset is at or beyond the number of records.  Which
    books a page holds is left open, as the statement has no ORDER BY. *)
Theorem C9_pagination_defaults_and_next_page :
  forall (C : Collaborators) (request : Req.Request),
    let raw_limit := Req.body_limit request in
    let raw_offset := Req.body_offset request in
    let limit := BooksRouter.resolve_limit raw_limit in
    let offset := BooksRouter.resolve_offset raw_offset in
    ((raw_limit = JUndefined -> limit = 16)
     /\ (isNumberProvided raw_limit = false -> limit = 16)
     /\ (Js.ToNumber raw_limit = None -> limit = 16)
     /\ (forall n, Js.ToNumber raw_limit = Some n -> n <= 0 -> limit = 16)
     /\ (forall n, isNumberProvided raw_limit = true ->
                   Js.ToNumber raw_limit = Some n -> 0 < n -> limit = n))
    /\ ((raw_offset = JUndefined -> offset = 0)
        /\ (isNumberProvided raw_offset = false -> offset = 0)
        /\ (Js.ToNumber raw_offset = None -> offset = 0)
        /\ (forall n, Js.ToNumber raw_offset = Some n -> n < 0 -> offset = 0)
        /\ (forall n, isNumberProvided raw_offset = true ->
                      Js.ToNumber raw_offset = Some n -> 0 <= n -> offset = n))
    /\ (forall (w : Express.World) (li oi : Z),
           Express.response w = None ->
           Express.faults w = [] ->
           Engine.as_integer limit = Some li ->
           Engine.as_integer offset = Some oi ->
           (li + oi <= Catalog.max_safe_integer)%Z ->
           exists bs,
             Express.response
               (BooksRouter.run (BooksRouter.post_pagination_offset request) w)
             = Some {| Express.status := 200;
                       Express.body := Express.paged bs
                         {| Express.totalRecords :=
                              inject_Z (Z.of_nat
                                          (length (Db.Books (Express.store w))));
                            Express.limit := limit;
                            Express.offset := offset;
                            Express.nextPage := limit + offset |} |}
             /\ (length bs <= Z.to_nat li)%nat
             /\ ((Z.of_nat (length (Db.Books (Express.store w))) <= oi)%Z ->
                 bs = [])).
Proof.
  intros C request raw_limit raw_offset limit offset.
  unfold limit, offset, BooksRouter.resolve_limit, BooksRouter.resolve_offset.
  split; [|split].
  - repeat split.
    + intros ->. destruct (isNumberProvided JUndefined); reflexivity.
    + intros ->. reflexivity.
    + intros ->. destruct (isNumberProvided raw_limit); reflexivity.
    + intros n -> Hn. destruct (isNumberProvided raw_limit); [|reflexivity].
      replace (Qlt_bool 0 n) with false; [reflexivity|].
      symmetry. apply not_true_iff_false. rewrite Qlt_bool_iff.
      apply Qle_not_lt, Hn.
    + intros n -> -> Hn. rewrite (proj2 (Qlt_bool_iff 0 n) Hn). reflexivity.
  - repeat split.
    + intros ->. destruct (isNumberProvided JUndefined); reflexivity.
    + intros ->. reflexivity.
    + intros ->. destruct (isNumberProvided raw_offset); reflexivity.
    + intros n -> Hn. destruct (isNumberProvided raw_offset); [|reflexivity].
      replace (Qle_bool 0 n) with false; [reflexivity|].
      symmetry. apply not_true_iff_false. rewrite Qle_bool_iff.
      apply Qlt_not_le, Hn.
    + intros n -> -> Hn. rewrite (proj2 (Qle_bool_iff 0 n) Hn). reflexivity.
  - intros w li oi N F L O S.
    fold (BooksRouter.resolve_limit raw_limit) in L |- *.
    fold (BooksRouter.resolve_offset raw_offset) in O |- *.
    pose proof (@as_integer_nonnegative _ _ L
                  (Qlt_le_weak _ _ (resolve_limit_positive _))) as Hl.
    pose proof (@as_integer_nonnegative _ _ O
                  (resolve_offset_nonnegative _)) as Ho.
    unfold Catalog.max_safe_integer in S.
    assert (Bl : (li <= Engine.max_bigint)%Z) by (unfold Engine.max_bigint; lia).
    assert (Bo : (oi <= Engine.max_bigint)%Z) by (unfold Engine.max_bigint; lia).
    eexists. split; [exact (@pagination_response C request w li oi N F L O Bl Bo)|].
    split.
    + rewrite length_map. apply firstn_le_length.
    + intros T.
      pose proof (book_view_length (fun _ => true) (Express.store w)) as V.
      rewrite skipn_all2 by lia. rewrite firstn_nil. reflexivity.
Qed.

(** The request of the testable property, limit = 0 and offset = -5, over the
    three books of [Samples.library]: limit 16, offset 0, nextPage 16, and
    at most sixteen books. *)
Lemma C9_pagination_witness :
  let request := Samples.with_page (JNum 0) (JNum (-5)) in
  BooksRouter.resolve_limit (C := Reference.collaborators) (Req.body_limit request) = 16
  /\ BooksRouter.resolve_offset (C := Reference.collaborators) (Req.body_offset request) = 0
  /\ exists bs,
       Express.response
         (BooksRouter.run
            (BooksRouter.post_pagination_offset (C := Reference.collaborators) request)
            (Express.fresh Samples.library))
       = Some {| Express.status := 200;
                 Express.body := Express.paged bs
                   {| Express.totalRecords := 3;
                      Express.limit := 16; Express.offset := 0;
                      Express.nextPage := 16 + 0 |} |}
       /\ (length bs <= 16)%nat.
Proof.
  intros request.
  destruct (C9_pagination_defaults_and_next_page Reference.collaborators request)
    as ((_ & _ & _ & L & _) & (_ & _ & _ & O & _) & P).
  split; [|split].
  - apply (L 0); [reflexivity | discriminate].
  - apply (O (-5)); reflexivity.
  - destruct (P (Express.fresh Samples.library) 16%Z 0%Z
                eq_refl eq_refl eq_refl eq_refl)
      as (bs & R & Len & _); [discriminate|].
    exists bs. split; [exact R|exact Len].
Defined.

(** ** The deletes, stated of [Books] *)

Section DeletesOverBooks.
Context {C : Collaborators}.
Import Express BooksRouter.

(** The books left by a delete are the books that were not doomed. *)
Lemma without_books_iff doomed s x :
  In x (Db.Books (Catalog.without doomed s))
  <-> In x (Db.Books s) /\ doomed x = false.
Proof.
  cbn [Catalog.without Db.Books]. rewrite filter_In, negb_true_iff. tauto.
Qed.

(** A read by ISBN of a table where no book carries the ISBN. *)
Lemma get_isbns_no_book request n w :
  isbn_accepted (Req.params_isbn request) = true ->
  Engine.bind_numeric (Req.params_isbn request) = Engine.Bound n ->
  response w = None -> Catalog.served w ->
  (forall b, In b (Db.Books (store w)) -> Engine.has_isbn n b = false) ->
  response (run (get_isbns request) w)
  = Some {| status := 404; body := message "No book with given ISBN" |}.
Proof.
  intros A B N S L.
  rewrite (get_isbns_response request w N A).
  rewrite (@round_trip_served C _ w S).
  unfold Engine.exec, Engine.select_by_isbn. cbn [Db.theQuery Db.values fst].
  rewrite B. rewrite (book_view_no_book (Engine.has_isbn n) (store w) L).
  reflexivity.
Qed.

Lemma exec_select_by_title_view v t s :
  Engine.bind_text v = Engine.Bound t ->
  Engine.exec {| Db.theQuery := Db.SelectByTitle; Db.values := [v] |} s
  = (Db.Rows (Db.book_view (Engine.by_book (Engine.has_title t)) s), s).
Proof.
  intros B. unfold Engine.exec, Engine.select_by_title. simpl. rewrite B.
  reflexivity.
Qed.

(** The books the delete by author dooms, in terms of the tables. *)
Lemma wrote_iff name s b :
  In b (Db.Books s) ->
  (Catalog.wrote name s b = true <-> Catalog.has_author_named name s b).
Proof.
  intros Hb. unfold Catalog.wrote, Catalog.has_author_named. split.
  - intros H. apply existsb_exists in H. destruct H as ([b' a] & Hj & H).
    apply andb_true_iff in H. destruct H as [Hw Hq].
    unfold Engine.written_by in Hw. cbn [fst snd] in *.
    apply String.eqb_eq in Hw. apply Qeq_bool_iff in Hq.
    apply joined_linked in Hj. destruct Hj as (_ & Ha & ba & Hba & Hi & Hid).
    exists a. split; [|exact Hw]. split; [exact Ha|].
    exists ba. split; [exact Hba|]. split; [|exact Hid].
    rewrite <- Hq. exact Hi.
  - intros (a & Hl & Hn). apply existsb_exists. exists (b, a). split.
    + apply joined_linked. split; assumption.
    + unfold Engine.written_by. cbn [fst snd].
      rewrite Hn, String.eqb_refl. apply Qeq_bool_refl.
Qed.



End DeletesOverBooks.

(** X7: DELETE /isbns/:isbn of the one book carrying an accepted ISBN answers
    200 with that row and its authors column (the names in alphabetical
    order, or none when the book has no author link).  Afterwards [Books]
    holds the other books and no book of that ISBN, and a read of the same
    ISBN is answered 404, whatever became of the link rows. *)
Theorem X7_delete_by_isbn_returns_the_book_and_removes_it :
  forall (C : Collaborators) (request : Req.Request) (n : Q) (b : Db.BookRow)
         (w : Express.World),
    BooksRouter.isbn_accepted (Req.params_isbn request) = true ->
    Engine.bind_numeric (Req.params_isbn request) = Engine.Bound n ->
    Express.response w = None ->
    Catalog.served w ->
    filter (Engine.has_isbn n) (Db.Books (Express.store w)) = [b] ->
    let w' := BooksRouter.run (BooksRouter.delete_isbns request) w in
    Express.response w'
    = Some {| Express.status := 200;
              Express.body := Express.result
                (toBook {| Db.columns := b;
                           Db.authors :=
                             Catalog.authors_column (Engine.has_isbn n)
                                                    (Express.store w) |}) |}
    /\ (forall x, In x (Db.Books (Express.store w'))
                  <-> In x (Db.Books (Express.store w))
                      /\ Engine.has_isbn n x = false)
    /\ (forall w2,
           (forall x, In x (Db.Books (Express.store w2)) ->
                      In x (Db.Books (Express.store w'))) ->
           Express.response w2 = None -> Catalog.served w2 ->
           Express.response (BooksRouter.run (BooksRouter.get_isbns request) w2)
           = Some {| Express.status := 404;
                     Express.body := Express.message "No book with given ISBN" |}).
Proof.
  intros C request n b w A B N S U w'.
  pose proof (exec_delete_by_isbn (Req.params_isbn request) n b (Express.store w) B U)
    as E.
  pose proof (delete_isbns_run request n w _ A B N S (f_equal fst E)) as R.
  fold w' in R. rewrite E in R. cbn [snd] in R.
  assert (K : forall x, In x (Db.Books (Express.store w'))
                        <-> In x (Db.Books (Express.store w))
                            /\ Engine.has_isbn n x = false).
  { intros x. rewrite R. cbn [Express.store]. apply without_books_iff. }
  split; [rewrite R; reflexivity|].
  split; [exact K|].
  intros w2 S2 N2 V2.
  apply (get_isbns_no_book request n w2 A B N2 V2).
  intros x Hx. exact (proj2 (proj1 (K x) (S2 x Hx))).
Qed.

(** The delete of "Emma" from [Samples.library], and the read that follows
    on a store that kept every link row. *)
Lemma X7_delete_by_isbn_witness :
  let request := Samples.with_isbn "9780000000003" in
  let w' := BooksRouter.run
              (BooksRouter.delete_isbns (C := Reference.collaborators) request)
              (Express.fresh Samples.library) in
  Express.sent_books w'
  = [ toBook {| Db.columns := Samples.book 9780000000003 "Emma" 5;
                Db.authors := Some "Zed" |} ]
  /\ Express.response
       (BooksRouter.run
          (BooksRouter.get_isbns (C := Reference.collaborators) request)
          (Express.fresh
             {| Db.Books := Db.Books (Express.store w');
                Db.Author := Db.Author Samples.library;
                Db.Books_Authors := Db.Books_Authors Samples.library |}))
     = Some {| Express.status := 404;
               Express.body := Express.message "No book with given ISBN" |}.
Proof.
  intros request w'.
  destruct (X7_delete_by_isbn_returns_the_book_and_removes_it
              Reference.collaborators request 9780000000003
              (Samples.book 9780000000003 "Emma" 5)
              (Express.fresh Samples.library)
              eq_refl eq_refl eq_refl eq_refl eq_refl) as (R & _ & G).
  split.
  - subst w'. unfold Express.sent_books. rewrite R. reflexivity.
  - apply G; [intros x Hx; exact Hx|reflexivity|reflexivity].
Defined.

(** X12: the search by title matches the title exactly.  The answer is 404
    "No book with given title" when no row is found and 200 with the rows
    found otherwise; the rows found are, once each and in an order the
    statement leaves open, the stored books of that title that have an
    author; every book sent carries the requested title. *)
Theorem X12_title_search_is_an_exact_match :
  forall (C : Collaborators) (request : Req.Request) (t : string)
         (w : Express.World),
    isStringProvided (Req.params_name request) = true ->
    Engine.bind_text (Req.params_name request) = Engine.Bound t ->
    Express.response w = None ->
    Catalog.served w ->
    let s := Express.store w in
    let w' := BooksRouter.run (BooksRouter.get_title request) w in
    (exists rows,
        Express.response w'
        = Some (match rows with
                | [] => {| Express.status := 404;
                           Express.body :=
                             Express.message "No book with given title" |}
                | _ => {| Express.status := 200;
                          Express.body := Express.results (map toBook rows) |}
                end)
        /\ NoDup (map Db.columns rows)
        /\ (forall row, In row rows ->
              In (Db.columns row) (Db.Books s)
              /\ Db.title (Db.columns row) = t
              /\ Catalog.linked s (Db.columns row))
        /\ (forall b, In b (Db.Books s) -> Db.title b = t -> Catalog.linked s b ->
              exists row, In row rows
                          /\ Catalog.same_columns (Db.columns row) b))
    /\ forall b, In b (Express.sent_books w') -> title b = t.
Proof.
  intros C request t w P B N S s w'.
  pose proof (by_name_run Db.SelectByTitle "No book with given title" request w
                _ _ P N S
                (exec_select_by_title_view (Req.params_name request) t
                   (Express.store w) B)) as R.
  change (BooksRouter.run _ w) with w' in R. fold s in R.
  set (rows := Db.book_view (Engine.by_book (Engine.has_title t)) s) in *.
  assert (So : forall row, In row rows ->
                 In (Db.columns row) (Db.Books s)
                 /\ Db.title (Db.columns row) = t
                 /\ Catalog.linked s (Db.columns row)).
  { intros row Hr. destruct (book_view_sound _ s row Hr) as (a & Hj & Hw).
    unfold Engine.by_book, Engine.has_title in Hw. cbn [fst] in Hw.
    apply String.eqb_eq in Hw.
    apply joined_linked in Hj. destruct Hj as [Hb Hl].
    split; [exact Hb|]. split; [exact Hw|]. exists a. exact Hl. }
  split.
  - exists rows. split; [rewrite R; reflexivity|].
    split; [apply book_view_distinct|]. split; [exact So|].
    intros b Hb Ht (a & Hl).
    apply (book_view_complete (Engine.by_book (Engine.has_title t)) s b a).
    + apply joined_linked. split; assumption.
    + unfold Engine.by_book, Engine.has_title. cbn [fst].
      apply String.eqb_eq. exact Ht.
  - intros b Hb. unfold Express.sent_books in Hb. rewrite R in Hb.
    cbn [Express.response] in Hb.
    assert (Hin : In b (map toBook rows)).
    { destruct rows as [|row rows']; [contradiction|exact Hb]. }
    apply in_map_iff in Hin. destruct Hin as (row & <- & Hr).
    exact (proj1 (proj2 (So row Hr))).
Qed.

Lemma X12_title_search_witness :
  let w' := BooksRouter.run
              (BooksRouter.get_title (C := Reference.collaborators)
                 (Samples.with_name "Emma"))
              (Express.fresh Samples.library) in
  map isbn13 (Express.sent_books w') = [9780000000003]
  /\ forall b, In b (Express.sent_books w') -> title b = "Emma".
Proof.
  split; [reflexivity|].
  exact (proj2 (X12_title_search_is_an_exact_match Reference.collaborators
                  (Samples.with_name "Emma") "Emma"
                  (Express.fresh Samples.library)
                  eq_refl eq_refl eq_refl eq_refl)).
Defined.

(** X13: DELETE /title/:name when at most one book carries the title.  With
    no such book the answer is 404 "title not found" and the store is
    unchanged; with one, the answer is 200 with that book and its authors
    column.  Afterwards [Books] holds the other books and no book of that
    title. *)
Theorem X13_delete_by_title_of_at_most_one_book :
  forall (C : Collaborators) (request : Req.Request) (t : string)
         (w : Express.World),
    isStringProvided (Req.params_name request) = true ->
    Engine.bind_text (Req.params_name request) = Engine.Bound t ->
    Express.response w = None ->
    Catalog.served w ->
    let titled := filter (Engine.has_title t) (Db.Books (Express.store w)) in
    (length titled <= 1)%nat ->
    let w' := BooksRouter.run (BooksRouter.delete_title request) w in
    Express.response w'
    = Some (match titled with
            | [] => {| Express.status := 404;
                       Express.body := Express.message "title not found" |}
            | b :: _ =>
                {| Express.status := 200;
                   Express.body := Express.results
                     [toBook {| Db.columns := b;
                                Db.authors :=
                                  Catalog.authors_column (Engine.has_title t)
                                                         (Express.store w) |}] |}
            end)
    /\ (forall x, In x (Db.Books (Express.store w'))
                  <-> In x (Db.Books (Express.store w))
                      /\ Engine.has_title t x = false)
    /\ (titled = [] -> Express.store w' = Express.store w)
    /\ filter (Engine.has_title t) (Db.Books (Express.store w')) = [].
Proof.
  intros C request t w P B N S titled L w'.
  pose proof (by_name_run Db.DeleteByTitle "title not found" request w _ _ P N S
                (exec_delete_by_title (Req.params_name request) t
                   (Express.store w) B L)) as R.
  fold titled in R. change (BooksRouter.run _ w) with w' in R.
  rewrite R. cbn [Express.response Express.store].
  split; [|split; [|split]].
  - destruct titled as [|b [|b' bs]]; [reflexivity|reflexivity|].
    simpl in L. lia.
  - intros x. apply without_books_iff.
  - intros E. apply without_nothing. exact E.
  - apply without_books.
Qed.

Lemma X13_delete_by_title_witness :
  let w' := BooksRouter.run
              (BooksRouter.delete_title (C := Reference.collaborators)
                 (Samples.with_name "Emma"))
              (Express.fresh Samples.library) in
  Express.response w'
  = Some {| Express.status := 200;
            Express.body := Express.results
              [toBook {| Db.columns := Samples.book 9780000000003 "Emma" 5;
                         Db.authors := Some "Zed" |}] |}
  /\ filter (Engine.has_title "Emma") (Db.Books (Express.store w')) = [].
Proof.
  destruct (X13_delete_by_title_of_at_most_one_book Reference.collaborators
              (Samples.with_name "Emma") "Emma" (Express.fresh Samples.library)
              eq_refl eq_refl eq_refl eq_refl (le_n 1)) as (R & _ & _ & G).
  split; [exact R | exact G].
Defined.

(** X14: DELETE /author/:name removes from [Books] every book that some link
    gives an author of exactly that name, co-authored books included; its
    subquery is correlated on the ISBN, so the statement does not fail when
    several books match.  The answer is 200 with the removed books, in an
    order the statement leaves open, or 404 "Authors not found" when there
    is none, and then the store is unchanged.  Afterwards a search by the
    same author answers 404, whatever became of the link rows. *)
Theorem X14_delete_by_author_removes_every_book_of_the_author :
  forall (C : Collaborators) (request : Req.Request) (name : string)
         (w : Express.World),
    isStringProvided (Req.params_name request) = true ->
    Engine.bind_text (Req.params_name request) = Engine.Bound name ->
    Express.response w = None ->
    Catalog.served w ->
    let s := Express.store w in
    let w' := BooksRouter.run (BooksRouter.delete_author request) w in
    (forall b, In b (Db.Books s) ->
               (Catalog.wrote name s b = true
                <-> Catalog.has_author_named name s b))
    /\ (exists rows,
           Permutation (map Db.columns rows)
                       (filter (Catalog.wrote name s) (Db.Books s))
           /\ Express.response w'
              = Some (match rows with
                      | [] => {| Express.status := 404;
                                 Express.body :=
                                   Express.message "Authors not found" |}
                      | _ => {| Express.status := 200;
                                Express.body :=
                                  Express.results (map toBook rows) |}
                      end))
    /\ (forall x, In x (Db.Books (Express.store w'))
                  <-> In x (Db.Books s)
                      /\ ~ Catalog.has_author_named name s x)
    /\ ((forall b, In b (Db.Books s) -> ~ Catalog.has_author_named name s b) ->
        Express.store w' = s)
    /\ (forall w2,
           (forall x, In x (Db.Books (Express.store w2)) ->
                      In x (Db.Books (Express.store w'))) ->
           incl (Db.Author (Express.store w2)) (Db.Author s) ->
           incl (Db.Books_Authors (Express.store w2)) (Db.Books_Authors s) ->
           Express.response w2 = None -> Catalog.served w2 ->
           Express.response
             (BooksRouter.run (BooksRouter.get_author request) w2)
           = Some {| Express.status := 404;
                     Express.body := Express.message "Author not found" |}).
Proof.
  intros C request name w P B N S s w'.
  destruct (exec_delete_by_author (Req.params_name request) name
              (Express.store w) B) as (rows & M & E).
  pose proof (by_name_run Db.DeleteByAuthor "Authors not found" request w _ _
                P N S E) as R.
  change (BooksRouter.run _ w) with w' in R. fold s in R, M.
  assert (K : forall x, In x (Db.Books (Express.store w'))
                        <-> In x (Db.Books s)
                            /\ ~ Catalog.has_author_named name s x).
  { intros x. rewrite R. cbn [Express.store]. rewrite without_books_iff.
    split.
    - intros [Hx Hd]. split; [exact Hx|]. intros Hn.
      apply (wrote_iff name s x Hx) in Hn. congruence.
    - intros [Hx Hn]. split; [exact Hx|].
      apply not_true_iff_false. intros Hw. apply Hn.
      apply (wrote_iff name s x Hx). exact Hw. }
  split; [intros b Hb; apply wrote_iff; exact Hb|].
  split; [exists rows; split; [rewrite M; apply Permutation_refl
                              |rewrite R; reflexivity]|].
  split; [exact K|].
  split.
  { intros D. rewrite R. cbn [Express.store]. apply without_nothing.
    apply filter_nothing. intros b Hb. apply not_true_iff_false. intros Hw.
    apply (D b Hb). apply (wrote_iff name s b Hb). exact Hw. }
  intros w2 S2 A2 L2 N2 V2.
  apply (get_author_of_nobody request name w2 P B N2 V2).
  apply filter_nothing. intros [b a] Hj.
  destruct (Engine.written_by name (b, a)) eqn:Hw; [exfalso|reflexivity].
  unfold Engine.written_by in Hw. cbn [snd] in Hw. apply String.eqb_eq in Hw.
  apply joined_linked in Hj. destruct Hj as (Hb & Ha & ba & Hba & Hi & Hid).
  destruct (proj1 (K b) (S2 b Hb)) as [_ Hn]. apply Hn.
  exists a. split; [|exact Hw]. split; [apply A2, Ha|].
  exists ba. split; [apply L2, Hba|]. split; assumption.
Qed.

(** The delete of the books of Abe from [Samples.library]: both books titled
    "Dune" go, the one co-written with Zed included; the search that follows
    runs on a store that kept every link row. *)
Lemma X14_delete_by_author_witness :
  let request := Samples.with_name "Abe" in
  let w' := BooksRouter.run
              (BooksRouter.delete_author (C := Reference.collaborators) request)
              (Express.fresh Samples.library) in
  (forall x, In x (Db.Books (Express.store w'))
             -> x = Samples.book 9780000000003 "Emma" 5)
  /\ Express.response
       (BooksRouter.run
          (BooksRouter.get_author (C := Reference.collaborators) request)
          (Express.fresh
             {| Db.Books := Db.Books (Express.store w');
                Db.Author := Db.Author Samples.library;
                Db.Books_Authors := Db.Books_Authors Samples.library |}))
     = Some {| Express.status := 404;
               Express.body := Express.message "Author not found" |}.
Proof.
  intros request w'.
  destruct (X14_delete_by_author_removes_every_book_of_the_author
              Reference.collaborators request "Abe"
              (Express.fresh Samples.library)
              eq_refl eq_refl eq_refl eq_refl) as (_ & _ & _ & _ & G).
  split.
  - intros x Hx. destruct Hx as [<-|[]]. reflexivity.
  - apply G; [intros x Hx; exact Hx|apply incl_refl|apply incl_refl
             |reflexivity|reflexivity].
Defined.

(** X15: the search by author answers 404 "Author not found" when no row is
    found and 200 with the rows found otherwise; the rows found are, once
    each and in an order the statement leaves open, the stored books that
    some link gives an author of the searched name; the [authors] field of
    each holds that name alone, once per link: the co-authors are not
    listed. *)
Theorem X15_author_search_lists_the_searched_name_only :
  forall (C : Collaborators) (request : Req.Request) (name : string)
         (w : Express.World),
    isStringProvided (Req.params_name request) = true ->
    Engine.bind_text (Req.params_name request) = Engine.Bound name ->
    Express.response w = None ->
    Catalog.served w ->
    let s := Express.store w in
    let w' := BooksRouter.run (BooksRouter.get_author request) w in
    exists rows,
      Express.response w'
      = Some (match rows with
              | [] => {| Express.status := 404;
                         Express.body := Express.message "Author not found" |}
              | _ => {| Express.status := 200;
                        Express.body := Express.results (map toBook rows) |}
              end)
      /\ NoDup (map Db.columns rows)
      /\ (forall row, In row rows ->
            In (Db.columns row) (Db.Books s)
            /\ Catalog.has_author_named name s (Db.columns row)
            /\ exists k, authors (toBook row)
                         = Some (String.concat ", " (repeat name (S k))))
      /\ (forall b, In b (Db.Books s) ->
            Catalog.has_author_named name s b ->
            exists row, In row rows
                        /\ Catalog.same_columns (Db.columns row) b).
Proof.
  intros C request name w P B N S s w'.
  pose proof (by_name_run Db.SelectByAuthor "Author not found" request w _ _
                P N S (exec_select_by_author (Req.params_name request) name
                         (Express.store w) B)) as R.
  change (BooksRouter.run _ w) with w' in R. fold s in R.
  exists (Db.book_view (Engine.written_by name) s).
  split; [rewrite R; reflexivity|]. split; [apply book_view_distinct|].
  split.
  - intros row Hr.
    destruct (book_view_by_author name s row Hr) as ((a & Ja & Na) & K).
    apply joined_linked in Ja. destruct Ja as [Hb Hl].
    split; [exact Hb|]. split; [exists a; split; assumption|exact K].
  - intros b Hb (a & Hl & Hn).
    apply (book_view_complete (Engine.written_by name) s b a).
    + apply joined_linked. split; assumption.
    + unfold Engine.written_by. cbn [snd]. apply String.eqb_eq. exact Hn.
Qed.

Lemma X15_author_search_witness :
  let w' := BooksRouter.run
              (BooksRouter.get_author (C := Reference.collaborators)
                 (Samples.with_name "Zed"))
              (Express.fresh Samples.library) in
  map authors (Express.sent_books w') = [Some "Zed"; Some "Zed"]
  /\ exists rows,
       Express.response w'
       = Some (match rows with
               | [] => {| Express.status := 404;
                          Express.body := Express.message "Author not found" |}
               | _ => {| Express.status := 200;
                         Express.body := Express.results (map toBook rows) |}
               end)
       /\ exists row, In row rows
                      /\ Catalog.same_columns (Db.columns row)
                           (Samples.book 9780000000001 "Dune" 4).
Proof.
  intros w'. split; [reflexivity|].
  destruct (X15_author_search_lists_the_searched_name_only
              Reference.collaborators (Samples.with_name "Zed") "Zed"
              (Express.fresh Samples.library)
              eq_refl eq_refl eq_refl eq_refl) as (rows & R & _ & _ & Co).
  exists rows. split; [exact R|].
  apply Co.
  - left. reflexivity.
  - exists (Samples.author 1 "Zed"). split; [|reflexivity].
    split; [left; reflexivity|].
    exists (Samples.link 9780000000001 1).
    split; [left; reflexivity|]. split; reflexivity.
Defined.


